(** * The labeling toolbox of DeepLabCut: annotation store and point editor

    A shallow embedding of
    [deeplabcut/generate_training_dataset/labeling_toolbox.py].  The class
    [MainFrame] is a record of the attributes its callbacks read and write;
    a callback is a computation in a small state-and-exception monad over a
    world made of the frame, the files on disk and the trace of what the
    user is shown.  The pandas table behind [self.dataFrame] is an ordered
    list of labelled rows under an ordered list of three-level column keys. *)

From Stdlib Require Import List String Ascii Bool Arith ZArith Lia.
From Stdlib Require Import Sorting.Sorted Permutation.
Import ListNotations.
Open Scope string_scope.
Open Scope list_scope.

Set Implicit Arguments.

(** Python's [+] on strings. *)
Infix "+++" := String.append (right associativity, at level 60).

(* ------------------------------------------------------------------ *)
(** ** Python strings *)

Module Str.

(** [sub in s] of Python. *)
Fixpoint contains (sub s : string) : bool :=
  match s with
  | EmptyString => prefix sub s
  | String _ s' => prefix sub s || contains sub s'
  end.

(** [s.split(sep)] for a non-empty [sep]: [skip] counts the characters of a
    separator still to be passed over, [acc] is the piece read so far. *)
Fixpoint split_from (sep : string) (skip : nat) (acc : string) (s : string)
  : list string :=
  match s with
  | EmptyString => [acc]
  | String c s' =>
      match skip with
      | S k => split_from sep k acc s'
      | O =>
          if prefix sep s
          then acc :: split_from sep (String.length sep - 1) "" s'
          else split_from sep 0 (acc +++ String c "") s'
      end
  end.

Definition split (sep s : string) : list string := split_from sep 0 "" s.

(** [s.replace(old, new)] for a non-empty [old]. *)
Fixpoint replace_from (old new : string) (skip : nat) (s : string) : string :=
  match s with
  | EmptyString => ""
  | String c s' =>
      match skip with
      | S k => replace_from old new k s'
      | O =>
          if prefix old s
          then new +++ replace_from old new (String.length old - 1) s'
          else String c (replace_from old new 0 s')
      end
  end.

Definition replace (old new s : string) : string := replace_from old new 0 s.

Definition endswith (suffix s : string) : bool :=
  let n := String.length s in
  let m := String.length suffix in
  Nat.leb m n && String.eqb (substring (n - m) m s) suffix.

(** [posixpath.join(a, b)]. *)
Definition path_join (a b : string) : string :=
  if prefix "/" b then b
  else if String.eqb a "" || endswith "/" a then a +++ b
  else a +++ "/" +++ b.

Definition mem (x : string) (l : list string) : bool :=
  existsb (String.eqb x) l.

End Str.

(** [np.sort] on a list of strings, and the order behind [sort_index]:
    insertion keeps equal labels in their first order. *)
Fixpoint insert_by {A} (key : A -> string) (x : A) (l : list A) : list A :=
  match l with
  | [] => [x]
  | h :: t =>
      if String.leb (key x) (key h) then x :: h :: t
      else h :: insert_by key x t
  end.

Definition sort_by {A} (key : A -> string) (l : list A) : list A :=
  fold_right (insert_by key) [] l.

Definition np_sort (l : list string) : list string := sort_by (fun s => s) l.

Fixpoint nodupb (l : list string) : bool :=
  match l with
  | [] => true
  | x :: t => negb (Str.mem x t) && nodupb t
  end.

(** [enumerate(l)] counting from [n]. *)
Fixpoint enumerate_from {A} (n : nat) (l : list A) : list (nat * A) :=
  match l with
  | [] => []
  | x :: t => (n, x) :: enumerate_from (S n) t
  end.

Definition enumerate {A} (l : list A) : list (nat * A) := enumerate_from 0 l.

(** Exceptions the callbacks can meet. *)
Inductive Exn :=
| KeyError | IndexError | TypeError | ValueError | AttributeError
| NotImplementedError | InvalidIndexError
| FileNotFoundError | PermissionError | FileExistsError.

Section Model.

(** The real numbers coordinates are drawn from.  The toolbox stores and
    copies them and never computes with them, so they stay abstract. *)
Variable real : Type.

(* ------------------------------------------------------------------ *)
(** ** The pandas table *)

(** One value of the table: a number or the not-a-number sentinel (which is
    also what [None] becomes when it is stored in a float column). *)
Inductive cell := NaN | Val (v : real).

Definition isnan (c : cell) : bool :=
  match c with NaN => true | Val _ => false end.

(** A key of the three-level column header: scorer, bodyparts, coords. *)
Definition ColKey : Type := string * string * string.

Definition key_scorer (k : ColKey) : string := fst (fst k).
Definition key_bodypart (k : ColKey) : string := snd (fst k).
Definition key_coords (k : ColKey) : string := snd k.

Definition key_eqb (a b : ColKey) : bool :=
  String.eqb (key_scorer a) (key_scorer b)
  && String.eqb (key_bodypart a) (key_bodypart b)
  && String.eqb (key_coords a) (key_coords b).

Definition key_mem (k : ColKey) (l : list ColKey) : bool := existsb (key_eqb k) l.

Fixpoint keys_nodupb (l : list ColKey) : bool :=
  match l with
  | [] => true
  | k :: t => negb (key_mem k t) && keys_nodupb t
  end.

Fixpoint keys_eqb (a b : list ColKey) : bool :=
  match a, b with
  | [], [] => true
  | x :: a', y :: b' => key_eqb x y && keys_eqb a' b'
  | _, _ => false
  end.

Fixpoint labels_eqb (a b : list string) : bool :=
  match a, b with
  | [], [] => true
  | x :: a', y :: b' => String.eqb x y && labels_eqb a' b'
  | _, _ => false
  end.

(** A row: its index label (the relative path of a frame) and one cell per
    column, in column order. *)
Definition Row : Type := string * list cell.

Record DataFrame := mkDataFrame {
  columns : list ColKey;
  rows : list Row
}.

Definition df_index (df : DataFrame) : list string := map fst (rows df).

Definition nan_cells (n : nat) : list cell := repeat NaN n.

(** [pd.MultiIndex.from_product([[scorer], [bodypart], ["x", "y"]])]. *)
Definition from_product (scorer bodypart : string) : list ColKey :=
  [(scorer, bodypart, "x"); (scorer, bodypart, "y")].

(** [pd.DataFrame(a, columns=cols, index=labels)] for an array [a] that holds
    NaN everywhere. *)
Definition nan_frame (cols : list ColKey) (labels : list string) : DataFrame :=
  mkDataFrame cols (map (fun l => (l, nan_cells (List.length cols))) labels).

Definition find_row (df : DataFrame) (label : string) : option Row :=
  find (fun r => String.eqb (fst r) label) (rows df).

Definition cells_or_nan (df : DataFrame) (label : string) : list cell :=
  match find_row df label with
  | Some r => snd r
  | None => nan_cells (List.length (columns df))
  end.

(** The first cell of a row that stands under column [k]; NaN if none. *)
Fixpoint cell_under (k : ColKey) (cols : list ColKey) (cells : list cell) : cell :=
  match cols, cells with
  | c :: cols', x :: cells' =>
      if key_eqb c k then x else cell_under k cols' cells'
  | _, _ => NaN
  end.

(** [pd.concat([l, r], axis=1)]: columns side by side, rows aligned on the
    index with an outer join; [None] entries are skipped.  With equal indexes
    the rows are paired in place; otherwise both indexes must be free of
    duplicates and the result keeps the rows of [l] and then the labels only
    [r] has. *)
Definition concat_axis1 (l : option DataFrame) (r : DataFrame)
  : Exn + DataFrame :=
  match l with
  | None => inr r
  | Some l =>
      if labels_eqb (df_index l) (df_index r) then
        inr (mkDataFrame (columns l ++ columns r)
               (map (fun p => (fst (fst p), snd (fst p) ++ snd (snd p)))
                    (combine (rows l) (rows r))))
      else if nodupb (df_index l) && nodupb (df_index r) then
        let labels :=
          df_index l
          ++ filter (fun x => negb (Str.mem x (df_index l))) (df_index r) in
        inr (mkDataFrame (columns l ++ columns r)
               (map (fun x => (x, cells_or_nan l x ++ cells_or_nan r x)) labels))
      else inl InvalidIndexError
  end.

(** [pd.concat([l, r], axis=0)]: rows one after the other, columns aligned
    with an outer join; a [None] entry is skipped. *)
Definition concat_axis0 (l : DataFrame) (r : option DataFrame)
  : Exn + DataFrame :=
  match r with
  | None => inr l
  | Some r =>
      if keys_eqb (columns l) (columns r) then
        inr (mkDataFrame (columns l) (rows l ++ rows r))
      else if keys_nodupb (columns l) && keys_nodupb (columns r) then
        let extra := filter (fun k => negb (key_mem k (columns l))) (columns r) in
        let cols := columns l ++ extra in
        inr (mkDataFrame cols
               (map (fun row => (fst row, snd row ++ nan_cells (List.length extra)))
                    (rows l)
                ++ map (fun row =>
                          (fst row,
                           map (fun k => cell_under k (columns r) (snd row)) cols))
                       (rows r)))
      else inl InvalidIndexError
  end.

(** [df.sort_index()]. *)
Definition sort_index (df : DataFrame) : DataFrame :=
  mkDataFrame (columns df) (sort_by (fun r : Row => fst r) (rows df)).

(** [df.dropna(how="all")]: drop the rows in which every value is NaN. *)
Definition dropna_all (df : DataFrame) : DataFrame :=
  mkDataFrame (columns df)
    (filter (fun r : Row => negb (forallb isnan (snd r))) (rows df)).

(** The cells of a row under the columns that satisfy [p]. *)
Fixpoint select_cells (p : ColKey -> bool) (cols : list ColKey)
  (cells : list cell) : list cell :=
  match cols, cells with
  | c :: cols', x :: cells' =>
      if p c then x :: select_cells p cols' cells'
      else select_cells p cols' cells'
  | _, _ => []
  end.

Definition has_bodypart (bp : string) (k : ColKey) : bool :=
  String.eqb (key_bodypart k) bp.

(** [df.reindex(target, axis=1, level="bodyparts")]: the columns are grouped
    by bodypart in the order of [target], columns of a bodypart outside
    [target] are dropped, none is added, and columns of one bodypart keep
    their order.  pandas refuses a [target] with duplicates.  (pandas sorts
    inside each run of columns of one scorer; the tables of the toolbox have
    one scorer.) *)
Definition reindex_bodyparts (target : list string) (df : DataFrame)
  : Exn + DataFrame :=
  if nodupb target then
    inr (mkDataFrame
           (flat_map (fun bp => filter (has_bodypart bp) (columns df)) target)
           (map (fun r : Row =>
                   (fst r,
                    flat_map (fun bp =>
                                select_cells (has_bodypart bp) (columns df) (snd r))
                             target))
                (rows df)))
  else inl NotImplementedError.

(** Positions of the columns named [k]. *)
Fixpoint col_positions (k : ColKey) (from : nat) (cols : list ColKey) : list nat :=
  match cols with
  | [] => []
  | c :: cols' =>
      if key_eqb c k then from :: col_positions k (S from) cols'
      else col_positions k (S from) cols'
  end.

(** [df[scorer][bodypart][coords].values[i]]: the column is selected first
    (KeyError if there is none), then the row by position (IndexError).  A
    key that names several columns selects a two-dimensional block, which the
    scalar consumers of the toolbox reject; the model raises at the read. *)
Definition values_at (df : DataFrame) (k : ColKey) (i : nat) : Exn + cell :=
  match col_positions k 0 (columns df) with
  | [] => inl KeyError
  | [j] =>
      match nth_error (rows df) i with
      | None => inl IndexError
      | Some r => inr (nth j (snd r) NaN)
      end
  | _ => inl ValueError
  end.

(** The cells of a row after [row[k] = v]: every cell under a column named
    [k] is overwritten; a key that names no column leaves the row alone (the
    assignment then grows a temporary series, not the table). *)
Fixpoint set_cells (k : ColKey) (v : cell) (cols : list ColKey)
  (cells : list cell) : list cell :=
  match cols, cells with
  | c :: cols', x :: cells' =>
      (if key_eqb c k then v else x) :: set_cells k v cols' cells'
  | _, _ => cells
  end.

(** The table after [df.loc[label][k] = v].  Where one row has the label,
    [df.loc[label]] is a view of that row and the assignment writes through;
    where several rows have it, [df.loc[label]] is a copy of these rows and
    the assignment is lost. *)
Definition put (df : DataFrame) (label : string) (k : ColKey) (v : cell)
  : DataFrame :=
  if (count_occ string_dec (df_index df) label =? 1)%nat then
    mkDataFrame (columns df)
      (map (fun r : Row =>
              if String.eqb (fst r) label
              then (fst r, set_cells k v (columns df) (snd r))
              else r)
           (rows df))
  else df.

(** [df.loc[label][k] = v]: KeyError when no row has the label. *)
Definition loc_set (df : DataFrame) (label : string) (k : ColKey) (v : cell)
  : Exn + DataFrame :=
  if Str.mem label (df_index df) then inr (put df label k v)
  else inl KeyError.

(** [df.loc[curr] = df.loc[prev].values]: the values of the row labelled
    [prev] (KeyError if there is none) replace those of every row labelled
    [curr]; a label the index does not have yet is appended as a new row. *)
Definition loc_assign_row (df : DataFrame) (curr prev : string)
  : Exn + DataFrame :=
  match find_row df prev with
  | None => inl KeyError
  | Some p =>
      if Str.mem curr (df_index df) then
        inr (mkDataFrame (columns df)
               (map (fun r : Row =>
                       if String.eqb (fst r) curr then (fst r, snd p) else r)
                    (rows df)))
      else inr (mkDataFrame (columns df) (rows df ++ [(curr, snd p)]))
  end.

(** [np.prod(np.isnan(df.loc[j, :].values)) == 1]. *)
Definition row_all_nan (df : DataFrame) (j : string) : bool :=
  forallb (fun r : Row => negb (String.eqb (fst r) j) || forallb isnan (snd r))
          (rows df).

(* ------------------------------------------------------------------ *)
(** ** The point editor and the frame *)

(** One element of a handle's [coords] list: [[x, y, bodypart, bpindex]]. *)
Record entry := mkEntry {
  e_x : cell;
  e_y : cell;
  e_name : string;
  e_index : nat
}.

(** [patches.Circle((x, y), radius=self.markerSize, ...)]; colour and opacity
    only matter to the renderer. *)
Record Circle := mkCircle {
  center : cell * cell;
  radius : nat
}.

(** The circle [onClick] creates from the position of the mouse event, which
    is [None] outside the axes. *)
Record Patch := mkPatch {
  patch_center : option cell * option cell;
  patch_radius : nat
}.

(** [auxfun_drag_label.DraggablePoint(circle, bodyParts)].  Its [coords]
    attribute is the very list object that is appended to
    [self.updatedCoords] next to it, so the list is kept once, there. *)
Record DraggablePoint := mkDraggablePoint {
  point : Circle;
  bodyParts : string
}.

(** The attributes of [MainFrame] that the callbacks below read.  ([rdb] is
    the selection of the radio box, [pan_value] and [zoom_value] the state of
    the two toggle buttons.) *)
Record MainFrame := mkMainFrame {
  verify : bool;
  currentDirectory : string;
  dir : option string;
  index : list string;
  relativeimagenames : list string;
  iter : nat;
  img : string;
  scorer : string;
  bodyparts : list string;
  new_bodyparts : list string;
  project_path : string;
  markerSize : nat;
  dataFrame : option DataFrame;
  updatedCoords : list (list entry);
  drs : list DraggablePoint;
  num : list (list Patch);
  buttonCounter : list nat;
  rdb : nat;
  pan_value : bool;
  zoom_value : bool;
  view_locked : bool;
  verify_counter : nat;
  verify_frames : list string;
  verify_video_names : list string
}.

Definition set_dir (v : option string) (s : MainFrame) : MainFrame :=
  mkMainFrame (verify s) (currentDirectory s) v (index s)
    (relativeimagenames s) (iter s) (img s) (scorer s) (bodyparts s)
    (new_bodyparts s) (project_path s) (markerSize s) (dataFrame s)
    (updatedCoords s) (drs s) (num s) (buttonCounter s) (rdb s) (pan_value
    s) (zoom_value s) (view_locked s) (verify_counter s) (verify_frames s)
    (verify_video_names s).

Definition set_index (v : list string) (s : MainFrame) : MainFrame :=
  mkMainFrame (verify s) (currentDirectory s) (dir s) v (relativeimagenames
    s) (iter s) (img s) (scorer s) (bodyparts s) (new_bodyparts s)
    (project_path s) (markerSize s) (dataFrame s) (updatedCoords s) (drs s)
    (num s) (buttonCounter s) (rdb s) (pan_value s) (zoom_value s)
    (view_locked s) (verify_counter s) (verify_frames s) (verify_video_names
    s).

Definition set_relativeimagenames (v : list string) (s : MainFrame) : MainFrame :=
  mkMainFrame (verify s) (currentDirectory s) (dir s) (index s) v (iter s)
    (img s) (scorer s) (bodyparts s) (new_bodyparts s) (project_path s)
    (markerSize s) (dataFrame s) (updatedCoords s) (drs s) (num s)
    (buttonCounter s) (rdb s) (pan_value s) (zoom_value s) (view_locked s)
    (verify_counter s) (verify_frames s) (verify_video_names s).

Definition set_iter (v : nat) (s : MainFrame) : MainFrame :=
  mkMainFrame (verify s) (currentDirectory s) (dir s) (index s)
    (relativeimagenames s) v (img s) (scorer s) (bodyparts s) (new_bodyparts
    s) (project_path s) (markerSize s) (dataFrame s) (updatedCoords s) (drs
    s) (num s) (buttonCounter s) (rdb s) (pan_value s) (zoom_value s)
    (view_locked s) (verify_counter s) (verify_frames s) (verify_video_names
    s).

Definition set_img (v : string) (s : MainFrame) : MainFrame :=
  mkMainFrame (verify s) (currentDirectory s) (dir s) (index s)
    (relativeimagenames s) (iter s) v (scorer s) (bodyparts s)
    (new_bodyparts s) (project_path s) (markerSize s) (dataFrame s)
    (updatedCoords s) (drs s) (num s) (buttonCounter s) (rdb s) (pan_value
    s) (zoom_value s) (view_locked s) (verify_counter s) (verify_frames s)
    (verify_video_names s).

Definition set_scorer (v : string) (s : MainFrame) : MainFrame :=
  mkMainFrame (verify s) (currentDirectory s) (dir s) (index s)
    (relativeimagenames s) (iter s) (img s) v (bodyparts s) (new_bodyparts
    s) (project_path s) (markerSize s) (dataFrame s) (updatedCoords s) (drs
    s) (num s) (buttonCounter s) (rdb s) (pan_value s) (zoom_value s)
    (view_locked s) (verify_counter s) (verify_frames s) (verify_video_names
    s).

Definition set_bodyparts (v : list string) (s : MainFrame) : MainFrame :=
  mkMainFrame (verify s) (currentDirectory s) (dir s) (index s)
    (relativeimagenames s) (iter s) (img s) (scorer s) v (new_bodyparts s)
    (project_path s) (markerSize s) (dataFrame s) (updatedCoords s) (drs s)
    (num s) (buttonCounter s) (rdb s) (pan_value s) (zoom_value s)
    (view_locked s) (verify_counter s) (verify_frames s) (verify_video_names
    s).

Definition set_new_bodyparts (v : list string) (s : MainFrame) : MainFrame :=
  mkMainFrame (verify s) (currentDirectory s) (dir s) (index s)
    (relativeimagenames s) (iter s) (img s) (scorer s) (bodyparts s) v
    (project_path s) (markerSize s) (dataFrame s) (updatedCoords s) (drs s)
    (num s) (buttonCounter s) (rdb s) (pan_value s) (zoom_value s)
    (view_locked s) (verify_counter s) (verify_frames s) (verify_video_names
    s).

Definition set_project_path (v : string) (s : MainFrame) : MainFrame :=
  mkMainFrame (verify s) (currentDirectory s) (dir s) (index s)
    (relativeimagenames s) (iter s) (img s) (scorer s) (bodyparts s)
    (new_bodyparts s) v (markerSize s) (dataFrame s) (updatedCoords s) (drs
    s) (num s) (buttonCounter s) (rdb s) (pan_value s) (zoom_value s)
    (view_locked s) (verify_counter s) (verify_frames s) (verify_video_names
    s).

Definition set_markerSize (v : nat) (s : MainFrame) : MainFrame :=
  mkMainFrame (verify s) (currentDirectory s) (dir s) (index s)
    (relativeimagenames s) (iter s) (img s) (scorer s) (bodyparts s)
    (new_bodyparts s) (project_path s) v (dataFrame s) (updatedCoords s)
    (drs s) (num s) (buttonCounter s) (rdb s) (pan_value s) (zoom_value s)
    (view_locked s) (verify_counter s) (verify_frames s) (verify_video_names
    s).

Definition set_dataFrame (v : option DataFrame) (s : MainFrame) : MainFrame :=
  mkMainFrame (verify s) (currentDirectory s) (dir s) (index s)
    (relativeimagenames s) (iter s) (img s) (scorer s) (bodyparts s)
    (new_bodyparts s) (project_path s) (markerSize s) v (updatedCoords s)
    (drs s) (num s) (buttonCounter s) (rdb s) (pan_value s) (zoom_value s)
    (view_locked s) (verify_counter s) (verify_frames s) (verify_video_names
    s).

Definition set_updatedCoords (v : list (list entry)) (s : MainFrame) : MainFrame :=
  mkMainFrame (verify s) (currentDirectory s) (dir s) (index s)
    (relativeimagenames s) (iter s) (img s) (scorer s) (bodyparts s)
    (new_bodyparts s) (project_path s) (markerSize s) (dataFrame s) v (drs
    s) (num s) (buttonCounter s) (rdb s) (pan_value s) (zoom_value s)
    (view_locked s) (verify_counter s) (verify_frames s) (verify_video_names
    s).

Definition set_drs (v : list DraggablePoint) (s : MainFrame) : MainFrame :=
  mkMainFrame (verify s) (currentDirectory s) (dir s) (index s)
    (relativeimagenames s) (iter s) (img s) (scorer s) (bodyparts s)
    (new_bodyparts s) (project_path s) (markerSize s) (dataFrame s)
    (updatedCoords s) v (num s) (buttonCounter s) (rdb s) (pan_value s)
    (zoom_value s) (view_locked s) (verify_counter s) (verify_frames s)
    (verify_video_names s).

Definition set_num (v : list (list Patch)) (s : MainFrame) : MainFrame :=
  mkMainFrame (verify s) (currentDirectory s) (dir s) (index s)
    (relativeimagenames s) (iter s) (img s) (scorer s) (bodyparts s)
    (new_bodyparts s) (project_path s) (markerSize s) (dataFrame s)
    (updatedCoords s) (drs s) v (buttonCounter s) (rdb s) (pan_value s)
    (zoom_value s) (view_locked s) (verify_counter s) (verify_frames s)
    (verify_video_names s).

Definition set_buttonCounter (v : list nat) (s : MainFrame) : MainFrame :=
  mkMainFrame (verify s) (currentDirectory s) (dir s) (index s)
    (relativeimagenames s) (iter s) (img s) (scorer s) (bodyparts s)
    (new_bodyparts s) (project_path s) (markerSize s) (dataFrame s)
    (updatedCoords s) (drs s) (num s) v (rdb s) (pan_value s) (zoom_value s)
    (view_locked s) (verify_counter s) (verify_frames s) (verify_video_names
    s).

Definition set_rdb (v : nat) (s : MainFrame) : MainFrame :=
  mkMainFrame (verify s) (currentDirectory s) (dir s) (index s)
    (relativeimagenames s) (iter s) (img s) (scorer s) (bodyparts s)
    (new_bodyparts s) (project_path s) (markerSize s) (dataFrame s)
    (updatedCoords s) (drs s) (num s) (buttonCounter s) v (pan_value s)
    (zoom_value s) (view_locked s) (verify_counter s) (verify_frames s)
    (verify_video_names s).

Definition set_pan_value (v : bool) (s : MainFrame) : MainFrame :=
  mkMainFrame (verify s) (currentDirectory s) (dir s) (index s)
    (relativeimagenames s) (iter s) (img s) (scorer s) (bodyparts s)
    (new_bodyparts s) (project_path s) (markerSize s) (dataFrame s)
    (updatedCoords s) (drs s) (num s) (buttonCounter s) (rdb s) v
    (zoom_value s) (view_locked s) (verify_counter s) (verify_frames s)
    (verify_video_names s).

Definition set_zoom_value (v : bool) (s : MainFrame) : MainFrame :=
  mkMainFrame (verify s) (currentDirectory s) (dir s) (index s)
    (relativeimagenames s) (iter s) (img s) (scorer s) (bodyparts s)
    (new_bodyparts s) (project_path s) (markerSize s) (dataFrame s)
    (updatedCoords s) (drs s) (num s) (buttonCounter s) (rdb s) (pan_value
    s) v (view_locked s) (verify_counter s) (verify_frames s)
    (verify_video_names s).

Definition set_verify_counter (v : nat) (s : MainFrame) : MainFrame :=
  mkMainFrame (verify s) (currentDirectory s) (dir s) (index s)
    (relativeimagenames s) (iter s) (img s) (scorer s) (bodyparts s)
    (new_bodyparts s) (project_path s) (markerSize s) (dataFrame s)
    (updatedCoords s) (drs s) (num s) (buttonCounter s) (rdb s) (pan_value
    s) (zoom_value s) (view_locked s) v (verify_frames s)
    (verify_video_names s).

Definition set_verify_video_names (v : list string) (s : MainFrame) : MainFrame :=
  mkMainFrame (verify s) (currentDirectory s) (dir s) (index s)
    (relativeimagenames s) (iter s) (img s) (scorer s) (bodyparts s)
    (new_bodyparts s) (project_path s) (markerSize s) (dataFrame s)
    (updatedCoords s) (drs s) (num s) (buttonCounter s) (rdb s) (pan_value
    s) (zoom_value s) (view_locked s) (verify_counter s) (verify_frames s) v.

(* ------------------------------------------------------------------ *)
(** ** Files, the user interface and the world *)

Inductive FileContent :=
| HdfTable (key : string) (t : DataFrame)   (* written by [to_hdf] *)
| HdfEmpty                                  (* an HDF5 file without a table *)
| CsvTable (t : DataFrame)                  (* written by [to_csv] *)
| ImageFile.

(** The files on disk, by path.  [locked] lists the paths on which the
    operating system refuses a rename or a removal. *)
Record FS := mkFS {
  files : list (string * FileContent);
  locked : list string
}.

Definition path_exists (d : FS) (p : string) : bool :=
  Str.mem p (map fst (files d)).

Definition read_file (d : FS) (p : string) : option FileContent :=
  option_map snd (find (fun f => String.eqb (fst f) p) (files d)).

(** [cv2.imread(path)] gives the image of an image file, and [None] for a
    path that is missing or holds something else. *)
Definition imread (d : FS) (p : string) : bool :=
  match read_file d p with
  | Some ImageFile => true
  | _ => false
  end.

Definition drop_file (p : string) (l : list (string * FileContent))
  : list (string * FileContent) :=
  filter (fun f => negb (String.eqb (fst f) p)) l.

Definition write_file (p : string) (c : FileContent) (d : FS) : FS :=
  mkFS (drop_file p (files d) ++ [(p, c)]) (locked d).

(** [os.rename(src, dst)].  POSIX replaces an existing [dst]; Windows
    refuses it. *)
Definition os_rename (platform src dst : string) (d : FS) : Exn + FS :=
  match read_file d src with
  | None => inl FileNotFoundError
  | Some c =>
      if Str.mem src (locked d) || Str.mem dst (locked d) then inl PermissionError
      else if String.eqb platform "win32" && path_exists d dst then inl FileExistsError
      else inr (mkFS (drop_file dst (drop_file src (files d)) ++ [(dst, c)]) (locked d))
  end.

(** [os.remove(path)]. *)
Definition os_remove (p : string) (d : FS) : Exn + FS :=
  if path_exists d p then
    if Str.mem p (locked d) then inl PermissionError
    else inr (mkFS (drop_file p (files d)) (locked d))
  else inl FileNotFoundError.

(** What the user is shown, and the calls into wx and matplotlib, in order. *)
Inductive UIEvent :=
| EvStatusText (text : string)
| EvPrint (text : string)
| EvMessageBox (message caption : string)
| EvClose                                   (* [self.Close(True)] *)
| EvDlgDestroy
| EvEnable (widget : string) (on : bool)
| EvGetColorIndices (img : string) (labels : list string)
| EvDrawPlot (img img_name : string) (itr : nat) (labels : list string)
    (keep_view : bool)
| EvDelAxes
| EvAxesConnect (signal : string)
| EvAddRadioButtons (choices : list string)
| EvAddPatch (c : Circle)
| EvDraggableConnect (bodypart : string)
| EvCanvasConnect (signal : string)
| EvCanvasDisconnect (callback : string)
| EvCanvasDraw
| EvToolbarPan
| EvToolbarZoom
| EvBind (widget : string).

Record World := mkWorld {
  gui : MainFrame;
  disk : FS;
  out : list UIEvent
}.

(** Outcome of a callback: it returns, or an exception leaves it; either way
    the attributes written so far stay written. *)
Inductive Res (A : Type) :=
| Ok (a : A) (w : World)
| Raise (e : Exn) (w : World).

Arguments Ok {A} a w.
Arguments Raise {A} e w.

Definition world_of {A} (r : Res A) : World :=
  match r with Ok _ w => w | Raise _ w => w end.

Definition M (A : Type) : Type := World -> Res A.

Definition ret {A} (a : A) : M A := fun w => Ok a w.

Definition bind {A B} (m : M A) (k : A -> M B) : M B :=
  fun w => match m w with
           | Ok a w' => k a w'
           | Raise e w' => Raise e w'
           end.

Definition raise {A} (e : Exn) : M A := fun w => Raise e w.

(** [try: body except: handler]. *)
Definition try_except {A} (body handler : M A) : M A :=
  fun w => match body w with
           | Ok a w' => Ok a w'
           | Raise _ w' => handler w'
           end.

Notation "x <- m ;; k" := (bind m (fun x => k))
  (at level 61, m at next level, right associativity).
Notation "m ;;; k" := (bind m (fun _ => k))
  (at level 61, right associativity).

Definition self : M MainFrame := fun w => Ok (gui w) w.

Definition assign (f : MainFrame -> MainFrame) : M unit :=
  fun w => Ok tt (mkWorld (f (gui w)) (disk w) (out w)).

Definition emit (e : UIEvent) : M unit :=
  fun w => Ok tt (mkWorld (gui w) (disk w) (out w ++ [e])).

Definition the_disk : M FS := fun w => Ok (disk w) w.

Definition set_disk (d : FS) : M unit :=
  fun w => Ok tt (mkWorld (gui w) d (out w)).

Definition lift {A} (x : Exn + A) : M A :=
  match x with inl e => raise e | inr a => ret a end.

(** A list subscript [l[i]] with [i >= 0]. *)
Definition subscript {A} (l : list A) (i : nat) : M A :=
  match nth_error l i with Some x => ret x | None => raise IndexError end.

(** An attribute that may still be [None]. *)
Definition not_none {A} (o : option A) (e : Exn) : M A :=
  match o with Some x => ret x | None => raise e end.

Definition when (b : bool) (m : M unit) : M unit := if b then m else ret tt.

(** [for x in l: body(x)]. *)
Fixpoint for_each {A} (l : list A) (body : A -> M unit) : M unit :=
  match l with
  | [] => ret tt
  | x :: t => body x ;;; for_each t body
  end.

(** What reaches the toolbox from outside while a callback runs. *)
Record Config := mkConfig {
  cfg_scorer : string;
  cfg_bodyparts : list string;
  cfg_video_sets : list string;
  cfg_dotsize : nat;
  cfg_project_path : string
}.

Record Env := mkEnv {
  sys_platform : string;
  imtypes : list string;                 (* [self.imtypes] *)
  read_config : Config;                  (* [auxiliaryfunctions.read_config] *)
  glob_glob : string -> list string;     (* [glob.glob(pattern)] *)
  DirDialog_ShowModal : option string;   (* the chosen path, if OK *)
  MessageDialog_ShowModal : bool         (* [false] is [wx.ID_NO] *)
}.

Variable env : Env.

(** [Path(p).name] and [os.path.split(p)[-1]]. *)
Definition basename (p : string) : string := last (Str.split "/" p) "".

(* ------------------------------------------------------------------ *)
(** ** The callbacks of [MainFrame] *)

(** A matplotlib mouse event; [xdata] and [ydata] are [None] when the mouse
    is outside the axes. *)
Record MouseEvent := mkMouseEvent {
  button : nat;
  xdata : option cell;
  ydata : option cell
}.

Definition updateZoomPan : M unit :=
  s <- self ;;
  when (pan_value s) (emit EvToolbarPan ;;; assign (set_pan_value false)) ;;;
  s <- self ;;
  when (zoom_value s) (emit EvToolbarZoom ;;; assign (set_zoom_value false)).

(** [self.dataFrame[self.scorer][bp][coords].values[self.iter]]. *)
Definition stored_value (bp coords : string) : M cell :=
  s <- self ;;
  df <- not_none (dataFrame s) TypeError ;;
  lift (values_at df (scorer s, bp, coords) (iter s)).

Fixpoint getLabels_loop (l : list (nat * string)) : M (list (list entry)) :=
  match l with
  | [] => ret []
  | (bpindex, bp) :: t =>
      x <- stored_value bp "x" ;;
      y <- stored_value bp "y" ;;
      rest <- getLabels_loop t ;;
      ret ([mkEntry x y bp bpindex] :: rest)
  end.

(** The argument [img_index] is not used by the body: the rows are read at
    [self.iter]. *)
Definition getLabels (img_index : nat) : M (list (list entry)) :=
  s <- self ;;
  getLabels_loop (enumerate (bodyparts s)).

(** One turn of the loop of [plot]. *)
Definition plot_one (b : nat * string) : M unit :=
  let (bpindex, bp) := b in
  x <- stored_value bp "x" ;;
  y <- stored_value bp "y" ;;
  s <- self ;;
  let circle := mkCircle (x, y) (markerSize s) in
  emit (EvAddPatch circle) ;;;
  name <- subscript (bodyparts s) bpindex ;;
  emit (EvDraggableConnect name) ;;;
  labels <- getLabels (iter s) ;;
  coords <- subscript labels bpindex ;;
  assign (fun s => set_drs (drs s ++ [mkDraggablePoint circle name]) s) ;;;
  assign (fun s => set_updatedCoords (updatedCoords s ++ [coords]) s) ;;;
  when (negb (isnan x))
       (assign (fun s => set_buttonCounter (buttonCounter s ++ [bpindex]) s)).

Definition plot (img : string) : M (list nat) :=
  assign (set_drs []) ;;;
  assign (set_updatedCoords []) ;;;
  s <- self ;;
  for_each (enumerate (bodyparts s)) plot_one ;;;
  emit EvCanvasDraw ;;;
  s <- self ;;
  ret (buttonCounter s).

(** [self.dataFrame.loc[self.relativeimagenames[self.iter]][self.scorer,
    bp[0][-2], coords] = value]; the right-hand side is evaluated first. *)
Definition write_current (bp : list entry) (coords : string) (value : M cell)
  : M unit :=
  v <- value ;;
  s <- self ;;
  df <- not_none (dataFrame s) AttributeError ;;
  label <- subscript (relativeimagenames s) (iter s) ;;
  first <- subscript bp 0 ;;
  df' <- lift (loc_set df label (scorer s, e_name first, coords) v) ;;
  assign (set_dataFrame (Some df')).

(** [bp[-1]]. *)
Definition last_entry (bp : list entry) : M entry :=
  match bp with
  | [] => raise IndexError
  | e :: t => ret (last t e)
  end.

Definition saveEachImage : M unit :=
  s <- self ;;
  for_each (enumerate (updatedCoords s)) (fun b =>
    write_current (snd b) "x" (e <- last_entry (snd b) ;; ret (e_x e)) ;;;
    write_current (snd b) "y" (e <- last_entry (snd b) ;; ret (e_y e))).

Definition ResetEachImage : M unit :=
  s <- self ;;
  for_each (enumerate (updatedCoords s)) (fun b =>
    write_current (snd b) "x" (ret NaN) ;;;
    write_current (snd b) "y" (ret NaN)).

(** [ImagePanel.drawplot(img, img_name, itr, index, bodyparts, cmap,
    keep_view)].  Its [cv2.imread(img)[..., ::-1]] raises TypeError where
    [imread] gives [None]. *)
Definition ImagePanel_drawplot (img img_name : string) (itr : nat)
  (bodyparts : list string) (keep_view : bool) : M unit :=
  d <- the_disk ;;
  when (negb (imread d img)) (raise TypeError) ;;;
  emit (EvDrawPlot img img_name itr bodyparts keep_view).

(** [ImagePanel.getColorIndices(img, bodyparts)]: [np.linspace(0,
    np.max(cv2.imread(img)), len(bodyparts))] raises TypeError where [imread]
    gives [None]. *)
Definition ImagePanel_getColorIndices (img : string) (bodyparts : list string)
  : M unit :=
  d <- the_disk ;;
  when (negb (imread d img)) (raise TypeError) ;;;
  emit (EvGetColorIndices img bodyparts).

(** [self.image_panel.drawplot(self.img, img_name, self.iter, self.index,
    self.bodyparts, self.colormap, keep_view)] followed by the two
    [self.axes.callbacks.connect] calls. *)
Definition drawplot (keep_view : bool) : M unit :=
  s <- self ;;
  p <- subscript (index s) (iter s) ;;
  ImagePanel_drawplot (img s) (basename p) (iter s) (bodyparts s) keep_view ;;;
  emit (EvAxesConnect "xlim_changed") ;;;
  emit (EvAxesConnect "ylim_changed").

Definition connect_canvas : M unit :=
  emit (EvCanvasConnect "button_press_event") ;;;
  emit (EvCanvasConnect "button_release_event").

Definition status_working_on : M unit :=
  s <- self ;;
  d <- not_none (dir s) AttributeError ;;
  emit (EvStatusText ("Working on folder: " +++ basename d)).

(** The image files of [self.dir]: for every type, what [glob.glob] finds
    without the rendered previews. *)
Definition list_images (d : string) : list string :=
  flat_map (fun imtype =>
              filter (fun fn => negb (Str.contains "labeled.png" fn))
                     (glob_glob env (Str.path_join d imtype)))
           (imtypes env).

(** [["labeled" + n.split("labeled")[1] for n in self.index]]. *)
Fixpoint relative_names (l : list string) : M (list string) :=
  match l with
  | [] => ret []
  | n :: t =>
      piece <- subscript (Str.split "labeled" n) 1 ;;
      rest <- relative_names t ;;
      ret (("labeled" +++ piece) :: rest)
  end.

(** [pd.read_hdf(path, key)]. *)
Definition read_hdf (path key : string) : M DataFrame :=
  d <- the_disk ;;
  match read_file d path with
  | None => raise FileNotFoundError
  | Some (HdfTable k t) => if String.eqb k key then ret t else raise KeyError
  | Some HdfEmpty => raise KeyError
  | Some _ => raise ValueError
  end.

Definition hdf_name (scorer : string) : string :=
  "CollectedData_" +++ scorer +++ ".h5".

Definition csv_name (scorer : string) : string :=
  "CollectedData_" +++ scorer +++ ".csv".

(** [self.dataFrame.index.get_loc(label)] where one row has the label. *)
Fixpoint label_positions (label : string) (from : nat) (l : list string)
  : list nat :=
  match l with
  | [] => []
  | x :: t =>
      if String.eqb x label then from :: label_positions label (S from) t
      else label_positions label (S from) t
  end.

Definition get_loc (df : DataFrame) (label : string) : M nat :=
  match label_positions label 0 (df_index df) with
  | [] => raise KeyError
  | [i] => ret i
  | _ => raise TypeError
  end.

(** [self.choice_panel.addRadioButtons(self.bodyparts, self.file,
    self.markerSize)]: a new radio box, its first choice selected. *)
Definition addRadioButtons : M unit :=
  s <- self ;;
  emit (EvAddRadioButtons (bodyparts s)) ;;;
  assign (set_rdb 0).

Definition getColorIndices : M unit :=
  s <- self ;;
  ImagePanel_getColorIndices (img s) (bodyparts s).

Definition load_labeled_frame4verification (folder imname : string) : M unit :=
  s <- self ;;
  let d := Str.path_join (Str.path_join (project_path s) "labeled-data") folder in
  assign (set_dir (Some d)) ;;;
  let imlist := list_images d in
  when (List.length imlist =? 0)%nat (emit (EvPrint "No images found!!")) ;;;
  if negb (Str.mem imname (map basename imlist)) then
    emit (EvPrint "Image not found!!!")
  else
    assign (set_index (np_sort imlist)) ;;;
    status_working_on ;;;
    rel <- relative_names (np_sort imlist) ;;
    assign (set_relativeimagenames rel) ;;;
    df <- read_hdf (Str.path_join d (hdf_name (scorer s))) "df_with_missing" ;;
    assign (set_dataFrame (Some (sort_index df))) ;;;
    i <- get_loc (sort_index df)
           (Str.path_join (Str.path_join "labeled-data" folder) imname) ;;
    assign (set_iter i) ;;;
    im <- subscript (np_sort imlist) i ;;
    assign (set_img im) ;;;
    getColorIndices ;;;
    drawplot false ;;;
    addRadioButtons ;;;
    bc <- plot im ;;
    assign (set_buttonCounter bc) ;;;
    connect_canvas.

Definition nextImage : M unit :=
  updateZoomPan ;;;
  status_working_on ;;;
  s <- self ;;
  if verify s then
    saveEachImage ;;;
    emit (EvEnable "prev" false) ;;;
    assign (fun s => set_verify_counter (verify_counter s + 1) s) ;;;
    s <- self ;;
    if (List.length (verify_frames s) <=? verify_counter s)%nat then
      emit (EvPrint "DONE.... exit GUI or so")
    else
      emit EvDelAxes ;;;
      frame <- subscript (verify_frames s) (verify_counter s) ;;
      match Str.split "/" frame with
      | [folder; imname] =>
          when (Str.mem folder (verify_video_names s))
               (load_labeled_frame4verification folder imname)
      | _ => raise ValueError
      end
  else
    (* Checks for the last image and disables the Next button *)
    if (Z.of_nat (List.length (index s)) - Z.of_nat (iter s) =? 1)%Z then
      emit (EvEnable "next" false)
    else
      emit (EvEnable "prev" true) ;;;
      assign (set_rdb 0) ;;;
      assign (set_buttonCounter []) ;;;
      saveEachImage ;;;
      assign (fun s => set_iter (iter s + 1) s) ;;;
      s <- self ;;
      when (iter s <=? List.length (index s))%nat
        (labels <- getLabels (iter s) ;;
         assign (set_updatedCoords labels) ;;;
         im <- subscript (index s) (iter s) ;;
         assign (set_img im) ;;;
         emit EvDelAxes ;;;
         drawplot (view_locked s) ;;;
         bc <- plot im ;;
         assign (set_buttonCounter bc) ;;;
         connect_canvas).

Definition prevImage : M unit :=
  s <- self ;;
  (* Checks for the first image and disables the Previous button *)
  if (iter s =? 0)%nat then emit (EvEnable "prev" false)
  else
    emit (EvEnable "next" true) ;;;
    updateZoomPan ;;;
    status_working_on ;;;
    saveEachImage ;;;
    assign (set_buttonCounter []) ;;;
    assign (fun s => set_iter (iter s - 1) s) ;;;
    assign (set_rdb 0) ;;;
    s <- self ;;
    im <- subscript (index s) (iter s) ;;
    assign (set_img im) ;;;
    emit EvDelAxes ;;;
    drawplot (view_locked s) ;;;
    bc <- plot im ;;
    assign (set_buttonCounter bc) ;;;
    connect_canvas ;;;
    saveEachImage.

Definition newline : string := String (ascii_of_nat 10) "".

Definition already_annotated (bodypart : string) : string :=
  bodypart +++ " is already annotated. " +++ newline
  +++ " Select another body part to annotate.".

(** This function adds labels and auto advances to the next label. *)
Definition onClick (event : MouseEvent) : M unit :=
  let x1 := xdata event in
  let y1 := ydata event in
  (if (button event =? 3)%nat then
     s <- self ;;
     if existsb (Nat.eqb (rdb s)) (buttonCounter s) then
       name <- subscript (bodyparts s) (rdb s) ;;
       emit (EvMessageBox (already_annotated name) "Error!")
     else
       assign (fun s => set_num (num s ++ [[mkPatch (x1, y1) (markerSize s)]]) s) ;;;
       (* [self.axes.add_patch(circle[0])] refuses a centre that is [None] *)
       match x1, y1 with
       | Some x, Some y =>
           let circle := mkCircle (x, y) (markerSize s) in
           emit (EvAddPatch circle) ;;;
           name <- subscript (bodyparts s) (rdb s) ;;
           emit (EvDraggableConnect name) ;;;
           assign (fun s => set_buttonCounter (buttonCounter s ++ [rdb s]) s) ;;;
           let coords := [mkEntry x y name (rdb s)] in
           assign (fun s => set_drs (drs s ++ [mkDraggablePoint circle name]) s) ;;;
           assign (fun s => set_updatedCoords (updatedCoords s ++ [coords]) s) ;;;
           when (Z.of_nat (rdb s) <? Z.of_nat (List.length (bodyparts s)) - 1)%Z
                (assign (set_rdb (rdb s + 1))) ;;;
           emit EvCanvasDraw
       | _, _ => raise TypeError
       end
   else ret tt) ;;;
  emit (EvCanvasDisconnect "onClick") ;;;
  emit (EvCanvasDisconnect "onButtonRelease").

Definition duplicate_labels : M unit :=
  s <- self ;;
  when (1 <=? iter s)%nat
    (curr_image <- subscript (relativeimagenames s) (iter s) ;;
     prev_image <- subscript (relativeimagenames s) (iter s - 1) ;;
     df <- not_none (dataFrame s) AttributeError ;;
     df' <- lift (loc_assign_row df curr_image prev_image) ;;
     assign (set_dataFrame (Some df')) ;;;
     p <- subscript (index s) (iter s) ;;
     ImagePanel_drawplot (img s) (basename p) (iter s) (bodyparts s)
                         (view_locked s) ;;;
     bc <- plot (img s) ;;
     assign (set_buttonCounter bc)).



Definition rename (src dst : string) : M unit :=
  d <- the_disk ;;
  d' <- lift (os_rename (sys_platform env) src dst d) ;;
  set_disk d'.

Definition remove (p : string) : M unit :=
  d <- the_disk ;;
  d' <- lift (os_remove p d) ;;
  set_disk d'.

(** [if os.path.exists(path): os.rename(path, backup_path)]. *)
Definition rename_if_exists (path backup_path : string) : M unit :=
  d <- the_disk ;;
  when (path_exists d path) (rename path backup_path).

(** The win32 branch: the rename sits under the test for an older backup. *)
Definition rename_win32 (path backup_path : string) : M unit :=
  d <- the_disk ;;
  when (path_exists d path)
    (when (path_exists d backup_path)
       (remove backup_path ;;; rename path backup_path)).

(** [# Backup previous save], the first part of [saveDataSet]. *)
Definition backup_previous_save (csv_path hdf_path : string) : M unit :=
  let platform := sys_platform env in
  let csv_backup_path := Str.replace ".csv" ".csv.backup" csv_path in
  let hdf_backup_path := Str.replace ".h5" ".h5.backup" hdf_path in
  if String.eqb platform "linux" || String.eqb platform "linux2" then
    rename_if_exists csv_path csv_backup_path ;;;
    rename_if_exists hdf_path hdf_backup_path
  else if String.eqb platform "win32" then
    rename_win32 csv_path csv_backup_path ;;;
    rename_win32 hdf_path hdf_backup_path
  else if String.eqb platform "darwin" then
    try_except
      (rename_if_exists csv_path csv_backup_path ;;;
       rename_if_exists hdf_path hdf_backup_path)
      (emit (EvPrint " Unexpected os.rename behaviour, try win32 approach"))
  else ret tt.

(** What [to_hdf(path, key, format="table", mode="w")] leaves in the file:
    the table format stores nothing for a table without rows. *)
Definition hdf_content (key : string) (df : DataFrame) : FileContent :=
  match rows df with
  | [] => HdfEmpty
  | _ :: _ => HdfTable key df
  end.

(** [to_csv(path)] and [to_hdf(path, key, format="table", mode="w")]. *)
Definition to_csv (path : string) (df : DataFrame) : M unit :=
  d <- the_disk ;;
  set_disk (write_file path (CsvTable df) d).

Definition to_hdf (path key : string) (df : DataFrame) : M unit :=
  d <- the_disk ;;
  set_disk (write_file path (hdf_content key df) d).

(** Saves the final dataframe. *)
Definition saveDataSet : M unit :=
  s <- self ;;
  d <- not_none (dir s) AttributeError ;;
  let csv_path := Str.path_join d (csv_name (scorer s)) in
  let hdf_path := Str.path_join d (hdf_name (scorer s)) in
  backup_previous_save csv_path hdf_path ;;;
  emit (EvStatusText "File saved") ;;;
  saveEachImage ;;;
  updateZoomPan ;;;
  (* Drop Nan data frames *)
  s <- self ;;
  df <- not_none (dataFrame s) AttributeError ;;
  assign (set_dataFrame (Some (dropna_all df))) ;;;
  assign (set_dataFrame (Some (sort_index (dropna_all df)))) ;;;
  df' <- lift (reindex_bodyparts (bodyparts s) (sort_index (dropna_all df))) ;;
  assign (set_dataFrame (Some df')) ;;;
  to_csv csv_path df' ;;;
  to_hdf hdf_path "df_with_missing" df'.

(** The first row that holds NaN only, as the loop of [browseDir] leaves it in
    [self.iter]: [None] when the loop body never runs. *)
Fixpoint first_empty_row (df : DataFrame) (l : list (nat * string)) : option nat :=
  match l with
  | [] => None
  | (idx, j) :: t =>
      if row_all_nan df j then Some idx
      else match first_empty_row df t with
           | Some i => Some i
           | None => Some 0
           end
  end.

(** [for bodypart in bps: frame = pd.DataFrame(a, columns=..., index=labels);
    self.df = pd.concat([self.df, frame], axis=1)], from [self.df = acc]. *)
Fixpoint concat_nan_columns (scorer : string) (labels : list string)
  (bps : list string) (acc : option DataFrame) : Exn + option DataFrame :=
  match bps with
  | [] => inr acc
  | bodypart :: t =>
      match concat_axis1 acc (nan_frame (from_product scorer bodypart) labels) with
      | inl e => inl e
      | inr df => concat_nan_columns scorer labels t (Some df)
      end
  end.

(** The same loop on [self.dataFrame]. *)
Definition append_nan_columns (labels bps : list string) : M unit :=
  for_each bps (fun bodypart =>
    s <- self ;;
    df <- lift (concat_axis1 (dataFrame s)
                  (nan_frame (from_product (scorer s) bodypart) labels)) ;;
    assign (set_dataFrame (Some df))).

(** [list(set(a) - set(b))], in the order of first occurrence in [a] (Python
    leaves the order open; the rows are sorted right after). *)
Definition set_difference (a b : list string) : list string :=
  nodup string_dec (filter (fun x => negb (Str.mem x b)) a).

(** [# Reading the existing dataset,if already present]. *)
Definition read_existing_dataset : M unit :=
  try_except
    (s <- self ;;
     d <- not_none (dir s) AttributeError ;;
     df <- read_hdf (Str.path_join d (hdf_name (scorer s))) "df_with_missing" ;;
     assign (set_dataFrame (Some (sort_index df))) ;;;
     emit (EvEnable "prev" true) ;;;
     match first_empty_row (sort_index df) (enumerate (df_index (sort_index df))) with
     | Some i => assign (set_iter i)
     | None => ret tt
     end)
    (s <- self ;;
     append_nan_columns (relativeimagenames s) (bodyparts s) ;;;
     assign (set_iter 0)).

(** [# Checking for new frames and adding them to the existing dataframe]. *)
Definition add_new_frames : M unit :=
  s <- self ;;
  df <- not_none (dataFrame s) AttributeError ;;
  let old_imgs := np_sort (df_index df) in
  let newimages := set_difference (relativeimagenames s) old_imgs in
  match newimages with
  | [] => ret tt
  | _ =>
      emit (EvPrint "Found new frames..") ;;;
      new_rows <- lift (concat_nan_columns (scorer s) newimages (bodyparts s) None) ;;
      df' <- lift (concat_axis0 df new_rows) ;;
      assign (set_dataFrame (Some (sort_index df')))
  end.

Definition not_unique_message : string :=
  "Error - bodyparts must have unique labels! Please choose unique bodyparts in config.yaml file and try again. Quitting for now!".

(** [# checks for unique bodyparts]. *)
Definition check_unique_bodyparts : M unit :=
  s <- self ;;
  when (negb (List.length (bodyparts s)
              =? List.length (nodup string_dec (bodyparts s)))%nat)
    (emit (EvPrint not_unique_message) ;;; emit EvClose).

(** [list(oldBodyParts[np.sort(idx)])]: the bodyparts of the columns, each
    once, in the order of first appearance. *)
Fixpoint first_occurrences (seen l : list string) : list string :=
  match l with
  | [] => []
  | x :: t =>
      if Str.mem x seen then first_occurrences seen t
      else x :: first_occurrences (x :: seen) t
  end.

Definition oldbodyparts2plot (df : DataFrame) : list string :=
  first_occurrences [] (map key_bodypart (columns df)).

(** [# Extracting the list of new labels] to the end of [browseDir]. *)
Definition show_labels : M unit :=
  s <- self ;;
  df <- not_none (dataFrame s) AttributeError ;;
  let new_bps :=
    filter (fun x => negb (Str.mem x (oldbodyparts2plot df))) (bodyparts s) in
  assign (set_new_bodyparts new_bps) ;;;
  match new_bps with
  | [] =>
      drawplot false ;;;
      addRadioButtons ;;;
      bc <- plot (img s) ;;
      assign (set_buttonCounter bc) ;;;
      connect_canvas
  | _ =>
      when (negb (MessageDialog_ShowModal env))
        (assign (set_bodyparts new_bps) ;;; getColorIndices) ;;;
      append_nan_columns (relativeimagenames s) new_bps ;;;
      drawplot false ;;;
      addRadioButtons ;;;
      connect_canvas ;;;
      bc <- plot (img s) ;;
      assign (set_buttonCounter bc)
  end ;;;
  emit (EvBind "checkBox") ;;;
  emit (EvBind "slider").

(** Show the DirDialog and ask the user to change the directory where machine
    labels are stored. *)
Definition browseDir : M unit :=
  emit (EvStatusText "Looking for a folder to start labeling...") ;;;
  match DirDialog_ShowModal env with
  | Some path =>
      assign (set_dir (Some path)) ;;;
      emit (EvEnable "load" false) ;;;
      emit (EvEnable "next" true) ;;;
      emit (EvEnable "save" true)
  | None => emit EvDlgDestroy ;;; emit EvClose
  end ;;;
  emit EvDlgDestroy ;;;
  emit (EvEnable "zoom" true) ;;;
  emit (EvEnable "home" true) ;;;
  emit (EvEnable "pan" true) ;;;
  emit (EvEnable "lock" true) ;;;
  emit (EvEnable "delete" true) ;;;
  (* Reading config file and its variables *)
  let cfg := read_config env in
  assign (set_scorer (cfg_scorer cfg)) ;;;
  assign (set_bodyparts (cfg_bodyparts cfg)) ;;;
  assign (set_markerSize (cfg_dotsize cfg)) ;;;
  assign (set_project_path (cfg_project_path cfg)) ;;;
  s <- self ;;
  d <- not_none (dir s) AttributeError ;;
  let imlist := list_images d in
  when (List.length imlist =? 0)%nat (emit (EvPrint "No images found!!")) ;;;
  assign (set_index (np_sort imlist)) ;;;
  status_working_on ;;;
  rel <- relative_names (np_sort imlist) ;;
  assign (set_relativeimagenames rel) ;;;
  read_existing_dataset ;;;
  (* Reading the image name *)
  s <- self ;;
  im <- subscript (index s) (iter s) ;;
  assign (set_img im) ;;;
  getColorIndices ;;;
  add_new_frames ;;;
  check_unique_bodyparts ;;;
  show_labels.



(* ------------------------------------------------------------------ *)
(** ** Notions used to state the properties *)

(** The selection after a place: one further down the list, unless the placed
    bodypart is the last one. *)
Definition next_selection (s : MainFrame) : nat :=
  if (Z.of_nat (rdb s) <? Z.of_nat (List.length (bodyparts s)) - 1)%Z
  then rdb s + 1 else rdb s.

(** A property of the world that a computation keeps, however it ends. *)
Definition keeps {A} (P : World -> Prop) (m : M A) : Prop :=
  forall w, P w -> P (world_of (m w)).

(** The row at a position of the annotation store. *)
Definition row_at (store : option DataFrame) (i : nat) : option Row :=
  match store with
  | None => None
  | Some df => nth_error (rows df) i
  end.

(** The rows labelled [G] are the same in two states of the store, at the
    same positions, and so are the labels of all rows. *)
Definition untouched (G : string) (a b : option DataFrame) : Prop :=
  match a, b with
  | None, None => True
  | Some a, Some b =>
      Forall2 (fun r r' : Row => fst r = fst r' /\ (fst r = G -> r = r'))
              (rows a) (rows b)
  | _, _ => False
  end.

(** What the loop of a commit or of a reset writes for one handle, when [px]
    and [py] give the two values. *)
Definition written (px py : list entry -> cell) (label scorer : string)
  (df : DataFrame) (h : list entry) : DataFrame :=
  match h with
  | [] => df
  | first :: _ =>
      put (put df label (scorer, e_name first, "x") (px h))
          label (scorer, e_name first, "y") (py h)
  end.

(** What a commit writes for one handle: the bodypart of its first entry,
    the position of its last. *)
Definition commit_handle (label scorer : string) (df : DataFrame)
  (h : list entry) : DataFrame :=
  match h with
  | [] => df
  | first :: t =>
      put (put df label (scorer, e_name first, "x") (e_x (last t first)))
          label (scorer, e_name first, "y") (e_y (last t first))
  end.

(** What a reset writes for one handle. *)
Definition reset_handle (label scorer : string) (df : DataFrame)
  (h : list entry) : DataFrame :=
  match h with
  | [] => df
  | first :: t =>
      put (put df label (scorer, e_name first, "x") NaN)
          label (scorer, e_name first, "y") NaN
  end.

Definition succeeds {A} (x : Exn + A) : bool :=
  match x with inr _ => true | inl _ => false end.

(** Every bodypart of [bps] has one x and one y column in the table, and the
    table has a row at position [i]: the frame at [i] can be drawn. *)
Definition readable (df : DataFrame) (scorer : string) (bps : list string)
  (i : nat) : bool :=
  forallb (fun bp => succeeds (values_at df (scorer, bp, "x") i)
                     && succeeds (values_at df (scorer, bp, "y") i)) bps.

Definition value_or_nan (x : Exn + cell) : cell :=
  match x with inr v => v | inl _ => NaN end.

(** The [coords] list a handle starts with when the frame at [i] is drawn. *)
Definition drawn_coords (df : DataFrame) (scorer : string) (i : nat)
  (b : nat * string) : list entry :=
  [mkEntry (value_or_nan (values_at df (scorer, snd b, "x") i))
           (value_or_nan (values_at df (scorer, snd b, "y") i))
           (snd b) (fst b)].

(** The file of the frame at position [i] is an image on disk, so that the
    frame can be shown. *)
Definition image_readable (w : World) (i : nat) : bool :=
  match nth_error (index (gui w)) i with
  | Some im => imread (disk w) im
  | None => false
  end.

(** What stays the same in the frame and on disk while a frame is redrawn. *)
Definition stable (w w' : World) : Prop :=
  verify (gui w') = verify (gui w) /\
  currentDirectory (gui w') = currentDirectory (gui w) /\
  dir (gui w') = dir (gui w) /\
  index (gui w') = index (gui w) /\
  relativeimagenames (gui w') = relativeimagenames (gui w) /\
  iter (gui w') = iter (gui w) /\
  scorer (gui w') = scorer (gui w) /\
  bodyparts (gui w') = bodyparts (gui w) /\
  dataFrame (gui w') = dataFrame (gui w) /\
  view_locked (gui w') = view_locked (gui w) /\
  disk w' = disk w.

(** What a commit keeps while it runs: the position, the names of the frames
    and the rows of a frame [G] other than the displayed one. *)
Definition commit_keeps (w0 : World) (G : string) (w : World) : Prop :=
  relativeimagenames (gui w) = relativeimagenames (gui w0) /\
  iter (gui w) = iter (gui w0) /\
  untouched G (dataFrame (gui w0)) (dataFrame (gui w)).

(** A column that a handle of the point editor writes: the x or the y column
    of the bodypart of the handle. *)
Definition covered (scorer : string) (ucs : list (list entry)) (k : ColKey)
  : bool :=
  existsb (fun h => match h with
                    | [] => false
                    | e :: _ => key_eqb k (scorer, e_name e, "x")
                                || key_eqb k (scorer, e_name e, "y")
                    end) ucs.


(** In the rows labelled [label], every cell under a column selected by [K]
    is NaN. *)
Definition nan_under (K : ColKey -> bool) (label : string) (df : DataFrame)
  : Prop :=
  forall (r : Row) j k,
    In r (rows df) -> fst r = label ->
    nth_error (columns df) j = Some k -> K k = true ->
    nth j (snd r) NaN = NaN.

(** The table with an all-NaN x and y column for each bodypart of [bps]
    behind its own columns, in every row. *)
Definition with_nan_columns (scorer : string) (bps : list string)
  (df : DataFrame) : DataFrame :=
  mkDataFrame
    (columns df ++ flat_map (from_product scorer) bps)
    (map (fun r : Row => (fst r, snd r ++ nan_cells (2 * List.length bps)))
         (rows df)).

(** The rows of the table can be aligned with the frames [labels] without
    adding a row: the index is the list of frames itself, or both are free of
    duplicates and every frame has a row. *)
Definition aligned (df : DataFrame) (labels : list string) : Prop :=
  labels_eqb (df_index df) labels = true \/
  (nodupb (df_index df) = true /\ nodupb labels = true /\
   forall x, In x labels -> In x (df_index df)).

(** What the trace holds after the first [self.Close(True)]. *)
Fixpoint after_close (l : list UIEvent) : list UIEvent :=
  match l with
  | [] => []
  | EvClose :: t => t
  | _ :: t => after_close t
  end.

(** "The new selection is never an already-Set bodypart while an Unset one
    exists", read on the frame after a place. *)
Definition selects_unset (s : MainFrame) : Prop :=
  (exists i, i < List.length (bodyparts s) /\ ~ In i (buttonCounter s)) ->
  ~ In (rdb s) (buttonCounter s).


(** Every bodypart of [bps] has exactly one x and one y column. *)
Definition has_columns (df : DataFrame) (scorer : string) (bps : list string)
  : bool :=
  forallb (fun bp =>
             (List.length (col_positions (scorer, bp, "x") 0 (columns df)) =? 1)%nat
             && (List.length (col_positions (scorer, bp, "y") 0 (columns df)) =? 1)%nat)
          bps.

(** The store is in step with the folder: it has one row per frame, in the
    order of the frames and under their relative names, no two frames share a
    name, and every bodypart has its two columns. *)
Definition in_step (s : MainFrame) (df : DataFrame) : Prop :=
  dataFrame s = Some df /\
  df_index df = relativeimagenames s /\
  nodupb (relativeimagenames s) = true /\
  List.length (index s) = List.length (relativeimagenames s) /\
  has_columns df (scorer s) (bodyparts s) = true.

(** The positions of the bodyparts whose stored x is a number at row [i]:
    what [plot] appends to [self.buttonCounter]. *)
Definition annotated (df : DataFrame) (scorer : string) (i : nat)
  (l : list (nat * string)) : list nat :=
  map fst
    (filter (fun b => negb (isnan (value_or_nan
                                     (values_at df (scorer, snd b, "x") i))))
            l).

(** The handles [plot] creates for the frame at row [i]. *)
Definition drawn_points (df : DataFrame) (scorer : string) (size i : nat)
  (l : list (nat * string)) : list DraggablePoint :=
  map (fun b =>
         mkDraggablePoint
           (mkCircle (value_or_nan (values_at df (scorer, snd b, "x") i),
                      value_or_nan (values_at df (scorer, snd b, "y") i))
                     size)
           (snd b))
      l.

(** "Every row's column set matches the full bodypart list": the bodyparts
    that have a column in the table are those of the list. *)
Definition columns_match (df : DataFrame) (bps : list string) : Prop :=
  forall bp, In bp (map key_bodypart (columns df)) <-> In bp bps.
End Model.

Arguments NaN {real}.
Arguments ImageFile {real}.
Arguments HdfEmpty {real}.
Arguments nan_cells {real} n.
Arguments nan_frame {real} cols labels.
Arguments EvStatusText {real} text.
Arguments EvPrint {real} text.
Arguments EvMessageBox {real} message caption.
Arguments EvClose {real}.
Arguments EvDlgDestroy {real}.
Arguments EvEnable {real} widget on.
Arguments EvGetColorIndices {real} img labels.
Arguments EvDrawPlot {real} img img_name itr labels keep_view.
Arguments EvDelAxes {real}.
Arguments EvAxesConnect {real} signal.
Arguments EvAddRadioButtons {real} choices.
Arguments EvDraggableConnect {real} bodypart.
Arguments EvCanvasConnect {real} signal.
Arguments EvCanvasDisconnect {real} callback.
Arguments EvCanvasDraw {real}.
Arguments EvToolbarPan {real}.
Arguments EvToolbarZoom {real}.
Arguments EvBind {real} widget.
Arguments Ok {real A} a w.
Arguments Raise {real A} e w.

(* ------------------------------------------------------------------ *)
(** ** A small project to run the callbacks on *)

Module Demo.

Definition img0 : string := "/proj/labeled-data/vid/img0.png".
Definition img1 : string := "/proj/labeled-data/vid/img1.png".
Definition img2 : string := "/proj/labeled-data/vid/img2.png".

Definition rel0 : string := "labeled-data/vid/img0.png".
Definition rel1 : string := "labeled-data/vid/img1.png".
Definition rel2 : string := "labeled-data/vid/img2.png".

Definition folder : string := "/proj/labeled-data/vid".
Definition h5 : string := "/proj/labeled-data/vid/CollectedData_me.h5".
Definition csv : string := "/proj/labeled-data/vid/CollectedData_me.csv".

Definition glob (pattern : string) : list string :=
  if String.eqb pattern "/proj/labeled-data/vid/*.png"
  then [img2; img0; img1] else [].

Definition config (bps : list string) : Config :=
  mkConfig "me" bps ["/videos/vid.avi"] 12 "/proj".

(** The user picks the folder and answers Yes to the dialog. *)
Definition env (platform : string) (bps : list string) : Env :=
  mkEnv platform ["*.png"] (config bps) glob (Some folder) true.

Definition linux : Env := env "linux" ["nose"; "ear"; "tail"].

(** A table saved earlier: one bodypart labelled on each frame. *)
Definition table : DataFrame Z :=
  mkDataFrame
    (from_product "me" "nose" ++ from_product "me" "ear"
     ++ from_product "me" "tail")
    [(rel0, [NaN; NaN; Val 5%Z; Val 6%Z; NaN; NaN]);
     (rel1, [Val 1%Z; Val 2%Z; NaN; NaN; NaN; NaN]);
     (rel2, [NaN; NaN; NaN; NaN; Val 3%Z; Val 4%Z])].

Definition images : list (string * FileContent Z) :=
  [(img0, ImageFile); (img1, ImageFile); (img2, ImageFile)].

Definition files_on_disk : FS Z :=
  mkFS (images ++ [(h5, HdfTable "df_with_missing" table)]) [].

(** The frame as [__init__] leaves it in labelling mode, started in the
    project directory. *)
Definition fresh : MainFrame Z :=
  mkMainFrame false "/proj" None [] [] 0 "" "" [] [] "" 0 None [] [] [] [] 0
    false false false 0 [] [].

Definition started : World Z := mkWorld fresh files_on_disk [].

(** After "Load frames": the first frame is shown, its ear is annotated. *)
Definition opened : World Z :=
  Eval vm_compute in world_of (browseDir linux started).

Definition click (x y : Z) : MouseEvent Z := mkMouseEvent 3 (Some (Val x)) (Some (Val y)).

(** After a right click that places the nose on the first frame. *)
Definition nose_placed : World Z :=
  Eval vm_compute in world_of (onClick (click 10 20) opened).

(** After the commit of the first frame with the placed nose. *)
Definition committed : World Z :=
  Eval vm_compute in world_of (saveEachImage nose_placed).

(** After Next, twice: the last frame is shown. *)
Definition at_last : World Z :=
  Eval vm_compute in
    world_of (nextImage linux (world_of (nextImage linux opened))).

(** The same project with a bodypart the saved table does not know. *)
Definition with_paw : World Z :=
  Eval vm_compute in
  mkWorld (set_bodyparts ["nose"; "ear"; "tail"; "paw"] (gui opened))
          (disk opened) [].

(** The same project when the earlier .csv exists and cannot be renamed. *)
Definition csv_locked : World Z :=
  Eval vm_compute in
  mkWorld (gui nose_placed)
          (mkFS (files (disk nose_placed) ++ [(csv, CsvTable table)]) [csv])
          [].

(** A configuration that names a bodypart twice, over a table with the nose
    only. *)
Definition nose_table : DataFrame Z :=
  mkDataFrame (from_product "me" "nose")
    [(rel0, [Val 7%Z; Val 8%Z]); (rel1, [NaN; NaN]); (rel2, [NaN; NaN])].

Definition twice : Env := env "linux" ["nose"; "nose"].

Definition started_nose : World Z :=
  mkWorld fresh
          (mkFS (images ++ [(h5, HdfTable "df_with_missing" nose_table)]) [])
          [].

(** The table with the nose only, under a configuration that names the nose
    once: the load resumes at the second frame, which has no annotation. *)
Definition nose_only : Env := env "linux" ["nose"].

Definition resumed : World Z :=
  Eval vm_compute in world_of (browseDir nose_only started_nose).

(** After Next from the first frame. *)
Definition at_second : World Z :=
  Eval vm_compute in world_of (nextImage linux opened).

(** The opened project after a fourth frame was added to the folder. *)
Definition rel3 : string := "labeled-data/vid/img3.png".

Definition one_more : World Z :=
  Eval vm_compute in
  mkWorld (set_relativeimagenames [rel0; rel1; rel2; rel3] (gui opened))
          (disk opened) [].


(** A frame that was given its folder and one bodypart, in a folder without
    an annotation file. *)
Definition unlabelled : World Z :=
  Eval vm_compute in
  mkWorld (set_relativeimagenames [rel0; rel1; rel2]
             (set_bodyparts ["nose"; "ear"]
                (set_scorer "me" (set_dir (Some folder) fresh))))
          (mkFS images []) [].

(** The opened project when the store has no row for the displayed frame. *)
Definition without_row : World Z :=
  Eval vm_compute in
  mkWorld (set_relativeimagenames [rel3; rel1; rel2] (gui opened))
          (disk opened) [].

(** The folder before anything was saved, and the frame before the load. *)
Definition empty_folder : World Z := mkWorld fresh (mkFS images []) [].

(** A session on that folder: Load frames, Next, a right click that places
    the nose on the second frame, Next, a right click that places the nose on
    the third frame, Previous, Save.  The first frame is left blank. *)
Definition label_two_frames_and_save : M Z unit :=
  bind (browseDir linux) (fun _ =>
  bind (nextImage linux) (fun _ =>
  bind (onClick (click 10 20)) (fun _ =>
  bind (nextImage linux) (fun _ =>
  bind (onClick (click 30 40)) (fun _ =>
  bind (@prevImage Z) (fun _ =>
  saveDataSet linux)))))).

Definition after_save : World Z :=
  Eval vm_compute in world_of (label_two_frames_and_save empty_folder).

(** Another session on that folder: Load frames, a right click that places
    the nose on the first frame, Next, and Save while the second frame, which
    has no annotation yet, is displayed. *)
Definition save_on_blank_frame : M Z unit :=
  bind (browseDir linux) (fun _ =>
  bind (onClick (click 10 20)) (fun _ =>
  bind (nextImage linux) (fun _ =>
  saveDataSet linux))).

Definition saved_on_blank : World Z :=
  Eval vm_compute in world_of (save_on_blank_frame empty_folder).

(** The project under a configuration that dropped the ear and the tail and
    added the paw. *)
Definition nose_paw : Env := env "linux" ["nose"; "paw"].

(** The opened project in verification mode, on the only frame to verify. *)
Definition verifying : World Z :=
  Eval vm_compute in
  let s := gui opened in
  mkWorld
    (mkMainFrame true (currentDirectory s) (dir s) (index s)
       (relativeimagenames s) (iter s) (img s) (scorer s) (bodyparts s)
       (new_bodyparts s) (project_path s) (markerSize s) (dataFrame s)
       (updatedCoords s) (drs s) (num s) (buttonCounter s) (rdb s)
       (pan_value s) (zoom_value s) (view_locked s) 0 ["vid/img0.png"] ["vid"])
    (disk opened) [].

(** Verification mode when the folder has the images and no annotation
    file. *)
Definition no_table : World Z :=
  Eval vm_compute in mkWorld (gui verifying) (mkFS images []) [].

End Demo.

(* ------------------------------------------------------------------ *)
(** * Properties *)

Unset Implicit Arguments.

Section Facts.

Variable real : Type.
Variable env : Env.

Implicit Types (w : World real) (s : MainFrame real) (P : World real -> Prop).

(** ** The monad *)

Lemma bind_ok {A B} (m : M real A) (k : A -> M real B) w a w' :
  m w = Ok a w' -> bind m k w = k a w'.
Proof. unfold bind. intros ->. reflexivity. Qed.

Lemma bind_raise {A B} (m : M real A) (k : A -> M real B) w e w' :
  m w = Raise e w' -> bind m k w = Raise e w'.
Proof. unfold bind. intros ->. reflexivity. Qed.

Lemma keeps_ret {A} P (a : A) : keeps P (ret a).
Proof. intros w H. exact H. Qed.

Lemma keeps_raise {A} P e : keeps P (@raise real A e).
Proof. intros w H. exact H. Qed.

Lemma keeps_bind {A B} P (m : M real A) (k : A -> M real B) :
  keeps P m -> (forall a, keeps P (k a)) -> keeps P (bind m k).
Proof.
  intros Hm Hk w H. unfold bind.
  specialize (Hm w H). destruct (m w) as [a w'|e w']; simpl in Hm.
  - apply Hk, Hm.
  - exact Hm.
Qed.

Lemma keeps_self P : keeps P (@self real).
Proof. intros w H. exact H. Qed.

Lemma keeps_the_disk P : keeps P (@the_disk real).
Proof. intros w H. exact H. Qed.

Lemma keeps_lift {A} P (x : Exn + A) : keeps P (@lift real A x).
Proof. destruct x; [apply keeps_raise | apply keeps_ret]. Qed.

Lemma keeps_subscript {A} P (l : list A) i : keeps P (@subscript real A l i).
Proof.
  unfold subscript. destruct (nth_error l i); [apply keeps_ret | apply keeps_raise].
Qed.

Lemma keeps_not_none {A} P (o : option A) e : keeps P (@not_none real A o e).
Proof. destruct o; [apply keeps_ret | apply keeps_raise]. Qed.

Lemma keeps_when P b (m : M real unit) : keeps P m -> keeps P (when b m).
Proof. destruct b; simpl; [auto | intros _; apply keeps_ret]. Qed.

Lemma keeps_for_each {A} P (l : list A) (body : A -> M real unit) :
  (forall x, keeps P (body x)) -> keeps P (for_each l body).
Proof.
  intros Hb. induction l as [|x t IH]; simpl.
  - apply keeps_ret.
  - apply keeps_bind; [apply Hb | intros _; exact IH].
Qed.

Lemma keeps_try_except {A} P (body handler : M real A) :
  keeps P body -> keeps P handler -> keeps P (try_except body handler).
Proof.
  intros Hb Hh w H. unfold try_except.
  specialize (Hb w H). destruct (body w) as [a w'|e w']; simpl in Hb.
  - exact Hb.
  - apply Hh, Hb.
Qed.

(** A property of the frame alone is untouched by what is shown. *)
Lemma keeps_emit (Q : MainFrame real -> Prop) e :
  keeps (fun w => Q (gui w)) (@emit real e).
Proof. intros w H. exact H. Qed.

Lemma keeps_assign (Q : MainFrame real -> Prop) f :
  (forall s, Q s -> Q (f s)) -> keeps (fun w => Q (gui w)) (@assign real f).
Proof. intros Hf w H. simpl. apply Hf, H. Qed.

(** Stepping through a computation. *)
Lemma bind_assoc {A B C} (m : M real A) (k : A -> M real B) (k' : B -> M real C) w :
  bind (bind m k) k' w = bind m (fun a => bind (k a) k') w.
Proof. unfold bind. destruct (m w); reflexivity. Qed.

Lemma bind_ret {A B} (a : A) (k : A -> M real B) w : bind (ret a) k w = k a w.
Proof. reflexivity. Qed.

Lemma bind_self {B} (k : MainFrame real -> M real B) w :
  bind (@self real) k w = k (gui w) w.
Proof. reflexivity. Qed.

Lemma bind_the_disk {B} (k : FS real -> M real B) w :
  bind (@the_disk real) k w = k (disk w) w.
Proof. reflexivity. Qed.

Lemma bind_emit {B} e (k : unit -> M real B) w :
  bind (emit e) k w = k tt (mkWorld (gui w) (disk w) (out w ++ [e])).
Proof. reflexivity. Qed.

Lemma bind_assign {B} f (k : unit -> M real B) w :
  bind (assign f) k w = k tt (mkWorld (f (gui w)) (disk w) (out w)).
Proof. reflexivity. Qed.

Lemma bind_set_disk {B} d (k : unit -> M real B) w :
  bind (set_disk d) k w = k tt (mkWorld (gui w) d (out w)).
Proof. reflexivity. Qed.

Lemma bind_subscript {A B} (l : list A) i x (k : A -> M real B) w :
  nth_error l i = Some x -> bind (subscript l i) k w = k x w.
Proof. unfold bind, subscript. intros ->. reflexivity. Qed.

Lemma bind_not_none {A B} (o : option A) e x (k : A -> M real B) w :
  o = Some x -> bind (not_none o e) k w = k x w.
Proof. intros ->. reflexivity. Qed.

Lemma bind_lift {A B} (r : Exn + A) x (k : A -> M real B) w :
  r = inr x -> bind (lift r) k w = k x w.
Proof. intros ->. reflexivity. Qed.

Ltac mstep :=
  first [ rewrite bind_assoc | rewrite bind_self | rewrite bind_emit
        | rewrite bind_assign | rewrite bind_ret | rewrite bind_the_disk
        | rewrite bind_set_disk ];
  cbv beta; cbn [gui disk out].

(** The two outcomes of a call into the image panel. *)
Lemma ImagePanel_drawplot_ok w im name i bps kv :
  imread (disk w) im = true ->
  ImagePanel_drawplot im name i bps kv w
  = Ok tt (mkWorld (gui w) (disk w) (out w ++ [EvDrawPlot im name i bps kv])).
Proof.
  intros H. unfold ImagePanel_drawplot. rewrite bind_the_disk, H. reflexivity.
Qed.

Lemma ImagePanel_drawplot_raises w im name i bps kv :
  imread (disk w) im = false ->
  ImagePanel_drawplot im name i bps kv w = Raise TypeError w.
Proof.
  intros H. unfold ImagePanel_drawplot. rewrite bind_the_disk, H. reflexivity.
Qed.

Lemma ImagePanel_getColorIndices_ok w im bps :
  imread (disk w) im = true ->
  ImagePanel_getColorIndices im bps w
  = Ok tt (mkWorld (gui w) (disk w) (out w ++ [EvGetColorIndices im bps])).
Proof.
  intros H. unfold ImagePanel_getColorIndices. rewrite bind_the_disk, H.
  reflexivity.
Qed.

Lemma image_readable_imread w i im :
  image_readable w i = true -> nth_error (index (gui w)) i = Some im ->
  imread (disk w) im = true.
Proof. unfold image_readable. intros H E. rewrite E in H. exact H. Qed.

Lemma keeps_ImagePanel_drawplot (Q : MainFrame real -> Prop) im name i bps kv :
  keeps (fun w => Q (gui w)) (@ImagePanel_drawplot real im name i bps kv).
Proof.
  unfold ImagePanel_drawplot.
  apply keeps_bind; [apply keeps_the_disk|]. intros d.
  apply keeps_bind; [apply keeps_when, keeps_raise|]. intros _.
  apply keeps_emit.
Qed.

Lemma keeps_ImagePanel_getColorIndices (Q : MainFrame real -> Prop) im bps :
  keeps (fun w => Q (gui w)) (@ImagePanel_getColorIndices real im bps).
Proof.
  unfold ImagePanel_getColorIndices.
  apply keeps_bind; [apply keeps_the_disk|]. intros d.
  apply keeps_bind; [apply keeps_when, keeps_raise|]. intros _.
  apply keeps_emit.
Qed.

Lemma bind_ImagePanel_drawplot {B} w im name i bps kv (k : unit -> M real B) :
  imread (disk w) im = true ->
  bind (ImagePanel_drawplot im name i bps kv) k w
  = k tt (mkWorld (gui w) (disk w) (out w ++ [EvDrawPlot im name i bps kv])).
Proof.
  intros H. apply bind_ok. apply ImagePanel_drawplot_ok. exact H.
Qed.

Lemma bind_ImagePanel_getColorIndices {B} w im bps (k : unit -> M real B) :
  imread (disk w) im = true ->
  bind (ImagePanel_getColorIndices im bps) k w
  = k tt (mkWorld (gui w) (disk w) (out w ++ [EvGetColorIndices im bps])).
Proof.
  intros H. apply bind_ok. apply ImagePanel_getColorIndices_ok. exact H.
Qed.

(** ** Navigation past the last frame *)

Lemma updateZoomPan_frame w :
  exists g o,
    updateZoomPan w = Ok tt (mkWorld g (disk w) o) /\
    verify g = verify (gui w) /\ dir g = dir (gui w) /\
    index g = index (gui w) /\ iter g = iter (gui w) /\
    relativeimagenames g = relativeimagenames (gui w) /\
    scorer g = scorer (gui w) /\ bodyparts g = bodyparts (gui w) /\
    dataFrame g = dataFrame (gui w) /\
    updatedCoords g = updatedCoords (gui w) /\
    buttonCounter g = buttonCounter (gui w) /\
    currentDirectory g = currentDirectory (gui w).
Proof.
  destruct w as [g d o]. unfold updateZoomPan, bind, self, when, assign, emit, ret.
  simpl. destruct (pan_value g); simpl; destruct (zoom_value g); simpl;
    eexists; eexists; (split; [reflexivity | simpl; repeat split; reflexivity]).
Qed.

(** C10.  On the last frame of the sequence, in labelling mode, [nextImage]
    returns before the commit: the position, the annotation store, the pending
    coordinates of the point editor and the files are what they were, and the
    call ends by disabling the Next button. *)
Theorem nextImage_last_frame w :
  verify (gui w) = false ->
  (Z.of_nat (List.length (index (gui w))) - Z.of_nat (iter (gui w)) = 1)%Z ->
  let w' := world_of (nextImage env w) in
  iter (gui w') = iter (gui w) /\
  dataFrame (gui w') = dataFrame (gui w) /\
  updatedCoords (gui w') = updatedCoords (gui w) /\
  disk w' = disk w /\
  (forall d, dir (gui w) = Some d ->
     nextImage env w = Ok tt w' /\
     exists o, out w' = o ++ [EvEnable "next" false]).
Proof.
  intros Hv Hlast w'. subst w'.
  destruct (updateZoomPan_frame w)
    as (g & o & Hz & Hver & Hdir & Hidx & Hit & _ & _ & _ & Hdf & Huc & _).
  unfold nextImage. rewrite (bind_ok _ _ _ _ _ Hz).
  unfold status_working_on, bind, self, not_none, emit, ret, raise. simpl.
  rewrite Hdir. destruct (dir (gui w)) as [d|] eqn:Ed; simpl.
  - rewrite Hver, Hv, Hidx, Hit.
    apply Z.eqb_eq in Hlast. rewrite Hlast. simpl.
    split; [|split; [|split; [|split]]]; try assumption; try reflexivity.
    intros d' _. split; [reflexivity|]. eexists. reflexivity.
  - split; [|split; [|split; [|split]]]; try assumption; try reflexivity.
    intros d' Hd'. discriminate Hd'.
Qed.

(** ** Right clicks *)

Lemma existsb_eqb_In (n : nat) (l : list nat) :
  existsb (Nat.eqb n) l = true <-> In n l.
Proof.
  rewrite existsb_exists. split.
  - intros (x & Hx & E). apply Nat.eqb_eq in E. subst. exact Hx.
  - intros H. exists n. split; [exact H | apply Nat.eqb_refl].
Qed.

(** C2.  A right click while the selected bodypart is already annotated on the
    displayed frame shows the error box and changes nothing else: the frame
    (annotation store, point handles, pending coordinates, selection) and the
    files are the same afterwards. *)
Theorem onClick_already_annotated w (event : MouseEvent real) name :
  button event = 3 ->
  In (rdb (gui w)) (buttonCounter (gui w)) ->
  nth_error (bodyparts (gui w)) (rdb (gui w)) = Some name ->
  onClick event w =
    Ok tt (mkWorld (gui w) (disk w)
             (out w ++ [EvMessageBox (already_annotated name) "Error!";
                        EvCanvasDisconnect "onClick";
                        EvCanvasDisconnect "onButtonRelease"])).
Proof.
  intros Hb Hin Hname. apply existsb_eqb_In in Hin.
  unfold onClick, bind, self, subscript, emit, ret. rewrite Hb. simpl.
  rewrite Hin, Hname. simpl. rewrite <- !app_assoc. reflexivity.
Qed.

(** X24.  A right click inside the axes on a bodypart that is not yet annotated
    places it: a handle with the clicked position is added and the bodypart
    is recorded as annotated.  The selection then moves to the next bodypart
    of the configured list when the placed one is not the last, and stays
    otherwise; whether that next bodypart is already annotated plays no part.
    The annotation store is not written by the click. *)
Theorem onClick_place_moves_selection w (event : MouseEvent real) x y name :
  button event = 3 ->
  xdata event = Some x ->
  ydata event = Some y ->
  ~ In (rdb (gui w)) (buttonCounter (gui w)) ->
  nth_error (bodyparts (gui w)) (rdb (gui w)) = Some name ->
  exists w',
    onClick event w = Ok tt w' /\
    rdb (gui w') = next_selection (gui w) /\
    (rdb (gui w') = rdb (gui w) + 1 \/
     rdb (gui w) + 1 = List.length (bodyparts (gui w))) /\
    buttonCounter (gui w') = buttonCounter (gui w) ++ [rdb (gui w)] /\
    updatedCoords (gui w') =
      updatedCoords (gui w) ++ [[mkEntry x y name (rdb (gui w))]] /\
    drs (gui w') =
      drs (gui w)
      ++ [mkDraggablePoint (mkCircle (x, y) (markerSize (gui w))) name] /\
    dataFrame (gui w') = dataFrame (gui w) /\
    bodyparts (gui w') = bodyparts (gui w).
Proof.
  intros Hb Hx Hy Hin Hname.
  assert (Hex : existsb (Nat.eqb (rdb (gui w))) (buttonCounter (gui w)) = false).
  { destruct (existsb _ _) eqn:E; [|reflexivity].
    apply existsb_eqb_In in E. contradiction. }
  assert (Hlt : rdb (gui w) < List.length (bodyparts (gui w))).
  { apply nth_error_Some. rewrite Hname. discriminate. }
  unfold onClick, bind, self, subscript, emit, assign, when, ret.
  rewrite Hb, Hx, Hy. simpl. rewrite Hex. simpl. rewrite Hname. simpl.
  unfold next_selection.
  destruct (Z.of_nat (rdb (gui w)) <? Z.of_nat (List.length (bodyparts (gui w))) - 1)%Z
    eqn:E; simpl.
  - eexists. split; [reflexivity|]. simpl. repeat split; auto.
  - eexists. split; [reflexivity|]. simpl. repeat split; auto.
    right. apply Z.ltb_ge in E. lia.
Qed.

(** X25.  A right click outside the axes, where the event has no position, while
    the selection is a bodypart of the list that is not yet annotated: the
    circle is appended to [self.num]
    and [add_patch] raises TypeError; no handle is added, the bodypart is not
    recorded as annotated, the selection stays, and the canvas callbacks are
    not disconnected. *)
Theorem onClick_outside_axes w (event : MouseEvent real) :
  button event = 3 ->
  xdata event = None \/ ydata event = None ->
  ~ In (rdb (gui w)) (buttonCounter (gui w)) ->
  rdb (gui w) < List.length (bodyparts (gui w)) ->
  onClick event w
  = Raise TypeError
      (mkWorld
         (set_num (num (gui w)
                   ++ [[mkPatch (xdata event, ydata event)
                                (markerSize (gui w))]])
                  (gui w))
         (disk w) (out w)).
Proof.
  intros Hb Hnone Hin _.
  assert (Hex : existsb (Nat.eqb (rdb (gui w))) (buttonCounter (gui w)) = false).
  { destruct (existsb _ _) eqn:E; [|reflexivity].
    apply existsb_eqb_In in E. contradiction. }
  unfold onClick, bind, self, assign, raise.
  rewrite Hb. simpl. rewrite Hex. simpl.
  destruct (xdata event) as [x|], (ydata event) as [y|]; try reflexivity.
  destruct Hnone; discriminate.
Qed.

(** ** Reading the table *)

Lemma fold_left_ext {A B} (f g : A -> B -> A) (l : list B) (a : A) :
  (forall x y, f x y = g x y) -> fold_left f l a = fold_left g l a.
Proof.
  intros H. revert a. induction l as [|y t IH]; intros a; simpl;
    [reflexivity|]. rewrite H. apply IH.
Qed.

(** The two cases of a write through [.loc]. *)
Lemma put_single (df : DataFrame real) label k v :
  count_occ string_dec (df_index df) label = 1 ->
  put df label k v
  = mkDataFrame (columns df)
      (map (fun r : Row real =>
              if String.eqb (fst r) label
              then (fst r, set_cells k v (columns df) (snd r))
              else r)
           (rows df)).
Proof. intros H. unfold put. rewrite H. reflexivity. Qed.

Lemma put_repeated (df : DataFrame real) label k v :
  count_occ string_dec (df_index df) label <> 1 -> put df label k v = df.
Proof.
  intros H. unfold put.
  destruct (Nat.eqb_spec (count_occ string_dec (df_index df) label) 1);
    [contradiction | reflexivity].
Qed.

Lemma put_index (df : DataFrame real) label k v :
  df_index (put df label k v) = df_index df.
Proof.
  unfold put. destruct (_ =? 1)%nat; [|reflexivity].
  unfold df_index. simpl. rewrite map_map. apply map_ext.
  intros r. destruct (String.eqb (fst r) label); reflexivity.
Qed.

Lemma put_columns (df : DataFrame real) label k v :
  columns (put df label k v) = columns df.
Proof. unfold put. destruct (_ =? 1)%nat; reflexivity. Qed.

Lemma key_eqb_refl (k : ColKey) : key_eqb k k = true.
Proof.
  destruct k as [[a b] c].
  unfold key_eqb, key_scorer, key_bodypart, key_coords. simpl.
  rewrite !String.eqb_refl. reflexivity.
Qed.

Lemma key_eqb_eq (a b : ColKey) : key_eqb a b = true <-> a = b.
Proof.
  destruct a as [[a1 a2] a3], b as [[b1 b2] b3].
  unfold key_eqb, key_scorer, key_bodypart, key_coords. simpl.
  rewrite !andb_true_iff, !String.eqb_eq. split.
  - intros [[-> ->] ->]. reflexivity.
  - intros E. inversion E. auto.
Qed.

Lemma mem_In x l : Str.mem x l = true <-> In x l.
Proof.
  unfold Str.mem. rewrite existsb_exists. split.
  - intros (y & Hy & E). apply String.eqb_eq in E. subst. exact Hy.
  - intros H. exists x. split; [exact H | apply String.eqb_refl].
Qed.




Lemma put_rows_length (df : DataFrame real) label k v :
  List.length (rows (put df label k v)) = List.length (rows df).
Proof.
  unfold put. destruct (_ =? 1)%nat; [|reflexivity]. simpl. apply length_map.
Qed.

Lemma written_shape px py label scorer (df : DataFrame real) h :
  columns (written px py label scorer df h) = columns df /\
  List.length (rows (written px py label scorer df h)) = List.length (rows df) /\
  df_index (written px py label scorer df h) = df_index df.
Proof.
  destruct h; unfold written; [auto|].
  rewrite !put_columns, !put_rows_length, !put_index. auto.
Qed.

Lemma fold_written_shape px py label scorer l : forall df : DataFrame real,
  columns (fold_left (written px py label scorer) l df) = columns df /\
  List.length (rows (fold_left (written px py label scorer) l df))
    = List.length (rows df) /\
  df_index (fold_left (written px py label scorer) l df) = df_index df.
Proof.
  induction l as [|h t IH]; intros df; simpl; [auto|].
  destruct (IH (written px py label scorer df h)) as (Hc & Hl & Hi).
  destruct (written_shape px py label scorer df h) as (Hc' & Hl' & Hi').
  rewrite Hc, Hl, Hi. auto.
Qed.

Lemma commit_handle_written label scorer (df : DataFrame real) h :
  commit_handle label scorer df h =
  written (fun h => match h with [] => NaN | e :: t => e_x (last t e) end)
          (fun h => match h with [] => NaN | e :: t => e_y (last t e) end)
          label scorer df h.
Proof. destruct h; reflexivity. Qed.

Lemma reset_handle_written label scorer (df : DataFrame real) h :
  reset_handle label scorer df h =
  written (fun _ => NaN) (fun _ => NaN) label scorer df h.
Proof. destruct h; reflexivity. Qed.

Lemma fold_commit_shape label scorer l (df : DataFrame real) :
  columns (fold_left (commit_handle label scorer) l df) = columns df /\
  List.length (rows (fold_left (commit_handle label scorer) l df))
    = List.length (rows df) /\
  df_index (fold_left (commit_handle label scorer) l df) = df_index df.
Proof.
  rewrite fold_left_ext with (g := written _ _ label scorer)
    by apply commit_handle_written.
  apply fold_written_shape.
Qed.

Lemma fold_reset_shape label scorer l (df : DataFrame real) :
  columns (fold_left (reset_handle label scorer) l df) = columns df /\
  List.length (rows (fold_left (reset_handle label scorer) l df))
    = List.length (rows df) /\
  df_index (fold_left (reset_handle label scorer) l df) = df_index df.
Proof.
  rewrite fold_left_ext with (g := written _ _ label scorer)
    by apply reset_handle_written.
  apply fold_written_shape.
Qed.

(** ** Commit of the displayed frame *)

Lemma untouched_refl G (a : option (DataFrame real)) : untouched G a a.
Proof.
  destruct a as [a|]; simpl; [|exact I].
  induction (rows a); constructor; auto.
Qed.

Lemma untouched_trans G (a b c : option (DataFrame real)) :
  untouched G a b -> untouched G b c -> untouched G a c.
Proof.
  destruct a as [a|], b as [b|], c as [c|]; simpl; try tauto.
  generalize (rows a) (rows b) (rows c). clear.
  intros la lb lc H. revert lc.
  induction H as [|x y la lb [Hl Hx] _ IH]; intros lc Hc; inversion Hc; subst.
  - constructor.
  - constructor; [|apply IH; assumption].
    match goal with H : _ /\ _ |- _ => destruct H as [Hl' Hy] end.
    split; [congruence|]. intros E. rewrite (Hx E). apply Hy. congruence.
Qed.

Lemma loc_set_untouched G (df df' : DataFrame real) label k v :
  loc_set df label k v = inr df' -> label <> G ->
  untouched G (Some df) (Some df').
Proof.
  unfold loc_set. destruct (Str.mem label (df_index df)); [|discriminate].
  intros E Hne. inversion E; subst; clear E. unfold put.
  destruct (_ =? 1)%nat; [|apply (untouched_refl G (Some df))].
  simpl. generalize (columns df). intros cols.
  induction (rows df) as [|r t IH]; simpl; constructor; [|exact IH].
  destruct (String.eqb_spec (fst r) label) as [El|El]; simpl.
  - split; [reflexivity|]. intros EG. congruence.
  - split; [reflexivity|]. reflexivity.
Qed.

Lemma untouched_row_at G (a b : option (DataFrame real)) i r :
  untouched G a b -> fst r = G ->
  (row_at b i = Some r <-> row_at a i = Some r).
Proof.
  destruct a as [a|], b as [b|]; simpl; try tauto.
  generalize (rows a) (rows b). clear a b. intros la lb H HG. revert i.
  induction H as [|x y la lb [Hl Hx] _ IH]; intros i.
  - tauto.
  - destruct i as [|i]; simpl; [|apply IH].
    split; intros E; inversion E; subst.
    + rewrite Hx; [reflexivity|]. congruence.
    + rewrite <- Hx; [reflexivity|]. reflexivity.
Qed.

Lemma write_current_keeps w0 G bp coords (value : M real (cell real)) :
  nth_error (relativeimagenames (gui w0)) (iter (gui w0)) <> Some G ->
  (forall w, world_of (value w) = w) ->
  keeps (commit_keeps w0 G) (write_current bp coords value).
Proof.
  intros HG Hpure w (Hrel & Hit & Hun).
  assert (Hsame : commit_keeps w0 G w) by (repeat split; assumption).
  unfold write_current, bind. specialize (Hpure w).
  destruct (value w) as [v w1|e w1]; simpl in Hpure; subst w1; [|exact Hsame].
  unfold self, not_none, subscript.
  destruct (dataFrame (gui w)) as [df|] eqn:Edf; simpl; [|exact Hsame].
  destruct (nth_error (relativeimagenames (gui w)) (iter (gui w))) as [label|] eqn:El;
    simpl; [|exact Hsame].
  destruct bp as [|first rest]; simpl; [exact Hsame|].
  unfold lift.
  destruct (loc_set df label (scorer (gui w), e_name first, coords) v) as [e|df'] eqn:Es;
    simpl; [exact Hsame|].
  split; [exact Hrel|]. split; [exact Hit|].
  apply untouched_trans with (b := Some df); [exact Hun|].
  apply loc_set_untouched with (1 := Es).
  intros E. apply HG. rewrite <- Hrel, <- Hit, El, E. reflexivity.
Qed.

Lemma last_entry_pure (bp : list (entry real)) (f : entry real -> cell real) w :
  world_of (bind (last_entry bp) (fun e => ret (f e)) w) = w.
Proof. destruct bp; reflexivity. Qed.

Lemma saveEachImage_keeps w0 G :
  nth_error (relativeimagenames (gui w0)) (iter (gui w0)) <> Some G ->
  keeps (commit_keeps w0 G) (@saveEachImage real).
Proof.
  intros HG. unfold saveEachImage.
  apply keeps_bind; [apply keeps_self|]. intros s.
  apply keeps_for_each. intros b.
  apply keeps_bind; [|intros _];
    apply write_current_keeps; try assumption; intros w; apply last_entry_pure.
Qed.

(** C5.  A commit of the displayed frame leaves the stored row of every other
    frame as it was: whatever the outcome of [saveEachImage], a row labelled
    with another frame [G] is found at a position of the store afterwards
    exactly when it was there before. *)
Theorem saveEachImage_other_frames w G i (r : Row real) :
  nth_error (relativeimagenames (gui w)) (iter (gui w)) <> Some G ->
  fst r = G ->
  row_at (dataFrame (gui (world_of (saveEachImage w)))) i = Some r
  <-> row_at (dataFrame (gui w)) i = Some r.
Proof.
  intros HG Hr.
  destruct (saveEachImage_keeps w G HG w) as (_ & _ & Hun).
  - repeat split. apply untouched_refl.
  - apply untouched_row_at with (1 := Hun) (2 := Hr).
Qed.

(** ** What a commit and a reset write *)

Lemma set_dataFrame_id (s : MainFrame real) : set_dataFrame (dataFrame s) s = s.
Proof. destruct s; reflexivity. Qed.

Lemma world_eta w : mkWorld (gui w) (disk w) (out w) = w.
Proof. destruct w; reflexivity. Qed.

Lemma write_current_ok w df label first t coords (value : M real (cell real)) v :
  value w = Ok v w ->
  dataFrame (gui w) = Some df ->
  nth_error (relativeimagenames (gui w)) (iter (gui w)) = Some label ->
  Str.mem label (df_index df) = true ->
  write_current (first :: t) coords value w =
    Ok tt (mkWorld
             (set_dataFrame
                (Some (put df label (scorer (gui w), e_name first, coords) v))
                (gui w))
             (disk w) (out w)).
Proof.
  intros Hv Hdf Hl Hm. unfold write_current.
  rewrite (bind_ok _ _ _ _ _ Hv).
  unfold bind, self, not_none, subscript, lift, loc_set, assign, ret.
  rewrite Hdf. simpl. rewrite Hl. simpl. rewrite Hm. reflexivity.
Qed.

(** The loops of [saveEachImage] and [ResetEachImage] differ in the values
    they write: [vx] and [vy] give them, [px] and [py] say what they are. *)
Section Loop.

Variables (vx vy : list (entry real) -> M real (cell real)).
Variables (px py : list (entry real) -> cell real).
Hypothesis vx_ok : forall h w, h <> [] -> vx h w = Ok (px h) w.
Hypothesis vy_ok : forall h w, h <> [] -> vy h w = Ok (py h) w.

Lemma written_index label scorer df h :
  df_index (written px py label scorer df h) = df_index df.
Proof. destruct h; simpl; [reflexivity|]. rewrite !put_index. reflexivity. Qed.

Lemma write_loop_ok label (l : list (list (entry real))) :
  forall n w df,
    dataFrame (gui w) = Some df ->
    nth_error (relativeimagenames (gui w)) (iter (gui w)) = Some label ->
    Str.mem label (df_index df) = true ->
    Forall (fun h => h <> []) l ->
    for_each (enumerate_from n l)
      (fun b => bind (write_current (snd b) "x" (vx (snd b)))
                  (fun _ => write_current (snd b) "y" (vy (snd b)))) w
    = Ok tt (mkWorld
               (set_dataFrame
                  (Some (fold_left (written px py label (scorer (gui w))) l df))
                  (gui w))
               (disk w) (out w)).
Proof.
  induction l as [|h t IH]; intros n w df Hdf Hl Hm Hne; simpl.
  - unfold ret. rewrite <- Hdf, set_dataFrame_id, world_eta. reflexivity.
  - inversion Hne as [|? ? Hh Ht]; subst.
    destruct h as [|first rest]; [congruence|].
    assert (Hc : first :: rest <> []) by discriminate.
    erewrite bind_ok; cycle 1.
    { erewrite bind_ok; cycle 1.
      { apply write_current_ok with (df := df) (label := label); auto. }
      apply write_current_ok with (label := label); simpl; auto.
      rewrite put_index. exact Hm. }
    erewrite IH; simpl; auto; [reflexivity|].
    rewrite !put_index. exact Hm.
Qed.

End Loop.

Lemma saveEachImage_ok w df label :
  dataFrame (gui w) = Some df ->
  nth_error (relativeimagenames (gui w)) (iter (gui w)) = Some label ->
  Str.mem label (df_index df) = true ->
  Forall (fun h => h <> []) (updatedCoords (gui w)) ->
  saveEachImage w =
    Ok tt (mkWorld
             (set_dataFrame
                (Some (fold_left (commit_handle label (scorer (gui w)))
                                 (updatedCoords (gui w)) df))
                (gui w))
             (disk w) (out w)).
Proof.
  intros Hdf Hl Hm Hne. unfold saveEachImage, enumerate.
  rewrite bind_ok with (a := gui w) (w' := w) by reflexivity.
  rewrite write_loop_ok
    with (vx := fun h => bind (last_entry h) (fun e => ret (e_x e)))
         (vy := fun h => bind (last_entry h) (fun e => ret (e_y e)))
         (px := fun h => match h with [] => NaN | e :: t => e_x (last t e) end)
         (py := fun h => match h with [] => NaN | e :: t => e_y (last t e) end)
         (df := df) (label := label); auto.
  - rewrite fold_left_ext with (g := commit_handle label (scorer (gui w)));
      [reflexivity|]. intros a h. destruct h; reflexivity.
  - intros [|e t] w1 H; [congruence|reflexivity].
  - intros [|e t] w1 H; [congruence|reflexivity].
Qed.

Lemma ResetEachImage_ok w df label :
  dataFrame (gui w) = Some df ->
  nth_error (relativeimagenames (gui w)) (iter (gui w)) = Some label ->
  Str.mem label (df_index df) = true ->
  Forall (fun h => h <> []) (updatedCoords (gui w)) ->
  ResetEachImage w =
    Ok tt (mkWorld
             (set_dataFrame
                (Some (fold_left (reset_handle label (scorer (gui w)))
                                 (updatedCoords (gui w)) df))
                (gui w))
             (disk w) (out w)).
Proof.
  intros Hdf Hl Hm Hne. unfold ResetEachImage, enumerate.
  rewrite bind_ok with (a := gui w) (w' := w) by reflexivity.
  rewrite write_loop_ok
    with (vx := fun _ => ret NaN) (vy := fun _ => ret NaN)
         (px := fun _ => NaN) (py := fun _ => NaN) (df := df) (label := label);
    auto.
Qed.

(** ** Drawing a frame *)

Lemma stable_refl w : stable w w.
Proof. repeat split. Qed.

Lemma stable_trans w1 w2 w3 : stable w1 w2 -> stable w2 w3 -> stable w1 w3.
Proof.
  unfold stable. intros H1 H2.
  repeat match goal with H : _ /\ _ |- _ => destruct H end.
  repeat split; congruence.
Qed.

Lemma stored_value_ok w df bp c :
  dataFrame (gui w) = Some df ->
  succeeds (values_at df (scorer (gui w), bp, c) (iter (gui w))) = true ->
  stored_value bp c w =
    Ok (value_or_nan (values_at df (scorer (gui w), bp, c) (iter (gui w)))) w.
Proof.
  intros Hdf Hs. unfold stored_value, bind, self, not_none, lift. rewrite Hdf.
  simpl. destruct (values_at df _ _); [discriminate|reflexivity].
Qed.

Lemma readable_In (df : DataFrame real) scorer bps i bp :
  readable df scorer bps i = true -> In bp bps ->
  succeeds (values_at df (scorer, bp, "x") i) = true /\
  succeeds (values_at df (scorer, bp, "y") i) = true.
Proof.
  unfold readable. rewrite forallb_forall. intros H Hin.
  apply andb_true_iff. apply H, Hin.
Qed.

Lemma getLabels_loop_ok w df (l : list (nat * string)) :
  dataFrame (gui w) = Some df ->
  readable df (scorer (gui w)) (map snd l) (iter (gui w)) = true ->
  getLabels_loop l w =
    Ok (map (drawn_coords df (scorer (gui w)) (iter (gui w))) l) w.
Proof.
  intros Hdf. induction l as [|[i bp] t IH]; intros Hr; simpl; [reflexivity|].
  simpl in Hr. apply andb_true_iff in Hr. destruct Hr as [Hbp Ht].
  apply andb_true_iff in Hbp. destruct Hbp as [Hx Hy].
  rewrite (bind_ok _ _ _ _ _ (stored_value_ok _ _ _ _ Hdf Hx)).
  rewrite (bind_ok _ _ _ _ _ (stored_value_ok _ _ _ _ Hdf Hy)).
  rewrite (bind_ok _ _ _ _ _ (IH Ht)). reflexivity.
Qed.

Lemma map_snd_enumerate {A} (l : list A) n : map snd (enumerate_from n l) = l.
Proof.
  revert n. induction l as [|x t IH]; intros n; simpl; [reflexivity|].
  rewrite IH. reflexivity.
Qed.

Lemma nth_error_enumerate {A} (l : list A) n j x :
  nth_error l j = Some x -> nth_error (enumerate_from n l) j = Some (n + j, x).
Proof.
  revert n j. induction l as [|y t IH]; intros n [|j] H; simpl in *;
    try discriminate.
  - inversion H. subst. rewrite Nat.add_0_r. reflexivity.
  - rewrite (IH (S n) j H). f_equal. f_equal. lia.
Qed.

Lemma getLabels_ok w df i :
  dataFrame (gui w) = Some df ->
  readable df (scorer (gui w)) (bodyparts (gui w)) (iter (gui w)) = true ->
  getLabels i w =
    Ok (map (drawn_coords df (scorer (gui w)) (iter (gui w)))
            (enumerate (bodyparts (gui w)))) w.
Proof.
  intros Hdf Hr. unfold getLabels.
  rewrite bind_ok with (a := gui w) (w' := w) by reflexivity.
  apply getLabels_loop_ok; [exact Hdf|].
  unfold enumerate. rewrite map_snd_enumerate. exact Hr.
Qed.




(** ** Moving to the next frame *)



(** ** Deleting a frame *)

Lemma nth_set_cells_nan k (cols : list ColKey) :
  forall (cells : list (cell real)) j c,
    nth_error cols j = Some c ->
    nth j (set_cells k NaN cols cells) NaN
    = if key_eqb c k then NaN else nth j cells NaN.
Proof.
  induction cols as [|c0 cols IH]; intros cells j c Hj.
  - destruct j; discriminate.
  - destruct cells as [|x cells]; simpl.
    + destruct (key_eqb c k), j; reflexivity.
    + destruct j as [|j]; simpl in *.
      * inversion Hj. subst. destruct (key_eqb c k); reflexivity.
      * apply IH. exact Hj.
Qed.

Lemma nan_under_weaken (K K' : ColKey -> bool) label (df : DataFrame real) :
  (forall k, K k = true -> K' k = true) ->
  nan_under K' label df -> nan_under K label df.
Proof. intros H N r j k Hr Hl Hk HK. apply (N r j k); auto. Qed.

Lemma put_nan_under K label (df : DataFrame real) k0 :
  count_occ string_dec (df_index df) label = 1 ->
  nan_under K label df ->
  nan_under (fun k => K k || key_eqb k k0) label (put df label k0 NaN).
Proof.
  intros Hu N r j k Hr Hl Hk HK. rewrite put_single in Hr by exact Hu.
  simpl in Hr. apply in_map_iff in Hr. destruct Hr as (r0 & E & Hr0).
  rewrite put_columns in Hk.
  destruct (String.eqb_spec (fst r0) label) as [El|El].
  - subst r. simpl. rewrite (nth_set_cells_nan _ _ _ _ _ Hk).
    destruct (key_eqb k k0) eqn:Ek; [reflexivity|].
    rewrite orb_false_r in HK. apply (N r0 j k); auto.
  - subst r. contradiction.
Qed.

Lemma fold_reset_nan_under label scorer (l : list (list (entry real))) :
  forall K (df : DataFrame real),
    count_occ string_dec (df_index df) label = 1 ->
    nan_under K label df ->
    nan_under (fun k => K k || covered scorer l k) label
              (fold_left (reset_handle label scorer) l df).
Proof.
  induction l as [|h t IH]; intros K df Hu N; simpl.
  - apply nan_under_weaken with (2 := N). intros k. rewrite orb_false_r. auto.
  - destruct h as [|e rest]; simpl.
    + apply IH; assumption.
    + eapply nan_under_weaken;
        [|apply IH; [rewrite !put_index; exact Hu|
                     apply put_nan_under; [rewrite put_index; exact Hu|];
                     apply put_nan_under; [exact Hu|exact N]]].
      intros k. simpl. rewrite !orb_assoc. auto.
Qed.

Lemma reset_establishes_nan label scorer (l : list (list (entry real)))
  (df : DataFrame real) :
  count_occ string_dec (df_index df) label = 1 ->
  nan_under (covered scorer l) label (fold_left (reset_handle label scorer) l df).
Proof.
  intros Hu.
  eapply nan_under_weaken;
    [|apply fold_reset_nan_under with (K := fun _ => false); [exact Hu|]].
  - intros k H. exact H.
  - intros r j k _ _ _ H. discriminate H.
Qed.







(** ** Saving the table *)

Lemma insert_by_perm {A} (key : A -> string) x (l : list A) :
  Permutation (insert_by key x l) (x :: l).
Proof.
  induction l as [|h t IH]; simpl; [reflexivity|].
  destruct (String.leb (key x) (key h)); [reflexivity|].
  rewrite IH. apply perm_swap.
Qed.

Lemma sort_by_perm {A} (key : A -> string) (l : list A) :
  Permutation (sort_by key l) l.
Proof.
  induction l as [|h t IH]; simpl; [reflexivity|].
  unfold sort_by in *. simpl. rewrite insert_by_perm. constructor. exact IH.
Qed.

Lemma insert_by_sorted {A} (key : A -> string) x (l : list A) :
  Sorted (fun a b => String.leb (key a) (key b) = true) l ->
  Sorted (fun a b => String.leb (key a) (key b) = true) (insert_by key x l).
Proof.
  induction 1 as [|h t Hs IH Hh]; simpl.
  - repeat constructor.
  - destruct (String.leb (key x) (key h)) eqn:E.
    + constructor; [constructor; assumption|]. constructor. exact E.
    + constructor; [exact IH|].
      assert (Hhx : String.leb (key h) (key x) = true).
      { destruct (String.leb_total (key x) (key h)); congruence. }
      destruct t as [|h' t']; simpl.
      * constructor. exact Hhx.
      * inversion Hh; subst.
        destruct (String.leb (key x) (key h')); constructor; assumption.
Qed.

Lemma sort_by_sorted {A} (key : A -> string) (l : list A) :
  Sorted (fun a b => String.leb (key a) (key b) = true) (sort_by key l).
Proof.
  induction l as [|h t IH]; [constructor|].
  unfold sort_by in *. simpl. apply insert_by_sorted. exact IH.
Qed.

Lemma sorted_map_fst (l : list (Row real)) :
  Sorted (fun a b : Row real => String.leb (fst a) (fst b) = true) l ->
  Sorted (fun a b => String.leb a b = true) (map fst l).
Proof.
  induction 1 as [|h t Hs IH Hh]; simpl; constructor; [exact IH|].
  destruct Hh; simpl; constructor. assumption.
Qed.

Lemma reindex_index target (df T : DataFrame real) :
  reindex_bodyparts target df = inr T -> df_index T = df_index df.
Proof.
  unfold reindex_bodyparts. destruct (nodupb target); [|discriminate].
  intros E. inversion E. unfold df_index. simpl. rewrite map_map. reflexivity.
Qed.

Lemma reindex_columns target (df T : DataFrame real) :
  reindex_bodyparts target df = inr T ->
  columns T = flat_map (fun bp => filter (has_bodypart bp) (columns df)) target.
Proof.
  unfold reindex_bodyparts. destruct (nodupb target); [|discriminate].
  intros E. inversion E. reflexivity.
Qed.

Lemma bodyparts_of_filter bp (cols : list ColKey) :
  map key_bodypart (filter (has_bodypart bp) cols)
  = repeat bp (List.length (filter (has_bodypart bp) cols)).
Proof.
  induction cols as [|c t IH]; simpl; [reflexivity|].
  destruct (has_bodypart bp c) eqn:E; simpl; [|exact IH].
  apply String.eqb_eq in E. rewrite IH, E. reflexivity.
Qed.

Lemma string_append_inj (a x y : string) : a +++ x = a +++ y -> x = y.
Proof.
  induction a as [|c a IH]; simpl; [auto|]. intros E. inversion E. auto.
Qed.

Lemma csv_hdf_distinct d sc :
  Str.path_join d (csv_name sc) <> Str.path_join d (hdf_name sc).
Proof.
  unfold Str.path_join, csv_name, hdf_name. simpl.
  assert (H : forall sc', sc' +++ ".csv" <> sc' +++ ".h5").
  { intros sc' E. apply string_append_inj in E. discriminate. }
  destruct (String.eqb d "" || Str.endswith "/" d); intros E.
  - apply string_append_inj in E. inversion E. apply (H sc). assumption.
  - apply string_append_inj in E. inversion E. apply (H sc). assumption.
Qed.

Lemma find_drop_other p q (l : list (string * FileContent real)) :
  p <> q ->
  find (fun f => String.eqb (fst f) p) (drop_file q l)
  = find (fun f => String.eqb (fst f) p) l.
Proof.
  intros Hne. induction l as [|[x c] t IH]; simpl; [reflexivity|].
  destruct (String.eqb_spec x q) as [Eq|Eq]; simpl.
  - destruct (String.eqb_spec x p) as [Ep|Ep]; [congruence|exact IH].
  - destruct (String.eqb_spec x p); [reflexivity|exact IH].
Qed.

Lemma find_drop_same p (l : list (string * FileContent real)) :
  find (fun f => String.eqb (fst f) p) (drop_file p l) = None.
Proof.
  induction l as [|[x c] t IH]; simpl; [reflexivity|].
  destruct (String.eqb_spec x p) as [E|E]; simpl; [exact IH|].
  destruct (String.eqb_spec x p); [contradiction|exact IH].
Qed.

Lemma find_append {A} (f : A -> bool) (l l' : list A) :
  find f (l ++ l') = match find f l with Some x => Some x | None => find f l' end.
Proof.
  induction l as [|x t IH]; simpl; [reflexivity|].
  destruct (f x); [reflexivity|exact IH].
Qed.

Lemma read_write_same p c (d : FS real) :
  read_file (write_file p c d) p = Some c.
Proof.
  unfold read_file, write_file. simpl. rewrite find_append, find_drop_same.
  simpl. rewrite String.eqb_refl. reflexivity.
Qed.

Lemma read_write_other p q c (d : FS real) :
  p <> q -> read_file (write_file q c d) p = read_file d p.
Proof.
  intros Hne. unfold read_file, write_file. simpl.
  rewrite find_append, (find_drop_other _ _ _ Hne).
  destruct (find _ (files d)); [reflexivity|]. simpl.
  destruct (String.eqb_spec q p); [congruence|reflexivity].
Qed.

(** The backup step touches the disk and the trace only. *)
Lemma keeps_gui_rename g0 src dst :
  keeps (fun w => gui w = g0) (rename env src dst).
Proof.
  unfold rename. apply keeps_bind; [apply keeps_the_disk|]. intros d.
  apply keeps_bind; [apply keeps_lift|]. intros d' w H. exact H.
Qed.

Lemma keeps_gui_remove g0 p : keeps (fun w => gui w = g0) (@remove real p).
Proof.
  unfold remove. apply keeps_bind; [apply keeps_the_disk|]. intros d.
  apply keeps_bind; [apply keeps_lift|]. intros d' w H. exact H.
Qed.

Lemma keeps_gui_backup g0 csv hdf :
  keeps (fun w => gui w = g0) (backup_previous_save env csv hdf).
Proof.
  assert (Hr : forall a b, keeps (fun w => gui w = g0) (rename_if_exists env a b)).
  { intros a b. unfold rename_if_exists.
    apply keeps_bind; [apply keeps_the_disk|]. intros d.
    apply keeps_when, keeps_gui_rename. }
  assert (Hw : forall a b, keeps (fun w => gui w = g0) (rename_win32 env a b)).
  { intros a b. unfold rename_win32.
    apply keeps_bind; [apply keeps_the_disk|]. intros d.
    apply keeps_when, keeps_when.
    apply keeps_bind; [apply keeps_gui_remove|]. intros _.
    apply keeps_gui_rename. }
  unfold backup_previous_save.
  destruct (_ || _).
  { apply keeps_bind; [apply Hr|]. intros _. apply Hr. }
  destruct (String.eqb _ "win32").
  { apply keeps_bind; [apply Hw|]. intros _. apply Hw. }
  destruct (String.eqb _ "darwin").
  { apply keeps_try_except.
    - apply keeps_bind; [apply Hr|]. intros _. apply Hr.
    - intros w H. exact H. }
  apply keeps_ret.
Qed.

(** X26.  What a save that runs writes.  When the backup step raises nothing, the
    displayed frame has a row in the table, no handle of the editor is empty
    and [self.bodyparts] names no bodypart twice, [saveDataSet] returns, and
    the one table [T] it writes to the .csv file and, when it has a row, to
    the .h5 file is made from the committed store: its rows are the rows that
    are not NaN throughout, in ascending order of their label; its columns
    are those of the bodyparts of [self.bodyparts], grouped by bodypart in
    the order of that list; and each written row holds the cells of its
    stored row under these columns. *)
Theorem saveDataSet_writes w w1 d df0 label :
  dir (gui w) = Some d ->
  backup_previous_save env (Str.path_join d (csv_name (scorer (gui w))))
    (Str.path_join d (hdf_name (scorer (gui w)))) w = Ok tt w1 ->
  dataFrame (gui w) = Some df0 ->
  nth_error (relativeimagenames (gui w)) (iter (gui w)) = Some label ->
  Str.mem label (df_index df0) = true ->
  Forall (fun h => h <> []) (updatedCoords (gui w)) ->
  nodupb (bodyparts (gui w)) = true ->
  let df := fold_left (commit_handle label (scorer (gui w)))
                      (updatedCoords (gui w)) df0 in
  exists w' T,
    saveDataSet env w = Ok tt w' /\
    read_file (disk w') (Str.path_join d (csv_name (scorer (gui w))))
      = Some (CsvTable T) /\
    read_file (disk w') (Str.path_join d (hdf_name (scorer (gui w))))
      = Some (hdf_content "df_with_missing" T) /\
    (forall l, In l (df_index T) <->
               exists r, In r (rows df) /\ fst r = l
                         /\ forallb (@isnan real) (snd r) = false) /\
    Sorted (fun a b => String.leb a b = true) (df_index T) /\
    map key_bodypart (columns T)
      = flat_map (fun bp => repeat bp (List.length
                               (filter (has_bodypart bp) (columns df))))
                 (bodyparts (gui w)) /\
    (forall r, In r (rows T) ->
       exists r0, In r0 (rows df) /\ fst r0 = fst r /\
         snd r = flat_map (fun bp => select_cells (has_bodypart bp)
                                       (columns df) (snd r0))
                          (bodyparts (gui w))).
Proof.
  intros Hd Hb Hdf Hl Hm Hne Hu df.
  set (csv := Str.path_join d (csv_name (scorer (gui w)))) in *.
  set (hdf := Str.path_join d (hdf_name (scorer (gui w)))) in *.
  assert (Hg1 : gui w1 = gui w).
  { pose proof (keeps_gui_backup (gui w) csv hdf w eq_refl) as H.
    rewrite Hb in H. exact H. }
  unfold saveDataSet. repeat mstep.
  rewrite bind_not_none with (x := d) by exact Hd.
  fold csv hdf. rewrite (bind_ok _ _ _ _ _ Hb). repeat mstep.
  erewrite bind_ok; cycle 1.
  { apply saveEachImage_ok with (df := df0) (label := label); simpl;
      rewrite ?Hg1; assumption. }
  cbn [gui disk out]. rewrite Hg1. fold df.
  match goal with
  | |- context [bind (@updateZoomPan real) _ ?w2] =>
      destruct (updateZoomPan_frame w2)
        as (g & o & Hz & _ & _ & _ & _ & _ & _ & Hbp & Hdfg & _)
  end.
  simpl in Hbp, Hdfg. rewrite (bind_ok _ _ _ _ _ Hz). repeat mstep.
  rewrite bind_not_none with (x := df) by exact Hdfg. repeat mstep.
  cbn [bodyparts set_dataFrame]. rewrite Hbp.
  set (T := mkDataFrame
              (flat_map (fun bp => filter (has_bodypart bp)
                                     (columns (sort_index (dropna_all df))))
                        (bodyparts (gui w)))
              (map (fun r : Row real =>
                      (fst r,
                       flat_map (fun bp => select_cells (has_bodypart bp)
                                   (columns (sort_index (dropna_all df))) (snd r))
                                (bodyparts (gui w))))
                   (rows (sort_index (dropna_all df))))).
  assert (HT : reindex_bodyparts (bodyparts (gui w)) (sort_index (dropna_all df))
               = inr T).
  { unfold reindex_bodyparts. rewrite Hu. reflexivity. }
  rewrite bind_lift with (x := T) by exact HT. repeat mstep.
  unfold to_csv, to_hdf. repeat mstep.
  eexists. exists T. split; [reflexivity|]. cbn [disk].
  assert (Hperm : Permutation (rows (sort_index (dropna_all df)))
                    (filter (fun r : Row real => negb (forallb (@isnan real) (snd r)))
                            (rows df))).
  { simpl. apply sort_by_perm. }
  split; [|split; [|split; [|split; [|split]]]].
  - rewrite read_write_other by apply csv_hdf_distinct.
    apply read_write_same.
  - apply read_write_same.
  - intros l. rewrite (reindex_index _ _ _ HT). unfold df_index.
    rewrite in_map_iff. split.
    + intros (r & E & Hr). exists r.
      apply (Permutation_in _ Hperm) in Hr. apply filter_In in Hr.
      destruct Hr as [Hr Hk]. apply negb_true_iff in Hk. auto.
    + intros (r & Hr & E & Hk). exists r. split; [exact E|].
      apply (Permutation_in _ (Permutation_sym Hperm)).
      apply filter_In. split; [exact Hr|]. rewrite Hk. reflexivity.
  - rewrite (reindex_index _ _ _ HT). unfold df_index.
    apply sorted_map_fst. simpl. apply sort_by_sorted.
  - simpl. rewrite flat_map_concat_map, concat_map, map_map.
    rewrite <- flat_map_concat_map. apply flat_map_ext. intros bp.
    apply bodyparts_of_filter.
  - intros r Hr. simpl in Hr. apply in_map_iff in Hr.
    destruct Hr as (r0 & E & Hr0).
    apply (Permutation_in _ (sort_by_perm _ _)) in Hr0.
    apply filter_In in Hr0. destruct Hr0 as [Hr0 _].
    exists r0. subst r. simpl. auto.
Qed.

(** ** New bodyparts at load time *)

Lemma labels_eqb_eq (a b : list string) : labels_eqb a b = true -> a = b.
Proof.
  revert b. induction a as [|x a IH]; intros [|y b] H; simpl in H;
    try discriminate; [reflexivity|].
  apply andb_true_iff in H. destruct H as [E H].
  apply String.eqb_eq in E. rewrite E, (IH b H). reflexivity.
Qed.

Lemma nodupb_NoDup (l : list string) : nodupb l = true -> NoDup l.
Proof.
  induction l as [|x t IH]; simpl; intros H; constructor;
    apply andb_true_iff in H; destruct H as [Hx Ht].
  - intros Hin. apply mem_In in Hin. rewrite Hin in Hx. discriminate.
  - apply IH, Ht.
Qed.

Lemma find_row_unique (rs : list (Row real)) r :
  NoDup (map fst rs) -> In r rs ->
  find (fun r' : Row real => String.eqb (fst r') (fst r)) rs = Some r.
Proof.
  induction rs as [|h t IH]; simpl; intros Hnd Hin; [contradiction|].
  inversion Hnd as [|? ? Hh Ht]; subst.
  destruct Hin as [E|Hin].
  - subst. rewrite String.eqb_refl. reflexivity.
  - destruct (String.eqb_spec (fst h) (fst r)) as [E|E].
    + exfalso. apply Hh. rewrite E. apply in_map, Hin.
    + apply IH; assumption.
Qed.

Lemma cells_or_nan_nan_frame cols labels x :
  cells_or_nan (@nan_frame real cols labels) x = nan_cells (List.length cols).
Proof.
  unfold cells_or_nan, find_row, nan_frame. simpl.
  induction labels as [|l t IH]; simpl; [reflexivity|].
  destruct (String.eqb l x); [reflexivity|exact IH].
Qed.

Lemma filter_none {A} (f : A -> bool) (l : list A) :
  (forall x, In x l -> f x = false) -> filter f l = [].
Proof.
  induction l as [|x t IH]; simpl; intros H; [reflexivity|].
  rewrite (H x (or_introl eq_refl)). apply IH. intros y Hy. apply H. right. exact Hy.
Qed.

Lemma nan_cells_two_more n :
  @nan_cells real (2 * S n) = NaN :: NaN :: nan_cells (2 * n).
Proof.
  unfold nan_cells. replace (2 * S n) with (S (S (2 * n))) by lia. reflexivity.
Qed.

(** One turn of the loop: the concatenation puts two NaN cells behind every
    row. *)
Lemma concat_axis1_nan_pair (df : DataFrame real) scorer bp labels :
  aligned df labels ->
  concat_axis1 (Some df) (nan_frame (from_product scorer bp) labels)
  = inr (with_nan_columns scorer [bp] df).
Proof.
  intros Ha. unfold concat_axis1, with_nan_columns.
  assert (Hidx : df_index (@nan_frame real (from_product scorer bp) labels) = labels).
  { unfold df_index, nan_frame. simpl. rewrite map_map. simpl. apply map_id. }
  rewrite Hidx.
  change (flat_map (from_product scorer) [bp])
    with (from_product scorer bp ++ []).
  rewrite app_nil_r.
  change (columns (@nan_frame real (from_product scorer bp) labels))
    with (from_product scorer bp).
  change (@nan_cells real (2 * List.length [bp])) with [@NaN real; NaN].
  destruct (labels_eqb (df_index df) labels) eqn:El.
  - apply labels_eqb_eq in El. f_equal. f_equal.
    unfold nan_frame. simpl. rewrite <- El. unfold df_index.
    rewrite map_map. simpl.
    induction (rows df) as [|r t IH]; simpl; [reflexivity|].
    rewrite IH. reflexivity.
  - destruct Ha as [Ha|(Hn1 & Hn2 & Hin)]; [congruence|].
    rewrite Hn1, Hn2. simpl. f_equal. f_equal.
    rewrite filter_none, app_nil_r.
    + unfold df_index. rewrite map_map.
      apply map_ext_in. intros r Hr.
      rewrite cells_or_nan_nan_frame. simpl.
      unfold cells_or_nan, find_row.
      pose proof (find_row_unique _ _ (nodupb_NoDup _ Hn1) Hr) as Hf.
      unfold Row in Hf. rewrite Hf. reflexivity.
    + intros x Hx. apply negb_false_iff. apply mem_In. apply Hin, Hx.
Qed.

Lemma with_nan_columns_nil scorer (df : DataFrame real) :
  with_nan_columns scorer [] df = df.
Proof.
  destruct df as [cols rs]. unfold with_nan_columns. simpl.
  rewrite app_nil_r. f_equal.
  induction rs as [|[l c] t IH]; simpl; [reflexivity|].
  rewrite IH. unfold nan_cells. simpl. rewrite app_nil_r. reflexivity.
Qed.

Lemma with_nan_columns_cons scorer bp t (df : DataFrame real) :
  with_nan_columns scorer t (with_nan_columns scorer [bp] df)
  = with_nan_columns scorer (bp :: t) df.
Proof.
  unfold with_nan_columns. simpl columns. simpl rows.
  rewrite map_map. simpl fst. simpl snd. f_equal.
  - simpl. rewrite <- !app_assoc. reflexivity.
  - apply map_ext. intros r. simpl List.length.
    rewrite nan_cells_two_more, <- app_assoc. reflexivity.
Qed.

Lemma aligned_with_nan_columns scorer bps (df : DataFrame real) labels :
  aligned df labels -> aligned (with_nan_columns scorer bps df) labels.
Proof.
  assert (E : df_index (with_nan_columns scorer bps df) = df_index df).
  { unfold df_index, with_nan_columns. simpl. rewrite map_map. reflexivity. }
  unfold aligned. rewrite E. auto.
Qed.

Lemma append_nan_columns_ok labels bps :
  forall w df,
    dataFrame (gui w) = Some df ->
    aligned df labels ->
    append_nan_columns labels bps w =
      Ok tt (mkWorld
               (set_dataFrame
                  (Some (with_nan_columns (scorer (gui w)) bps df)) (gui w))
               (disk w) (out w)).
Proof.
  unfold append_nan_columns.
  induction bps as [|bp t IH]; intros w df Hdf Ha; simpl.
  - rewrite with_nan_columns_nil, <- Hdf, set_dataFrame_id, world_eta.
    reflexivity.
  - repeat mstep. rewrite Hdf.
    rewrite bind_lift with (x := with_nan_columns (scorer (gui w)) [bp] df)
      by (apply concat_axis1_nan_pair; exact Ha).
    repeat mstep.
    rewrite IH with (df := with_nan_columns (scorer (gui w)) [bp] df);
      [|reflexivity|apply aligned_with_nan_columns; exact Ha].
    simpl. rewrite with_nan_columns_cons. reflexivity.
Qed.

(** Drawing leaves the annotation store alone. *)
Ltac kept_step X :=
  first [ apply keeps_bind; [|intros ?]
        | apply keeps_self | apply keeps_ret | apply keeps_raise
        | apply keeps_lift | apply keeps_subscript | apply keeps_not_none
        | apply keeps_when
        | apply (keeps_ImagePanel_drawplot (fun s => dataFrame s = X))
        | apply (keeps_ImagePanel_getColorIndices (fun s => dataFrame s = X))
        | apply (keeps_emit (fun s => dataFrame s = X))
        | apply (keeps_assign (fun s => dataFrame s = X)); intros ? H; exact H ].

Lemma kept_stored_value X bp c :
  keeps (fun w => dataFrame (gui w) = X) (@stored_value real bp c).
Proof. unfold stored_value. repeat kept_step X. Qed.

Lemma kept_getLabels_loop X l :
  keeps (fun w => dataFrame (gui w) = X) (@getLabels_loop real l).
Proof.
  induction l as [|[i bp] t IH]; simpl; [apply keeps_ret|].
  apply keeps_bind; [apply kept_stored_value|]. intros x.
  apply keeps_bind; [apply kept_stored_value|]. intros y.
  apply keeps_bind; [exact IH|]. intros rest. apply keeps_ret.
Qed.

Lemma kept_getLabels X i :
  keeps (fun w => dataFrame (gui w) = X) (@getLabels real i).
Proof.
  unfold getLabels. apply keeps_bind; [apply keeps_self|]. intros s.
  apply kept_getLabels_loop.
Qed.

Lemma kept_plot_one X b :
  keeps (fun w => dataFrame (gui w) = X) (@plot_one real b).
Proof.
  destruct b as [i bp]. unfold plot_one.
  apply keeps_bind; [apply kept_stored_value|]. intros x.
  apply keeps_bind; [apply kept_stored_value|]. intros y.
  apply keeps_bind; [apply keeps_self|]. intros s.
  apply keeps_bind; [apply (keeps_emit (fun s => dataFrame s = X))|]. intros _.
  apply keeps_bind; [apply keeps_subscript|]. intros name.
  apply keeps_bind; [apply (keeps_emit (fun s => dataFrame s = X))|]. intros _.
  apply keeps_bind; [apply kept_getLabels|]. intros labels.
  repeat kept_step X.
Qed.

Lemma kept_plot X im :
  keeps (fun w => dataFrame (gui w) = X) (@plot real im).
Proof.
  unfold plot.
  apply keeps_bind; [kept_step X|]. intros _.
  apply keeps_bind; [kept_step X|]. intros _.
  apply keeps_bind; [apply keeps_self|]. intros s.
  apply keeps_bind; [apply keeps_for_each; apply kept_plot_one|]. intros _.
  repeat kept_step X.
Qed.

Lemma kept_drawplot X b :
  keeps (fun w => dataFrame (gui w) = X) (@drawplot real b).
Proof. unfold drawplot. repeat kept_step X. Qed.

Lemma kept_addRadioButtons X :
  keeps (fun w => dataFrame (gui w) = X) (@addRadioButtons real).
Proof. unfold addRadioButtons. repeat kept_step X. Qed.

Lemma kept_connect_canvas X :
  keeps (fun w => dataFrame (gui w) = X) (@connect_canvas real).
Proof. unfold connect_canvas. repeat kept_step X. Qed.

Lemma kept_getColorIndices X :
  keeps (fun w => dataFrame (gui w) = X) (@getColorIndices real).
Proof. unfold getColorIndices. repeat kept_step X. Qed.

Ltac kept_draw X :=
  repeat first [ apply kept_plot | apply kept_drawplot
               | apply kept_addRadioButtons | apply kept_connect_canvas
               | apply kept_getColorIndices | kept_step X ].

Lemma first_occurrences_complete x (l seen : list string) :
  In x l -> In x seen \/ In x (first_occurrences seen l).
Proof.
  revert seen. induction l as [|y t IH]; intros seen Hin; [contradiction|].
  simpl. destruct (Str.mem y seen) eqn:Em.
  - destruct Hin as [E|Hin]; [subst; left; apply mem_In, Em | apply IH, Hin].
  - destruct Hin as [E|Hin]; [subst; right; left; reflexivity|].
    destruct (IH (y :: seen) Hin) as [[E|Hs]|Hf].
    + subst. right. left. reflexivity.
    + left. exact Hs.
    + right. right. exact Hf.
Qed.

Lemma first_occurrences_sound x (l seen : list string) :
  In x (first_occurrences seen l) -> In x l.
Proof.
  revert seen. induction l as [|y t IH]; intros seen Hin; [contradiction|].
  simpl in Hin. destruct (Str.mem y seen).
  - right. apply (IH _ Hin).
  - destruct Hin as [E|Hin]; [left; exact E | right; apply (IH _ Hin)].
Qed.

(** C6, as the code has it.  From a store whose rows can be aligned with the
    frames of the folder, with the displayed image readable as it was a few
    lines earlier, the last part of [browseDir] (from [# Extracting the list
    of new labels]) leaves, however the drawing that follows ends, a store in
    which the columns of the loaded table are followed by an x and a y column
    for each configured bodypart the table did not have, every row is its old
    row followed by NaN in the new columns, and every configured bodypart has
    columns.  No column is removed: the bodyparts of the columns are those of
    the configured list only when the loaded table had no column of another
    bodypart. *)
Theorem show_labels_adds_columns w df :
  dataFrame (gui w) = Some df ->
  aligned df (relativeimagenames (gui w)) ->
  imread (disk w) (img (gui w)) = true ->
  let new_bps :=
    filter (fun x => negb (Str.mem x (oldbodyparts2plot df)))
           (bodyparts (gui w)) in
  exists df',
    dataFrame (gui (world_of (show_labels env w))) = Some df' /\
    columns df' = columns df ++ flat_map (from_product (scorer (gui w))) new_bps /\
    rows df' = map (fun r : Row real =>
                      (fst r, snd r ++ nan_cells (2 * List.length new_bps)))
                   (rows df) /\
    (forall bp, In bp (bodyparts (gui w)) ->
                In bp (map key_bodypart (columns df'))) /\
    ((forall bp, In bp (map key_bodypart (columns df)) ->
                 In bp (bodyparts (gui w))) ->
     columns_match df' (bodyparts (gui w))).
Proof.
  intros Hdf Ha Himg new_bps.
  exists (with_nan_columns (scorer (gui w)) new_bps df).
  assert (Hall : forall bp, In bp (bodyparts (gui w)) ->
            In bp (map key_bodypart
                     (columns (with_nan_columns (scorer (gui w)) new_bps df)))).
  { intros bp Hbp. unfold with_nan_columns. simpl columns.
    rewrite map_app. apply in_or_app.
    destruct (Str.mem bp (oldbodyparts2plot df)) eqn:Eold.
    + left. apply mem_In in Eold. unfold oldbodyparts2plot in Eold.
      apply first_occurrences_sound in Eold. exact Eold.
    + right. apply in_map_iff. exists (scorer (gui w), bp, "x"). split;
        [reflexivity|].
      apply in_flat_map. exists bp. split; [|left; reflexivity].
      apply filter_In. split; [exact Hbp|]. rewrite Eold. reflexivity. }
  split; [|split; [reflexivity|split; [reflexivity|split; [exact Hall|]]]].
  - unfold show_labels. repeat mstep.
    rewrite bind_not_none with (x := df) by exact Hdf. repeat mstep.
    fold new_bps.
    destruct new_bps as [|bp t] eqn:Enew.
    + rewrite with_nan_columns_nil.
      match goal with
      | |- dataFrame (gui (world_of (?m ?w1))) = _ =>
          refine ((_ : keeps (fun w => dataFrame (gui w) = Some df) m) w1 _)
      end; [kept_draw (Some df) | exact Hdf].
    + rewrite <- Enew. clear Enew.
      destruct (MessageDialog_ShowModal env); simpl negb; unfold when;
        unfold getColorIndices; repeat mstep.
      * erewrite bind_ok; cycle 1.
        { apply append_nan_columns_ok with (df := df); simpl; assumption. }
        cbn [gui disk out scorer set_new_bodyparts].
        match goal with
        | |- dataFrame (gui (world_of (?m ?w1))) = ?X =>
            refine ((_ : keeps (fun w => dataFrame (gui w) = X) m) w1 _)
        end; [kept_draw (Some (with_nan_columns (scorer (gui w)) new_bps df))
             | reflexivity].
      * rewrite bind_ImagePanel_getColorIndices by exact Himg. repeat mstep.
        erewrite bind_ok; cycle 1.
        { apply append_nan_columns_ok with (df := df); simpl; assumption. }
        cbn [gui disk out scorer set_new_bodyparts set_bodyparts].
        match goal with
        | |- dataFrame (gui (world_of (?m ?w1))) = ?X =>
            refine ((_ : keeps (fun w => dataFrame (gui w) = X) m) w1 _)
        end; [kept_draw (Some (with_nan_columns (scorer (gui w)) new_bps df))
             | reflexivity].
  - intros Hold bp. split; [|apply Hall].
    unfold with_nan_columns. simpl columns. rewrite map_app.
    intros Hin. apply in_app_or in Hin. destruct Hin as [Hin|Hin].
    + apply Hold, Hin.
    + apply in_map_iff in Hin. destruct Hin as (k & Ek & Hk).
      apply in_flat_map in Hk. destruct Hk as (b & Hb & Hkb).
      apply filter_In in Hb. destruct Hb as [Hb _].
      assert (E : key_bodypart k = b).
      { unfold from_product in Hkb. simpl in Hkb.
        destruct Hkb as [E|[E|[]]]; subst k; reflexivity. }
      congruence.
Qed.

(* ------------------------------------------------------------------ *)
(** * Further properties of the callbacks *)

(** ** What [plot] leaves in the point editor *)

Lemma has_columns_readable (df : DataFrame real) sc bps i :
  has_columns df sc bps = true -> i < List.length (rows df) ->
  readable df sc bps i = true.
Proof.
  intros Hc Hi. unfold has_columns in Hc. unfold readable.
  rewrite forallb_forall in *. intros bp Hbp. specialize (Hc bp Hbp).
  apply andb_true_iff in Hc. destruct Hc as [Hx Hy].
  apply Nat.eqb_eq in Hx, Hy. unfold values_at.
  destruct (nth_error (rows df) i) as [r|] eqn:Er;
    [|apply nth_error_None in Er; lia].
  destruct (col_positions (sc, bp, "x") 0 (columns df)) as [|jx [|? ?]];
    try discriminate.
  destruct (col_positions (sc, bp, "y") 0 (columns df)) as [|jy [|? ?]];
    try discriminate.
  reflexivity.
Qed.

Lemma plot_one_full w df i bp :
  dataFrame (gui w) = Some df ->
  readable df (scorer (gui w)) (bodyparts (gui w)) (iter (gui w)) = true ->
  nth_error (bodyparts (gui w)) i = Some bp ->
  exists w',
    plot_one (i, bp) w = Ok tt w' /\ stable w w' /\
    markerSize (gui w') = markerSize (gui w) /\
    updatedCoords (gui w') =
      updatedCoords (gui w)
      ++ [drawn_coords df (scorer (gui w)) (iter (gui w)) (i, bp)] /\
    drs (gui w') =
      drs (gui w)
      ++ drawn_points df (scorer (gui w)) (markerSize (gui w)) (iter (gui w))
           [(i, bp)] /\
    buttonCounter (gui w') =
      buttonCounter (gui w)
      ++ annotated df (scorer (gui w)) (iter (gui w)) [(i, bp)].
Proof.
  intros Hdf Hr Hnth.
  destruct (readable_In _ _ _ _ bp Hr (nth_error_In _ _ Hnth)) as [Hx Hy].
  unfold plot_one.
  rewrite (bind_ok _ _ _ _ _ (stored_value_ok _ _ _ _ Hdf Hx)).
  rewrite (bind_ok _ _ _ _ _ (stored_value_ok _ _ _ _ Hdf Hy)).
  repeat mstep.
  rewrite bind_subscript with (x := bp) by exact Hnth. repeat mstep.
  erewrite bind_ok; cycle 1.
  { apply getLabels_ok; simpl; [exact Hdf | exact Hr]. }
  cbn [gui scorer iter bodyparts].
  rewrite bind_subscript
    with (x := drawn_coords df (scorer (gui w)) (iter (gui w)) (i, bp));
    cycle 1.
  { rewrite nth_error_map. unfold enumerate.
    rewrite (nth_error_enumerate _ 0 _ _ Hnth). reflexivity. }
  repeat mstep. unfold when, annotated. simpl filter.
  destruct (isnan _); simpl; eexists; (split; [reflexivity|]);
    simpl; rewrite ?app_nil_r; repeat split.
Qed.

Lemma plot_loop_full df (t : list string) :
  forall n w,
    dataFrame (gui w) = Some df ->
    readable df (scorer (gui w)) (bodyparts (gui w)) (iter (gui w)) = true ->
    (forall j bp, nth_error t j = Some bp ->
                  nth_error (bodyparts (gui w)) (n + j) = Some bp) ->
    exists w',
      for_each (enumerate_from n t) (@plot_one real) w = Ok tt w' /\
      stable w w' /\
      markerSize (gui w') = markerSize (gui w) /\
      updatedCoords (gui w') =
        updatedCoords (gui w)
        ++ map (drawn_coords df (scorer (gui w)) (iter (gui w)))
               (enumerate_from n t) /\
      drs (gui w') =
        drs (gui w)
        ++ drawn_points df (scorer (gui w)) (markerSize (gui w)) (iter (gui w))
             (enumerate_from n t) /\
      buttonCounter (gui w') =
        buttonCounter (gui w)
        ++ annotated df (scorer (gui w)) (iter (gui w)) (enumerate_from n t).
Proof.
  induction t as [|bp t IH]; intros n w Hdf Hr Hnth; simpl.
  - exists w. split; [reflexivity|]. split; [apply stable_refl|].
    unfold annotated, drawn_points. simpl. rewrite !app_nil_r. auto.
  - destruct (plot_one_full w df n bp Hdf Hr)
      as (w1 & H1 & Hs1 & Hm1 & Hu1 & Hd1 & Hb1).
    { specialize (Hnth 0 bp eq_refl). rewrite Nat.add_0_r in Hnth. exact Hnth. }
    pose proof Hs1 as Hs1'.
    destruct Hs1' as (_ & _ & _ & _ & _ & Hit & Hsc & Hbp & Hdf1 & _).
    destruct (IH (S n) w1) as (w2 & H2 & Hs2 & Hm2 & Hu2 & Hd2 & Hb2).
    + rewrite Hdf1. exact Hdf.
    + rewrite Hsc, Hbp, Hit. exact Hr.
    + intros j b Hj. rewrite Hbp.
      specialize (Hnth (S j) b Hj).
      replace (S n + j) with (n + S j) by lia. exact Hnth.
    + exists w2. split; [|split; [|split; [|split; [|split]]]].
      * rewrite (bind_ok _ _ _ _ _ H1). exact H2.
      * apply stable_trans with (1 := Hs1) (2 := Hs2).
      * congruence.
      * rewrite Hu2, Hu1, Hsc, Hit, <- app_assoc. reflexivity.
      * rewrite Hd2, Hd1, Hsc, Hit, Hm1, <- app_assoc. reflexivity.
      * rewrite Hb2, Hb1, Hsc, Hit, <- app_assoc.
        unfold annotated. simpl filter.
        destruct (negb _); simpl; reflexivity.
Qed.

Lemma plot_full w df im :
  dataFrame (gui w) = Some df ->
  readable df (scorer (gui w)) (bodyparts (gui w)) (iter (gui w)) = true ->
  exists bc w',
    plot im w = Ok bc w' /\ stable w w' /\
    updatedCoords (gui w') =
      map (drawn_coords df (scorer (gui w)) (iter (gui w)))
          (enumerate (bodyparts (gui w))) /\
    drs (gui w') =
      drawn_points df (scorer (gui w)) (markerSize (gui w)) (iter (gui w))
        (enumerate (bodyparts (gui w))) /\
    buttonCounter (gui w') =
      buttonCounter (gui w)
      ++ annotated df (scorer (gui w)) (iter (gui w))
           (enumerate (bodyparts (gui w))) /\
    bc = buttonCounter (gui w').
Proof.
  intros Hdf Hr. unfold plot. repeat mstep.
  destruct (plot_loop_full df (bodyparts (gui w)) 0
              (mkWorld (set_updatedCoords [] (set_drs [] (gui w)))
                       (disk w) (out w)))
    as (w1 & H1 & Hs1 & Hm1 & Hu1 & Hd1 & Hb1); simpl; auto.
  cbn [bodyparts set_updatedCoords set_drs]. unfold enumerate.
  rewrite (bind_ok _ _ _ _ _ H1). repeat mstep.
  eexists. eexists. split; [reflexivity|]. simpl in *.
  split; [exact Hs1|]. auto.
Qed.

(** X2.  [plot] rebuilds the point editor from the store: where every
    configured bodypart can be read at the displayed position, it returns with
    one handle per bodypart, in the configured order, each at the stored
    position of its bodypart (annotated or not), with the matching [coords]
    list; it appends to [self.buttonCounter], without clearing it, the
    positions of the bodyparts whose stored x is a number, and returns that
    list; the store, the position and the files are not touched. *)
Theorem plot_rebuilds_editor w df im :
  dataFrame (gui w) = Some df ->
  readable df (scorer (gui w)) (bodyparts (gui w)) (iter (gui w)) = true ->
  exists bc w',
    plot im w = Ok bc w' /\ stable w w' /\
    updatedCoords (gui w') =
      map (drawn_coords df (scorer (gui w)) (iter (gui w)))
          (enumerate (bodyparts (gui w))) /\
    drs (gui w') =
      drawn_points df (scorer (gui w)) (markerSize (gui w)) (iter (gui w))
        (enumerate (bodyparts (gui w))) /\
    buttonCounter (gui w') =
      buttonCounter (gui w)
      ++ annotated df (scorer (gui w)) (iter (gui w))
           (enumerate (bodyparts (gui w))) /\
    bc = buttonCounter (gui w').
Proof. exact (plot_full w df im). Qed.

(** ** Reading back what a commit wrote *)

Lemma set_cells_length k (v : cell real) cols :
  forall cells, List.length (set_cells k v cols cells) = List.length cells.
Proof.
  induction cols as [|c cols IH]; intros [|x cells]; simpl; auto.
Qed.

Lemma nth_set_cells k (v : cell real) cols :
  forall cells j c,
    nth_error cols j = Some c -> j < List.length cells ->
    nth j (set_cells k v cols cells) NaN
    = if key_eqb c k then v else nth j cells NaN.
Proof.
  induction cols as [|c0 cols IH]; intros cells j c Hj Hlt.
  - destruct j; discriminate.
  - destruct cells as [|x cells]; simpl in *; [lia|].
    destruct j as [|j]; simpl in *.
    + inversion Hj. subst. reflexivity.
    + apply IH; [exact Hj | lia].
Qed.

Lemma col_positions_spec k cols :
  forall from j,
    In j (col_positions k from cols) ->
    from <= j /\ exists c, nth_error cols (j - from) = Some c /\ key_eqb c k = true.
Proof.
  induction cols as [|c cols IH]; intros from j Hin; simpl in Hin;
    [contradiction|].
  destruct (key_eqb c k) eqn:E.
  - destruct Hin as [Ej|Hin].
    + subst. split; [lia|]. exists c. rewrite Nat.sub_diag. auto.
    + destruct (IH _ _ Hin) as (Hle & c' & Hn & Hk). split; [lia|].
      exists c'. replace (j - from) with (S (j - S from)) by lia. auto.
  - destruct (IH _ _ Hin) as (Hle & c' & Hn & Hk). split; [lia|].
    exists c'. replace (j - from) with (S (j - S from)) by lia. auto.
Qed.

Lemma row_after_put (df : DataFrame real) label k v i l cells :
  count_occ string_dec (df_index df) label = 1 ->
  nth_error (rows df) i = Some (l, cells) ->
  nth_error (rows (put df label k v)) i
  = Some (l, if String.eqb l label
             then set_cells k v (columns df) cells else cells).
Proof.
  intros Hu H. rewrite put_single by exact Hu. simpl.
  rewrite nth_error_map, H. simpl.
  destruct (String.eqb l label); reflexivity.
Qed.

Lemma commit_handle_shape label sc (df : DataFrame real) h :
  columns (commit_handle label sc df h) = columns df /\
  List.length (rows (commit_handle label sc df h)) = List.length (rows df) /\
  df_index (commit_handle label sc df h) = df_index df.
Proof.
  destruct h as [|e t]; simpl; [auto|].
  rewrite !put_columns, !put_rows_length, !put_index. auto.
Qed.

(** A commit of one handle, seen from a row of the displayed frame. *)
Lemma row_after_commit label sc (df : DataFrame real) h i cells :
  count_occ string_dec (df_index df) label = 1 ->
  nth_error (rows df) i = Some (label, cells) ->
  exists cells',
    nth_error (rows (commit_handle label sc df h)) i = Some (label, cells') /\
    List.length cells' = List.length cells /\
    forall j c,
      nth_error (columns df) j = Some c -> j < List.length cells ->
      nth j cells' NaN
      = match h with
        | [] => nth j cells NaN
        | e :: t =>
            if key_eqb c (sc, e_name e, "y") then e_y (last t e)
            else if key_eqb c (sc, e_name e, "x") then e_x (last t e)
            else nth j cells NaN
        end.
Proof.
  intros Hu H. destruct h as [|e t].
  - exists cells. auto.
  - pose proof (row_after_put df label (sc, e_name e, "x") (e_x (last t e))
                  i label cells Hu H) as H1.
    rewrite String.eqb_refl in H1.
    assert (Hu1 : count_occ string_dec
                    (df_index (put df label (sc, e_name e, "x")
                                 (e_x (last t e)))) label = 1)
      by (rewrite put_index; exact Hu).
    pose proof (row_after_put _ label (sc, e_name e, "y") (e_y (last t e))
                  i label _ Hu1 H1) as H2.
    rewrite String.eqb_refl in H2. rewrite put_columns in H2.
    eexists. split; [exact H2|].
    split; [rewrite !set_cells_length; reflexivity|].
    intros j c Hc Hlt. simpl columns.
      rewrite (nth_set_cells _ _ _ _ _ _ Hc)
        by (rewrite set_cells_length; exact Hlt).
      rewrite (nth_set_cells _ _ _ _ _ _ Hc Hlt). reflexivity.
Qed.

Lemma key_coords_differ sc bp (c : ColKey) :
  key_eqb c (sc, bp, "x") = true -> key_eqb c (sc, bp, "y") = false.
Proof.
  intros H. apply key_eqb_eq in H. subst c.
  destruct (key_eqb _ _) eqn:E; [|reflexivity].
  apply key_eqb_eq in E. inversion E.
Qed.

Lemma key_other_bodypart sc bp bp' co co' (c : ColKey) :
  key_eqb c (sc, bp, co) = true -> bp' <> bp ->
  key_eqb c (sc, bp', co') = false.
Proof.
  intros H Hne. apply key_eqb_eq in H. subst c.
  destruct (key_eqb _ _) eqn:E; [|reflexivity].
  apply key_eqb_eq in E. inversion E. congruence.
Qed.

(** Commits of handles of other bodyparts leave the cells of [bp] alone. *)
Lemma rows_after_other_commits label sc bp (l : list (list (entry real))) :
  Forall (fun h => match h with [] => True | e :: _ => e_name e <> bp end) l ->
  forall (df : DataFrame real) i cells,
    count_occ string_dec (df_index df) label = 1 ->
    nth_error (rows df) i = Some (label, cells) ->
    exists cells',
      nth_error (rows (fold_left (commit_handle label sc) l df)) i
        = Some (label, cells') /\
      List.length cells' = List.length cells /\
      forall j c co,
        nth_error (columns df) j = Some c -> j < List.length cells ->
        key_eqb c (sc, bp, co) = true ->
        nth j cells' NaN = nth j cells NaN.
Proof.
  induction 1 as [|h t Hh _ IH]; intros df i cells Hu Hrow; simpl.
  - exists cells. auto.
  - destruct (row_after_commit label sc df h i cells Hu Hrow)
      as (c1 & Hr1 & Hl1 & Hv1).
    destruct (commit_handle_shape label sc df h) as (Hcols & _ & Hidx).
    destruct (IH _ _ _ (eq_trans (f_equal (fun l => count_occ string_dec l label)
                                          Hidx) Hu) Hr1)
      as (c2 & Hr2 & Hl2 & Hv2).
    exists c2. split; [exact Hr2|]. split; [congruence|].
    intros j c co Hc Hlt Hk.
    rewrite (Hv2 j c co) by (rewrite ?Hcols, ?Hl1; assumption).
    rewrite (Hv1 j c Hc Hlt). destruct h as [|e r]; [reflexivity|].
    rewrite (key_other_bodypart sc bp (e_name e) co "y" c Hk Hh).
    rewrite (key_other_bodypart sc bp (e_name e) co "x" c Hk Hh).
    reflexivity.
Qed.

Lemma row_after_commits label sc (l : list (list (entry real))) :
  forall (df : DataFrame real) i cells,
    count_occ string_dec (df_index df) label = 1 ->
    nth_error (rows df) i = Some (label, cells) ->
    exists cells',
      nth_error (rows (fold_left (commit_handle label sc) l df)) i
        = Some (label, cells') /\
      List.length cells' = List.length cells.
Proof.
  induction l as [|h t IH]; intros df i cells Hu Hrow; simpl.
  - exists cells. auto.
  - destruct (row_after_commit label sc df h i cells Hu Hrow)
      as (c1 & Hr1 & Hl1 & _).
    destruct (commit_handle_shape label sc df h) as (_ & _ & Hidx).
    destruct (IH _ _ _ (eq_trans (f_equal (fun l => count_occ string_dec l label)
                                          Hidx) Hu) Hr1)
      as (c2 & Hr2 & Hl2).
    exists c2. split; [exact Hr2 | congruence].
Qed.

(** X3.  The round trip on the displayed frame: where the row of the table
    at the position [self.iter] is the one row labelled with the displayed
    frame, its cells are as many as the columns, [bp] has one x and one y
    column, and the handles of the editor are not empty, with the handle
    [e :: t] the last one of [bp], a commit followed by a read of [bp] gives
    the last position of that handle. *)
Lemma commit_then_read w df label cells bp jx jy pre e t post :
  dataFrame (gui w) = Some df ->
  nth_error (relativeimagenames (gui w)) (iter (gui w)) = Some label ->
  nth_error (rows df) (iter (gui w)) = Some (label, cells) ->
  count_occ string_dec (df_index df) label = 1 ->
  List.length cells = List.length (columns df) ->
  col_positions (scorer (gui w), bp, "x") 0 (columns df) = [jx] ->
  col_positions (scorer (gui w), bp, "y") 0 (columns df) = [jy] ->
  updatedCoords (gui w) = pre ++ (e :: t) :: post ->
  e_name e = bp ->
  Forall (fun h => h <> []) pre ->
  Forall (fun h => match h with [] => False | e' :: _ => e_name e' <> bp end)
         post ->
  exists w',
    saveEachImage w = Ok tt w' /\
    stored_value bp "x" w' = Ok (e_x (last t e)) w' /\
    stored_value bp "y" w' = Ok (e_y (last t e)) w'.
Proof.
  intros Hdf Hl Hrow Hu Hrect Hjx Hjy Huc Hname Hpre Hpost.
  set (sc := scorer (gui w)) in *.
  assert (Hm : Str.mem label (df_index df) = true).
  { apply mem_In. unfold df_index.
    change label with (fst (label, cells)). apply in_map.
    apply nth_error_In with (1 := Hrow). }
  assert (Hne : Forall (fun h => h <> []) (updatedCoords (gui w))).
  { rewrite Huc. apply Forall_app. split; [exact Hpre|].
    constructor; [discriminate|].
    apply Forall_impl with (2 := Hpost). intros [|a l] H; [contradiction|discriminate]. }
  set (dfF := fold_left (commit_handle label sc) (updatedCoords (gui w)) df).
  set (w' := mkWorld (set_dataFrame (Some dfF) (gui w)) (disk w) (out w)).
  exists w'.
  split; [apply saveEachImage_ok with (df := df) (label := label); assumption|].
  assert (HF : dfF = fold_left (commit_handle label sc) post
                       (commit_handle label sc
                          (fold_left (commit_handle label sc) pre df) (e :: t))).
  { unfold dfF. rewrite Huc, fold_left_app. reflexivity. }
  set (df1 := fold_left (commit_handle label sc) pre df) in *.
  destruct (row_after_commits label sc pre df _ _ Hu Hrow) as (c1 & Hr1 & Hl1).
  fold df1 in Hr1.
  assert (Hc1 : columns df1 = columns df) by apply fold_commit_shape.
  assert (Hu1 : count_occ string_dec (df_index df1) label = 1).
  { replace (df_index df1) with (df_index df); [exact Hu|].
    symmetry. apply fold_commit_shape. }
  destruct (row_after_commit label sc df1 (e :: t) _ _ Hu1 Hr1)
    as (c2 & Hr2 & Hl2 & Hv2).
  set (df2 := commit_handle label sc df1 (e :: t)) in *.
  assert (Hc2 : columns df2 = columns df).
  { rewrite <- Hc1. apply commit_handle_shape. }
  assert (Hu2 : count_occ string_dec (df_index df2) label = 1).
  { replace (df_index df2) with (df_index df1); [exact Hu1|].
    symmetry. apply commit_handle_shape. }
  assert (Hpost' : Forall (fun h => match h with
                                    | [] => True
                                    | e' :: _ => e_name e' <> bp
                                    end) post).
  { apply Forall_impl with (2 := Hpost). intros [|a l] H; auto. }
  destruct (rows_after_other_commits label sc bp post Hpost' df2 _ _ Hu2 Hr2)
    as (c3 & Hr3 & Hl3 & Hv3).
  set (df3 := fold_left (commit_handle label sc) post df2) in *.
  assert (Hc3 : columns df3 = columns df).
  { rewrite <- Hc2. apply fold_commit_shape. }
  assert (Hread : forall co j v,
             col_positions (sc, bp, co) 0 (columns df) = [j] ->
             (forall c, nth_error (columns df) j = Some c ->
                        key_eqb c (sc, bp, co) = true ->
                        j < List.length cells -> nth j c2 NaN = v) ->
             values_at df3 (sc, bp, co) (iter (gui w)) = inr v).
  { intros co j v Hj Hv. unfold values_at. rewrite Hc3, Hj, Hr3. simpl.
    destruct (col_positions_spec (sc, bp, co) (columns df) 0 j) as (_ & c & Hn & Hk).
    { rewrite Hj. left. reflexivity. }
    rewrite Nat.sub_0_r in Hn.
    assert (Hlt : j < List.length cells).
    { rewrite Hrect. apply nth_error_Some. rewrite Hn. discriminate. }
    f_equal. rewrite (Hv3 j c co) by (rewrite ?Hc2, ?Hl2, ?Hl1; assumption).
    apply (Hv c Hn Hk Hlt). }
  assert (Hx : values_at df3 (sc, bp, "x") (iter (gui w)) = inr (e_x (last t e))).
  { apply Hread with (j := jx); [exact Hjx|]. intros c Hn Hk Hlt.
    rewrite (Hv2 jx c) by (rewrite ?Hc1, ?Hl1; assumption).
    rewrite Hname, (key_coords_differ sc bp c Hk), Hk. reflexivity. }
  assert (Hy : values_at df3 (sc, bp, "y") (iter (gui w)) = inr (e_y (last t e))).
  { apply Hread with (j := jy); [exact Hjy|]. intros c Hn Hk Hlt.
    rewrite (Hv2 jy c) by (rewrite ?Hc1, ?Hl1; assumption).
    rewrite Hname, Hk. reflexivity. }
  rewrite <- HF in Hx, Hy.
  pose proof (stored_value_ok w' dfF bp "x" eq_refl) as Sx.
  pose proof (stored_value_ok w' dfF bp "y" eq_refl) as Sy.
  change (scorer (gui w')) with sc in Sx, Sy.
  change (iter (gui w')) with (iter (gui w)) in Sx, Sy.
  rewrite Hx in Sx. rewrite Hy in Sy.
  split; [exact (Sx eq_refl) | exact (Sy eq_refl)].
Qed.

(** ** A commit right after a draw *)

Lemma set_cells_same k (v : cell real) cols :
  forall cells,
    (forall p c, nth_error cols p = Some c -> key_eqb c k = true ->
                 p < List.length cells -> nth p cells NaN = v) ->
    set_cells k v cols cells = cells.
Proof.
  induction cols as [|c cols IH]; intros [|x cells] H; simpl; auto.
  f_equal.
  - destruct (key_eqb c k) eqn:E; [|reflexivity].
    symmetry. apply (H 0 c eq_refl E). simpl. lia.
  - apply IH. intros p c' Hp Hk Hlt. apply (H (S p) c' Hp Hk). simpl. lia.
Qed.

Lemma col_positions_complete k cols :
  forall from p c,
    nth_error cols p = Some c -> key_eqb c k = true ->
    In (from + p) (col_positions k from cols).
Proof.
  induction cols as [|c0 cols IH]; intros from p c Hp Hk.
  - destruct p; discriminate.
  - destruct p as [|p]; simpl in *.
    + inversion Hp. subst. rewrite Hk, Nat.add_0_r. left. reflexivity.
    + replace (from + S p) with (S from + p) by lia.
      destruct (key_eqb c0 k); [right|]; apply (IH _ _ _ Hp Hk).
Qed.

Lemma put_same (df : DataFrame real) label k v :
  (forall r, In r (rows df) -> fst r = label ->
             set_cells k v (columns df) (snd r) = snd r) ->
  put df label k v = df.
Proof.
  intros H. unfold put. destruct (_ =? 1)%nat; [|reflexivity].
  destruct df as [cols rs]. simpl in *. f_equal.
  induction rs as [|[l c] t IH]; simpl; [reflexivity|].
  rewrite IH by (intros r Hr; apply H; right; exact Hr).
  destruct (String.eqb_spec l label) as [E|E]; [|reflexivity].
  pose proof (H (l, c) (or_introl eq_refl) E) as Hs. simpl in Hs.
  rewrite Hs. reflexivity.
Qed.

Lemma row_of_label (rs : list (Row real)) i label cells r :
  NoDup (map fst rs) -> nth_error rs i = Some (label, cells) ->
  In r rs -> fst r = label -> r = (label, cells).
Proof.
  intros Hnd Hi Hr Hl.
  pose proof (find_row_unique rs r Hnd Hr) as H1.
  pose proof (find_row_unique rs (label, cells) Hnd (nth_error_In _ _ Hi)) as H2.
  simpl in H2. rewrite Hl in H1. congruence.
Qed.

(** Writing back what was just read changes nothing. *)
Lemma commit_drawn_same (df : DataFrame real) sc label cells i :
  NoDup (df_index df) ->
  nth_error (rows df) i = Some (label, cells) ->
  forall l : list (nat * string),
    has_columns df sc (map snd l) = true ->
    fold_left (commit_handle label sc) (map (drawn_coords df sc i) l) df = df.
Proof.
  intros Hnd Hrow. induction l as [|[n bp] t IH]; intros Hc; simpl;
    [reflexivity|].
  simpl in Hc. apply andb_true_iff in Hc. destruct Hc as [Hbp Ht].
  apply andb_true_iff in Hbp. destruct Hbp as [Hx Hy].
  apply Nat.eqb_eq in Hx, Hy.
  assert (Hput : forall co,
             List.length (col_positions (sc, bp, co) 0 (columns df)) = 1 ->
             put df label (sc, bp, co)
                 (value_or_nan (values_at df (sc, bp, co) i)) = df).
  { intros co Hlen. apply put_same. intros r Hr Hl.
    rewrite (row_of_label _ _ _ _ _ Hnd Hrow Hr Hl). simpl.
    apply set_cells_same. intros p c Hp Hk Hlt.
    pose proof (col_positions_complete _ _ 0 _ _ Hp Hk) as Hin. simpl in Hin.
    unfold values_at.
    destruct (col_positions (sc, bp, co) 0 (columns df)) as [|j [|? ?]];
      try discriminate.
    destruct Hin as [E|[]]. subst j. rewrite Hrow. reflexivity. }
  rewrite (Hput "x" Hx), (Hput "y" Hy). apply IH, Ht.
Qed.

Lemma row_of_index (df : DataFrame real) i label :
  nth_error (df_index df) i = Some label ->
  exists cells, nth_error (rows df) i = Some (label, cells).
Proof.
  unfold df_index. rewrite nth_error_map. intros H.
  destruct (nth_error (rows df) i) as [[l c]|] eqn:Er;
    unfold Row in Er; rewrite Er in *; simpl in H; [|discriminate].
  inversion H. subst l. exists c. reflexivity.
Qed.

Lemma in_step_row (s : MainFrame real) df i :
  in_step s df -> i < List.length (relativeimagenames s) ->
  exists label cells,
    nth_error (relativeimagenames s) i = Some label /\
    nth_error (rows df) i = Some (label, cells) /\
    Str.mem label (df_index df) = true.
Proof.
  intros (Hdf & Hidx & Hnd & Hlen & Hc) Hi.
  destruct (nth_error (relativeimagenames s) i) as [label|] eqn:El;
    [|apply nth_error_None in El; lia].
  assert (Hl : nth_error (df_index df) i = Some label) by (rewrite Hidx; exact El).
  unfold df_index in Hl. rewrite nth_error_map in Hl.
  destruct (nth_error (rows df) i) as [[l c]|] eqn:Er;
    unfold Row in Er; rewrite Er in *; simpl in Hl; [|discriminate].
  inversion Hl. subst l.
  exists label, c. split; [reflexivity|]. split; [reflexivity|].
  apply mem_In. rewrite Hidx. apply nth_error_In with (1 := El).
Qed.

Lemma drawn_nonempty (df : DataFrame real) sc i l :
  Forall (fun h => h <> []) (map (drawn_coords df sc i) l).
Proof. apply Forall_map. apply Forall_forall. intros b _. discriminate. Qed.

Lemma commit_after_plot w df im :
  in_step (gui w) df ->
  iter (gui w) < List.length (relativeimagenames (gui w)) ->
  exists bc w1,
    plot im w = Ok bc w1 /\
    saveEachImage w1 =
      Ok tt (mkWorld (set_dataFrame (Some df) (gui w1)) (disk w1) (out w1)) /\
    dataFrame (gui w1) = Some df.
Proof.
  intros Hstep Hi.
  destruct (in_step_row _ _ _ Hstep Hi) as (label & cells & Hl & Hrow & Hm).
  destruct Hstep as (Hdf & Hidx & Hnd & Hlen & Hc).
  assert (Hr : readable df (scorer (gui w)) (bodyparts (gui w)) (iter (gui w)) = true).
  { apply has_columns_readable; [exact Hc|].
    apply nth_error_Some. rewrite Hrow. discriminate. }
  destruct (plot_full w df im Hdf Hr) as (bc & w1 & Hp & Hs & Hu & _).
  destruct Hs as (_ & _ & _ & _ & Hrel1 & Hit1 & Hsc1 & _ & Hdf1 & _).
  exists bc, w1. split; [exact Hp|]. split; [|congruence].
  rewrite saveEachImage_ok with (df := df) (label := label);
    [|congruence|rewrite Hrel1, Hit1; exact Hl|exact Hm
     |rewrite Hu; apply drawn_nonempty].
  rewrite Hu, Hsc1. unfold enumerate.
  rewrite commit_drawn_same with (cells := cells);
    [reflexivity| |exact Hrow|rewrite map_snd_enumerate; exact Hc].
  rewrite Hidx. apply nodupb_NoDup, Hnd.
Qed.

(** X5.  A redraw followed by a commit is harmless: with the store in step
    with the folder, [plot] and then [saveEachImage] both return and the store
    is what it was. *)
Theorem commit_after_plot_keeps_store w df im :
  in_step (gui w) df ->
  iter (gui w) < List.length (relativeimagenames (gui w)) ->
  exists bc w1 w2,
    plot im w = Ok bc w1 /\
    saveEachImage w1 = Ok tt w2 /\
    dataFrame (gui w2) = Some df /\
    updatedCoords (gui w2) = updatedCoords (gui w1).
Proof.
  intros Hstep Hi.
  destruct (commit_after_plot w df im Hstep Hi) as (bc & w1 & Hp & Hs & _).
  exists bc, w1. eexists. split; [exact Hp|]. split; [exact Hs|].
  split; reflexivity.
Qed.

(** ** Clicks never write the store *)

(** X1.  Whatever the event and whatever the outcome, [onClick] leaves the
    annotation store, the files, the position and the frame names as they
    were: a placed point is pending until a commit. *)
Theorem onClick_keeps_store w (event : MouseEvent real) :
  dataFrame (gui (world_of (onClick event w))) = dataFrame (gui w) /\
  disk (world_of (onClick event w)) = disk w /\
  iter (gui (world_of (onClick event w))) = iter (gui w) /\
  relativeimagenames (gui (world_of (onClick event w)))
    = relativeimagenames (gui w) /\
  bodyparts (gui (world_of (onClick event w))) = bodyparts (gui w).
Proof.
  unfold onClick, bind, self, subscript, emit, assign, when, ret, raise.
  destruct (button event =? 3)%nat; simpl; [|repeat split].
  destruct (existsb _ _); simpl.
  - destruct (nth_error _ _); simpl; repeat split.
  - destruct (xdata event) as [x|]; [|repeat split].
    destruct (ydata event) as [y|]; [|repeat split].
    destruct (nth_error _ _); simpl; [|repeat split].
    destruct (_ <? _)%Z; simpl; repeat split.
Qed.

(** ** Next and Previous *)

(** A redraw assigns the handles, their coordinates and the counter of
    annotated bodyparts, and nothing else of the frame. *)
Section Redraw.
Variable Q : MainFrame real -> Prop.
Hypothesis Q_drs : forall s x, Q s -> Q (set_drs x s).
Hypothesis Q_coords : forall s x, Q s -> Q (set_updatedCoords x s).
Hypothesis Q_counter : forall s x, Q s -> Q (set_buttonCounter x s).

Ltac redraw_step :=
  first [ apply keeps_bind; [|intros ?]
        | apply keeps_self | apply keeps_ret | apply keeps_raise
        | apply keeps_lift | apply keeps_subscript | apply keeps_not_none
        | apply keeps_when
        | apply (keeps_emit Q)
        | apply (keeps_assign Q); intros ? H; auto ].

Lemma redraw_stored_value bp c :
  keeps (fun w => Q (gui w)) (@stored_value real bp c).
Proof. unfold stored_value. repeat redraw_step. Qed.

Lemma redraw_getLabels i : keeps (fun w => Q (gui w)) (@getLabels real i).
Proof.
  unfold getLabels. apply keeps_bind; [apply keeps_self|]. intros s.
  generalize (enumerate (bodyparts s)). intros l.
  induction l as [|[j bp] t IH]; simpl; [apply keeps_ret|].
  apply keeps_bind; [apply redraw_stored_value|]. intros x.
  apply keeps_bind; [apply redraw_stored_value|]. intros y.
  apply keeps_bind; [exact IH|]. intros rest. apply keeps_ret.
Qed.

Lemma redraw_plot_one b : keeps (fun w => Q (gui w)) (@plot_one real b).
Proof.
  destruct b as [i bp]. unfold plot_one.
  apply keeps_bind; [apply redraw_stored_value|]. intros x.
  apply keeps_bind; [apply redraw_stored_value|]. intros y.
  apply keeps_bind; [apply keeps_self|]. intros s.
  apply keeps_bind; [apply (keeps_emit Q)|]. intros _.
  apply keeps_bind; [apply keeps_subscript|]. intros name.
  apply keeps_bind; [apply (keeps_emit Q)|]. intros _.
  apply keeps_bind; [apply redraw_getLabels|]. intros labels.
  repeat redraw_step.
Qed.

Lemma redraw_plot im : keeps (fun w => Q (gui w)) (@plot real im).
Proof.
  unfold plot.
  apply keeps_bind; [redraw_step|]. intros _.
  apply keeps_bind; [redraw_step|]. intros _.
  apply keeps_bind; [apply keeps_self|]. intros s.
  apply keeps_bind; [apply keeps_for_each; apply redraw_plot_one|]. intros _.
  repeat redraw_step.
Qed.
End Redraw.






(** ** Copying the labels of the previous frame *)

Ltac rewrite_row H :=
  first [ rewrite H
        | let E := fresh in
          pose proof H as E; unfold Row in E; rewrite E; clear E ].

Lemma values_at_same_cells (df df' : DataFrame real) k i i' l l' c :
  columns df' = columns df ->
  nth_error (rows df') i' = Some (l', c) ->
  nth_error (rows df) i = Some (l, c) ->
  values_at df' k i' = values_at df k i.
Proof.
  intros Hc H' H. unfold values_at. rewrite Hc.
  rewrite_row H. rewrite_row H'. reflexivity.
Qed.

Lemma label_position (rs : list (Row real)) i j l c c' :
  NoDup (map fst rs) ->
  nth_error rs i = Some (l, c) -> nth_error rs j = Some (l, c') -> i = j.
Proof.
  intros Hnd Hi Hj.
  apply (proj1 (NoDup_nth_error (map fst rs)) Hnd).
  - rewrite length_map. apply nth_error_Some. rewrite_row Hi. discriminate.
  - rewrite !nth_error_map. rewrite_row Hi. rewrite_row Hj. reflexivity.
Qed.

(** X10.  [duplicate_labels] on a frame after the first, with the store in
    step with the folder and the file [self.img] an image on disk: the row of the displayed frame takes the values of
    the row just before it, every other row and the columns stay, the handles
    are redrawn at the copied positions, and the bodyparts annotated in the
    copied row are appended to [self.buttonCounter], which is not cleared
    first. *)
Theorem duplicate_labels_copies_previous w df :
  in_step (gui w) df ->
  0 < iter (gui w) < List.length (index (gui w)) ->
  imread (disk w) (img (gui w)) = true ->
  exists w' df' curr prev cells,
    duplicate_labels w = Ok tt w' /\
    nth_error (relativeimagenames (gui w)) (iter (gui w)) = Some curr /\
    nth_error (rows df) (iter (gui w) - 1) = Some (prev, cells) /\
    dataFrame (gui w') = Some df' /\
    columns df' = columns df /\
    nth_error (rows df') (iter (gui w)) = Some (curr, cells) /\
    (forall j, j <> iter (gui w) ->
               nth_error (rows df') j = nth_error (rows df) j) /\
    updatedCoords (gui w') =
      map (drawn_coords df (scorer (gui w)) (iter (gui w) - 1))
          (enumerate (bodyparts (gui w))) /\
    buttonCounter (gui w') =
      buttonCounter (gui w)
      ++ annotated df (scorer (gui w)) (iter (gui w) - 1)
           (enumerate (bodyparts (gui w))) /\
    iter (gui w') = iter (gui w) /\
    disk w' = disk w.
Proof.
  intros Hstep [Hpos Hlt] Himg.
  assert (Hi : iter (gui w) < List.length (relativeimagenames (gui w))).
  { destruct Hstep as (_ & _ & _ & Hlen & _). lia. }
  assert (Hi' : iter (gui w) - 1 < List.length (relativeimagenames (gui w))) by lia.
  destruct (in_step_row _ _ _ Hstep Hi) as (curr & c0 & Hl & Hrow & Hm).
  destruct (in_step_row _ _ _ Hstep Hi') as (prev & cells & Hl' & Hrow' & Hm').
  destruct Hstep as (Hdf & Hidx & Hnd & Hlen & Hc).
  assert (HND : NoDup (map fst (rows df))).
  { change (NoDup (df_index df)). rewrite Hidx. apply nodupb_NoDup, Hnd. }
  destruct (nth_error (index (gui w)) (iter (gui w))) as [p|] eqn:Ep;
    [|apply nth_error_None in Ep; lia].
  set (df' := mkDataFrame (columns df)
                (map (fun r : Row real =>
                        if String.eqb (fst r) curr then (fst r, cells) else r)
                     (rows df))).
  assert (Hassign : loc_assign_row df curr prev = inr df').
  { unfold loc_assign_row, find_row.
    pose proof (find_row_unique (rows df) (prev, cells) HND
                  (nth_error_In _ _ Hrow')) as Hf.
    simpl in Hf. rewrite_row Hf. rewrite Hm. reflexivity. }
  assert (Hcur : nth_error (rows df') (iter (gui w)) = Some (curr, cells)).
  { unfold df'. simpl. rewrite nth_error_map.
    rewrite_row Hrow. simpl. rewrite String.eqb_refl. reflexivity. }
  assert (Hoth : forall j, j <> iter (gui w) ->
                           nth_error (rows df') j = nth_error (rows df) j).
  { intros j Hj. unfold df'. simpl. rewrite nth_error_map.
    destruct (nth_error (rows df) j) as [[l c]|] eqn:Ej; [|reflexivity].
    simpl. destruct (String.eqb_spec l curr) as [E|E]; [|reflexivity].
    subst l. exfalso. apply Hj.
    apply (label_position (rows df) j (iter (gui w)) curr c c0 HND Ej Hrow). }
  assert (Hcols' : has_columns df' (scorer (gui w)) (bodyparts (gui w)) = true)
    by exact Hc.
  assert (Hr' : readable df' (scorer (gui w)) (bodyparts (gui w)) (iter (gui w))
                = true).
  { apply has_columns_readable; [exact Hcols'|].
    apply nth_error_Some. rewrite Hcur. discriminate. }
  assert (Hval : forall k, values_at df' k (iter (gui w))
                           = values_at df k (iter (gui w) - 1)).
  { intros k. apply values_at_same_cells with (l := prev) (l' := curr) (c := cells);
      [reflexivity | exact Hcur | exact Hrow']. }
  unfold duplicate_labels. repeat mstep.
  replace (1 <=? iter (gui w))%nat with true by (symmetry; apply Nat.leb_le; lia).
  unfold when.
  rewrite bind_subscript with (x := curr) by exact Hl.
  rewrite bind_subscript with (x := prev) by exact Hl'.
  rewrite bind_not_none with (x := df) by exact Hdf.
  rewrite bind_lift with (x := df') by exact Hassign.
  repeat mstep.
  rewrite bind_subscript with (x := p) by exact Ep.
  repeat mstep. rewrite bind_ImagePanel_drawplot by exact Himg.
  repeat mstep.
  match goal with
  | |- context [bind (plot ?im) _ ?w1] =>
      destruct (plot_full w1 df' im) as (bc & w2 & Hp & Hs & Hu & _ & Hb & Hbc);
      [reflexivity | exact Hr' |]
  end.
  rewrite (bind_ok _ _ _ _ _ Hp). repeat mstep.
  destruct Hs as (_ & _ & _ & _ & _ & Hit2 & _ & _ & Hdf2 & _ & Hdisk2).
  simpl in Hit2, Hdf2, Hdisk2, Hu, Hb.
  eexists. exists df', curr, prev, cells. split; [reflexivity|]. simpl.
  split; [exact Hl|]. split; [exact Hrow'|]. split; [exact Hdf2|].
  split; [reflexivity|]. split; [exact Hcur|]. split; [exact Hoth|].
  split; [|split; [|split; [exact Hit2 | exact Hdisk2]]].
  - rewrite Hu. apply map_ext. intros b. unfold drawn_coords.
    rewrite !Hval. reflexivity.
  - rewrite Hbc, Hb. f_equal. unfold annotated. f_equal.
    apply filter_ext. intros b. rewrite Hval. reflexivity.
Qed.

(** ** A delete whose file cannot be removed *)

Lemma bind_lift_raise {A B} (r : Exn + A) e (k : A -> M real B) w :
  r = inl e -> bind (lift r) k w = Raise e w.
Proof. intros ->. reflexivity. Qed.



(** ** Loading a folder *)

(** *** The relative names of the frames *)

Lemma append_empty_r (u : string) : u +++ "" = u.
Proof. induction u as [|c u IH]; simpl; [reflexivity | rewrite IH; reflexivity]. Qed.

Lemma append_assoc (a b c : string) : (a +++ b) +++ c = a +++ (b +++ c).
Proof. induction a as [|x a IH]; simpl; [reflexivity | rewrite IH; reflexivity]. Qed.

Lemma split_without sep :
  forall (u : string) acc,
    Str.contains sep u = false -> Str.split_from sep 0 acc u = [acc +++ u].
Proof.
  induction u as [|c u IH]; intros acc H.
  - simpl. rewrite append_empty_r. reflexivity.
  - change (Str.contains sep (String c u))
      with (prefix sep (String c u) || Str.contains sep u) in H.
    apply orb_false_iff in H. destruct H as [Hp Hc].
    change (Str.split_from sep 0 acc (String c u))
      with (if prefix sep (String c u)
            then acc :: Str.split_from sep (String.length sep - 1) "" u
            else Str.split_from sep 0 (acc +++ String c "") u).
    rewrite Hp, (IH _ Hc), append_assoc. reflexivity.
Qed.

Lemma split_from_some sep :
  forall (u : string) skip acc, exists a t, Str.split_from sep skip acc u = a :: t.
Proof.
  induction u as [|c u IH]; intros skip acc; cbn [Str.split_from]; [eauto|].
  destruct skip as [|k]; [|apply IH].
  destruct (prefix sep (String c u)); [eauto | apply IH].
Qed.

Lemma split_with sep :
  sep <> "" ->
  forall (u : string) acc,
    Str.contains sep u = true ->
    exists a b t, Str.split_from sep 0 acc u = a :: b :: t.
Proof.
  intros Hsep. induction u as [|c u IH]; intros acc H.
  - destruct sep; [congruence | discriminate H].
  - change (Str.contains sep (String c u))
      with (prefix sep (String c u) || Str.contains sep u) in H.
    change (Str.split_from sep 0 acc (String c u))
      with (if prefix sep (String c u)
            then acc :: Str.split_from sep (String.length sep - 1) "" u
            else Str.split_from sep 0 (acc +++ String c "") u).
    destruct (prefix sep (String c u)) eqn:Hp.
    + destruct (split_from_some sep u (String.length sep - 1) "") as (a & t & E).
      rewrite E. eauto.
    + apply IH. exact H.
Qed.

Lemma relative_names_full (l : list string) w :
  relative_names l w
  = if forallb (Str.contains "labeled") l
    then Ok (map (fun n => "labeled" +++ nth 1 (Str.split "labeled" n) "") l) w
    else Raise IndexError w.
Proof.
  induction l as [|n t IH]; [reflexivity|].
  cbn [relative_names forallb map].
  destruct (Str.contains "labeled" n) eqn:Hn; cbn [andb].
  - destruct (split_with "labeled" ltac:(discriminate) n "" Hn) as (a & b & r & E).
    rewrite bind_subscript with (x := b)
      by (unfold Str.split; rewrite E; reflexivity).
    unfold Str.split. rewrite E. cbn [nth].
    unfold bind at 1. rewrite IH.
    destruct (forallb _ t); reflexivity.
  - unfold bind, subscript, Str.split.
    rewrite (split_without "labeled" n "" Hn). reflexivity.
Qed.

(** X13.  The relative names of the frames are built only where every path has
    "labeled" in it: then each name is "labeled" followed by what stands
    between the first and the second occurrence (or the end); one path without
    "labeled" makes the list comprehension raise IndexError. *)
Theorem relative_names_needs_labeled (l : list string) w :
  relative_names l w
  = if forallb (Str.contains "labeled") l
    then Ok (map (fun n => "labeled" +++ nth 1 (Str.split "labeled" n) "") l) w
    else Raise IndexError w.
Proof. exact (relative_names_full l w). Qed.

(** *** Reading the stored annotations *)

Lemma first_empty_row_spec (df : DataFrame real) :
  forall (l : list string) n,
    match first_empty_row df (enumerate_from n l) with
    | None => l = []
    | Some i =>
        (exists j x,
            i = n + j /\ nth_error l j = Some x /\ row_all_nan df x = true /\
            forall j' y, j' < j -> nth_error l j' = Some y ->
                         row_all_nan df y = false)
        \/ (i = 0 /\ forall x, In x l -> row_all_nan df x = false)
    end.
Proof.
  induction l as [|x t IH]; intros n; [reflexivity|].
  cbn [enumerate_from first_empty_row].
  destruct (row_all_nan df x) eqn:Ex.
  - left. exists 0, x. rewrite Nat.add_0_r. repeat split; auto.
    intros j' y Hj. lia.
  - specialize (IH (S n)).
    destruct (first_empty_row df (enumerate_from (S n) t)) as [i|].
    + destruct IH as [(j & y & Ei & Hj & Hy & Hmin)|[Ei Hall]].
      * left. exists (S j), y. repeat split; auto; [lia|].
        intros [|j'] z Hlt Hz; simpl in Hz.
        -- inversion Hz. subst. exact Ex.
        -- apply (Hmin j' z); [lia | exact Hz].
      * right. split; [exact Ei|]. intros z [E|Hz]; [subst; exact Ex | auto].
    + subst t. right. split; [reflexivity|].
      intros z [E|[]]. subst. exact Ex.
Qed.

Lemma read_existing_dataset_run w d (t : DataFrame real) :
  dir (gui w) = Some d ->
  read_file (disk w) (Str.path_join d (hdf_name (scorer (gui w))))
    = Some (HdfTable "df_with_missing" t) ->
  read_existing_dataset w
  = Ok tt
      (mkWorld
         (match first_empty_row (sort_index t)
                  (enumerate (df_index (sort_index t))) with
          | Some i => set_iter i (set_dataFrame (Some (sort_index t)) (gui w))
          | None => set_dataFrame (Some (sort_index t)) (gui w)
          end)
         (disk w) (out w ++ [EvEnable "prev" true])).
Proof.
  intros Hd Hf. unfold read_existing_dataset, try_except.
  rewrite bind_self. rewrite bind_not_none with (x := d) by exact Hd.
  unfold read_hdf. rewrite bind_assoc, bind_the_disk, Hf. cbv beta iota.
  rewrite String.eqb_refl. repeat mstep.
  destruct (first_empty_row _ _); reflexivity.
Qed.

(** X14.  With the annotation file of the scorer in the folder, the load takes
    the stored table, sorted by frame name, as the store and resumes at the
    first frame whose row holds no value at all; where every row holds a value
    it starts at the first frame; a table without rows leaves the position as
    it is. No file is written. *)
Theorem read_existing_dataset_resumes w d (t : DataFrame real) :
  dir (gui w) = Some d ->
  read_file (disk w) (Str.path_join d (hdf_name (scorer (gui w))))
    = Some (HdfTable "df_with_missing" t) ->
  exists w',
    read_existing_dataset w = Ok tt w' /\
    dataFrame (gui w') = Some (sort_index t) /\
    disk w' = disk w /\
    (df_index (sort_index t) = [] -> iter (gui w') = iter (gui w)) /\
    (forall i x,
        nth_error (df_index (sort_index t)) i = Some x ->
        row_all_nan (sort_index t) x = true ->
        (forall j y, j < i -> nth_error (df_index (sort_index t)) j = Some y ->
                     row_all_nan (sort_index t) y = false) ->
        iter (gui w') = i) /\
    (df_index (sort_index t) <> [] ->
     (forall x, In x (df_index (sort_index t)) ->
                row_all_nan (sort_index t) x = false) ->
     iter (gui w') = 0).
Proof.
  intros Hd Hf. set (T := sort_index t).
  pose proof (first_empty_row_spec T (df_index T) 0) as Hspec.
  unfold read_existing_dataset, try_except.
  rewrite bind_self. rewrite bind_not_none with (x := d) by exact Hd.
  unfold read_hdf. rewrite bind_assoc, bind_the_disk, Hf. cbv beta iota.
  rewrite String.eqb_refl.
  repeat mstep. fold T. unfold enumerate.
  destruct (first_empty_row T (enumerate_from 0 (df_index T))) as [i|] eqn:Efe.
  - eexists. split; [reflexivity|]. cbn [gui disk dataFrame iter set_iter set_dataFrame].
    split; [reflexivity|]. split; [reflexivity|].
    destruct Hspec as [(j & y & Ei & Hj & Hy & Hmin)|[Ei Hall]].
    + simpl in Ei. subst i. split; [|split].
      * intros E. rewrite E in Hj. destruct j; discriminate.
      * intros i x Hi Hx Hlow.
        destruct (Nat.lt_total j i) as [Hlt|[E|Hlt]]; [|exact E|].
        -- rewrite (Hlow j y Hlt Hj) in Hy. discriminate.
        -- rewrite (Hmin i x Hlt Hi) in Hx. discriminate.
      * intros _ Hall. rewrite (Hall y (nth_error_In _ _ Hj)) in Hy. discriminate.
    + subst i. split; [|split].
      * intros E. rewrite E in Efe. discriminate Efe.
      * intros i x Hi Hx _. rewrite (Hall x (nth_error_In _ _ Hi)) in Hx. discriminate.
      * reflexivity.
  - eexists. split; [reflexivity|]. cbn [gui disk dataFrame iter set_dataFrame].
    split; [reflexivity|]. split; [reflexivity|]. split; [reflexivity|].
    split.
    + intros i x Hi. rewrite Hspec in Hi. destruct i; discriminate.
    + intros Hne. contradiction.
Qed.

Lemma labels_eqb_refl (l : list string) : labels_eqb l l = true.
Proof.
  induction l as [|x t IH]; simpl; [reflexivity|].
  rewrite String.eqb_refl. exact IH.
Qed.

Lemma nan_frame_index cols (labels : list string) :
  df_index (@nan_frame real cols labels) = labels.
Proof.
  unfold df_index, nan_frame. simpl. rewrite map_map. simpl. apply map_id.
Qed.

Lemma flat_map_from_product_length sc (bps : list string) :
  List.length (flat_map (from_product sc) bps) = 2 * List.length bps.
Proof. induction bps as [|b t IH]; simpl; [reflexivity | rewrite IH; lia]. Qed.

Lemma with_nan_columns_nan_frame sc bp bps (labels : list string) :
  with_nan_columns sc bps (@nan_frame real (from_product sc bp) labels)
  = nan_frame (flat_map (from_product sc) (bp :: bps)) labels.
Proof.
  unfold with_nan_columns, nan_frame. cbn [columns rows]. f_equal.
  rewrite map_map. apply map_ext. intros l. cbn [fst snd]. f_equal.
  unfold nan_cells. rewrite <- repeat_app. f_equal.
  cbn [flat_map]. rewrite length_app, flat_map_from_product_length. reflexivity.
Qed.

Lemma read_hdf_fails w p key :
  (forall t, read_file (disk w) p <> Some (HdfTable key t)) ->
  exists e, @read_hdf real p key w = Raise e w.
Proof.
  intros H. unfold read_hdf. rewrite bind_the_disk.
  destruct (read_file (disk w) p) as [[k t| | |]|] eqn:E; eauto.
  destruct (String.eqb_spec k key) as [Ek|Ek]; [|eauto].
  subst k. exfalso. apply (H t). reflexivity.
Qed.

Lemma read_existing_dataset_fallback w d bp bps :
  dir (gui w) = Some d ->
  (forall t, read_file (disk w) (Str.path_join d (hdf_name (scorer (gui w))))
             <> Some (HdfTable "df_with_missing" t)) ->
  dataFrame (gui w) = None ->
  bodyparts (gui w) = bp :: bps ->
  read_existing_dataset w
  = Ok tt (mkWorld
             (set_iter 0
                (set_dataFrame
                   (Some (nan_frame
                            (flat_map (from_product (scorer (gui w))) (bp :: bps))
                            (relativeimagenames (gui w))))
                   (gui w)))
             (disk w) (out w)).
Proof.
  intros Hd Hf Hdf Hbp.
  destruct (read_hdf_fails w _ _ Hf) as (e & He).
  unfold read_existing_dataset, try_except.
  rewrite bind_self. rewrite bind_not_none with (x := d) by exact Hd.
  unfold bind at 1. rewrite He.
  rewrite bind_self, Hbp. unfold append_nan_columns. cbn [for_each].
  repeat mstep. rewrite Hdf. cbn [concat_axis1 lift]. repeat mstep.
  pose proof (append_nan_columns_ok (relativeimagenames (gui w)) bps
                (mkWorld
                   (set_dataFrame
                      (Some (nan_frame (from_product (scorer (gui w)) bp)
                                       (relativeimagenames (gui w))))
                      (gui w))
                   (disk w) (out w))
                (nan_frame (from_product (scorer (gui w)) bp)
                           (relativeimagenames (gui w)))
                eq_refl) as Happ.
  unfold append_nan_columns in Happ.
  rewrite (bind_ok _ _ _ _ _ (Happ (or_introl
             (eq_trans (f_equal (fun l => labels_eqb l _) (nan_frame_index _ _))
                       (labels_eqb_refl _))))).
  cbn [gui disk out scorer set_dataFrame]. repeat mstep.
  rewrite with_nan_columns_nan_frame. reflexivity.
Qed.

(** X15.  Whatever keeps the annotation file from being read (no file, another
    content, another key), the load does not fail: on a fresh frame it starts
    from a table with one row per frame of the folder and an x and y column
    per configured bodypart, every cell unset, at the first frame. *)
Theorem read_existing_dataset_starts_empty w d bp bps :
  dir (gui w) = Some d ->
  (forall t, read_file (disk w) (Str.path_join d (hdf_name (scorer (gui w))))
             <> Some (HdfTable "df_with_missing" t)) ->
  dataFrame (gui w) = None ->
  bodyparts (gui w) = bp :: bps ->
  read_existing_dataset w
  = Ok tt (mkWorld
             (set_iter 0
                (set_dataFrame
                   (Some (nan_frame
                            (flat_map (from_product (scorer (gui w))) (bp :: bps))
                            (relativeimagenames (gui w))))
                   (gui w)))
             (disk w) (out w)).
Proof. exact (read_existing_dataset_fallback w d bp bps). Qed.

(** *** Frames added to the folder since the last save *)

Lemma keys_eqb_refl (l : list ColKey) : keys_eqb l l = true.
Proof.
  induction l as [|k t IH]; simpl; [reflexivity|].
  rewrite key_eqb_refl. exact IH.
Qed.

Lemma set_difference_In x (a b : list string) :
  In x (set_difference a b) <-> In x a /\ ~ In x b.
Proof.
  unfold set_difference. rewrite nodup_In, filter_In.
  split; intros [Ha Hb]; (split; [exact Ha|]).
  - intros Hin. apply mem_In in Hin. rewrite Hin in Hb. discriminate.
  - destruct (Str.mem x b) eqn:E; [|reflexivity].
    exfalso. apply Hb, mem_In, E.
Qed.

Lemma np_sort_In x (l : list string) : In x (np_sort l) <-> In x l.
Proof.
  unfold np_sort. split; apply Permutation_in;
    [|symmetry]; apply sort_by_perm.
Qed.

Lemma concat_nan_columns_some sc (labels : list string) (bps : list string) :
  forall acc : DataFrame real,
    aligned acc labels ->
    concat_nan_columns sc labels bps (Some acc)
    = inr (Some (with_nan_columns sc bps acc)).
Proof.
  induction bps as [|bp t IH]; intros acc Ha; cbn [concat_nan_columns].
  - rewrite with_nan_columns_nil. reflexivity.
  - rewrite (concat_axis1_nan_pair acc sc bp labels Ha).
    rewrite IH by (apply aligned_with_nan_columns; exact Ha).
    rewrite with_nan_columns_cons. reflexivity.
Qed.

Lemma concat_nan_columns_none sc (labels : list string) bp bps :
  concat_nan_columns sc labels (bp :: bps) None
  = inr (Some (@nan_frame real (flat_map (from_product sc) (bp :: bps)) labels)).
Proof.
  cbn [concat_nan_columns concat_axis1].
  rewrite concat_nan_columns_some.
  - rewrite with_nan_columns_nan_frame. reflexivity.
  - left. rewrite nan_frame_index. apply labels_eqb_refl.
Qed.

Lemma sort_index_rows (df : DataFrame real) r :
  In r (rows (sort_index df)) <-> In r (rows df).
Proof.
  unfold sort_index. cbn [rows]. split; apply Permutation_in;
    [|symmetry]; apply sort_by_perm.
Qed.

(** X16.  A table that has the columns of the configured bodyparts gets, for
    every frame of the folder without a row, one new row with every cell
    unset, and nothing else: the rows it had are kept as they are, every frame
    of the folder then has a row, and the rows are sorted by frame name
    whenever one was added. The position and the files stay. *)
Theorem add_new_frames_adds_unset_rows w df bp bps :
  dataFrame (gui w) = Some df ->
  bodyparts (gui w) = bp :: bps ->
  columns df = flat_map (from_product (scorer (gui w))) (bp :: bps) ->
  exists w' df',
    add_new_frames w = Ok tt w' /\
    dataFrame (gui w') = Some df' /\
    columns df' = columns df /\
    (forall r : Row real,
        In r (rows df') <->
        In r (rows df)
        \/ (In (fst r) (relativeimagenames (gui w))
            /\ ~ In (fst r) (df_index df)
            /\ snd r = nan_cells (List.length (columns df)))) /\
    (forall x, In x (relativeimagenames (gui w)) -> In x (df_index df')) /\
    (df' = df \/
     Sorted (fun a b => String.leb a b = true) (df_index df')) /\
    iter (gui w') = iter (gui w) /\
    disk w' = disk w.
Proof.
  intros Hdf Hbp Hcols.
  set (rel := relativeimagenames (gui w)).
  remember (set_difference rel (np_sort (df_index df))) as new eqn:Enew.
  set (NF := @nan_frame real (flat_map (from_product (scorer (gui w))) (bp :: bps))
                        new).
  assert (Hnew : forall x, In x new <-> In x rel /\ ~ In x (df_index df)).
  { intros x. rewrite Enew, set_difference_In, np_sort_In. reflexivity. }
  assert (Hrows : forall r : Row real,
             In r (rows df ++ rows NF) <->
             In r (rows df)
             \/ (In (fst r) rel /\ ~ In (fst r) (df_index df)
                 /\ snd r = nan_cells (List.length (columns df)))).
  { intros r. rewrite in_app_iff. unfold NF, nan_frame. cbn [rows].
    rewrite in_map_iff, <- Hcols. split; intros [H|H]; auto; right.
    - destruct H as (l & E & Hl). subst r. apply Hnew in Hl. simpl. tauto.
    - destruct H as (H1 & H2 & H3). exists (fst r). split.
      + rewrite <- H3. destruct r; reflexivity.
      + apply Hnew. auto. }
  assert (Hall : forall x, In x rel -> In x (map fst (rows df ++ rows NF))).
  { intros x Hx. rewrite map_app, in_app_iff.
    destruct (in_dec string_dec x (df_index df)) as [Hin|Hout]; [left; exact Hin|].
    right. change (In x (df_index NF)). unfold NF. rewrite nan_frame_index.
    apply Hnew. auto. }
  unfold add_new_frames. rewrite bind_self.
  rewrite bind_not_none with (x := df) by exact Hdf.
  fold rel. rewrite <- Enew. clear Enew. destruct new as [|x t].
  - exists w, df. split; [reflexivity|]. split; [exact Hdf|].
    split; [reflexivity|]. unfold NF, nan_frame in Hrows, Hall.
    cbn [rows map] in Hrows, Hall. rewrite app_nil_r in Hrows, Hall.
    split; [exact Hrows|]. split; [exact Hall|]. auto.
  - repeat mstep.
    rewrite Hbp.
    rewrite bind_lift with (x := Some NF) by apply concat_nan_columns_none.
    rewrite bind_lift
      with (x := mkDataFrame (columns df) (rows df ++ rows NF)); cycle 1.
    { unfold concat_axis0. replace (columns NF) with (columns df)
        by (rewrite Hcols; reflexivity).
      rewrite keys_eqb_refl. reflexivity. }
    eexists. eexists. split; [reflexivity|].
    cbn [gui disk dataFrame iter set_dataFrame].
    split; [reflexivity|]. split; [reflexivity|].
    split; [|split; [|split; [|split; reflexivity]]].
    + intros r. rewrite sort_index_rows. cbn [rows]. apply Hrows.
    + intros y Hy. unfold df_index. apply in_map_iff.
      specialize (Hall y Hy). apply in_map_iff in Hall.
      destruct Hall as (r & E & Hr). exists r. split; [exact E|].
      apply sort_index_rows. exact Hr.
    + right. unfold df_index, sort_index. cbn [rows].
      apply sorted_map_fst, sort_by_sorted.
Qed.

(** ** Resets and commits on the displayed frame *)

Lemma covered_handle sc (ucs : list (list (entry real))) e t co :
  In (e :: t) ucs -> co = "x" \/ co = "y" ->
  covered sc ucs (sc, e_name e, co) = true.
Proof.
  intros Hin Hco. unfold covered. apply existsb_exists.
  exists (e :: t). split; [exact Hin|].
  destruct Hco; subst co; rewrite key_eqb_refl; [reflexivity|apply orb_true_r].
Qed.

(** X4.  A reset of the displayed frame followed by a read: where the row of
    the table at the position [self.iter] is the one row labelled with the
    displayed frame and no handle of the editor is empty, for a bodypart that
    has a handle in the point editor and one x and one y column, [ResetEachImage]
    returns and both stored values read at [self.iter] are unset afterwards. *)
Theorem reset_then_read w df label cells bp jx jy e t :
  dataFrame (gui w) = Some df ->
  nth_error (relativeimagenames (gui w)) (iter (gui w)) = Some label ->
  nth_error (rows df) (iter (gui w)) = Some (label, cells) ->
  count_occ string_dec (df_index df) label = 1 ->
  col_positions (scorer (gui w), bp, "x") 0 (columns df) = [jx] ->
  col_positions (scorer (gui w), bp, "y") 0 (columns df) = [jy] ->
  Forall (fun h => h <> []) (updatedCoords (gui w)) ->
  In (e :: t) (updatedCoords (gui w)) ->
  e_name e = bp ->
  exists w',
    ResetEachImage w = Ok tt w' /\
    stored_value bp "x" w' = Ok NaN w' /\
    stored_value bp "y" w' = Ok NaN w'.
Proof.
  intros Hdf Hl Hrow Hu Hjx Hjy Hne Hin Hname.
  set (sc := scorer (gui w)) in *.
  assert (Hm : Str.mem label (df_index df) = true).
  { apply mem_In. unfold df_index.
    change label with (fst (label, cells)). apply in_map.
    apply nth_error_In with (1 := Hrow). }
  set (df' := fold_left (reset_handle label sc) (updatedCoords (gui w)) df).
  set (w' := mkWorld (set_dataFrame (Some df') (gui w)) (disk w) (out w)).
  exists w'.
  split; [apply ResetEachImage_ok with (df := df) (label := label); assumption|].
  destruct (fold_reset_shape label sc (updatedCoords (gui w)) df)
    as (Hc & _ & Hi). fold df' in Hc, Hi.
  destruct (row_of_index df' (iter (gui w)) label) as (c' & Hrow').
  { rewrite Hi. unfold df_index. rewrite nth_error_map.
    rewrite_row Hrow. reflexivity. }
  pose proof (reset_establishes_nan label sc (updatedCoords (gui w)) df Hu)
    as Hnan.
  fold df' in Hnan.
  assert (Hread : forall co j,
             co = "x" \/ co = "y" ->
             col_positions (sc, bp, co) 0 (columns df) = [j] ->
             values_at df' (sc, bp, co) (iter (gui w)) = inr NaN).
  { intros co j Hco Hj. unfold values_at. rewrite Hc, Hj.
    rewrite_row Hrow'. cbn [snd]. f_equal.
    destruct (col_positions_spec (sc, bp, co) (columns df) 0 j)
      as (_ & k & Hk & Hkey).
    { rewrite Hj. left. reflexivity. }
    rewrite Nat.sub_0_r in Hk. apply key_eqb_eq in Hkey. subst k.
    apply (Hnan (label, c') j (sc, bp, co)).
    - apply nth_error_In with (1 := Hrow').
    - reflexivity.
    - rewrite Hc. exact Hk.
    - rewrite <- Hname. apply covered_handle with (t := t); assumption. }
  pose proof (stored_value_ok w' df' bp "x" eq_refl) as Sx.
  pose proof (stored_value_ok w' df' bp "y" eq_refl) as Sy.
  change (scorer (gui w')) with sc in Sx, Sy.
  change (iter (gui w')) with (iter (gui w)) in Sx, Sy.
  rewrite (Hread "x" jx (or_introl eq_refl) Hjx) in Sx.
  rewrite (Hread "y" jy (or_intror eq_refl) Hjy) in Sy.
  split; [exact (Sx eq_refl) | exact (Sy eq_refl)].
Qed.

(** X6.  A commit for a frame that has no row in the store raises KeyError at
    the first handle and writes nothing: the frame is as it was. *)
Theorem saveEachImage_frame_without_row w df label e t rest :
  dataFrame (gui w) = Some df ->
  nth_error (relativeimagenames (gui w)) (iter (gui w)) = Some label ->
  Str.mem label (df_index df) = false ->
  updatedCoords (gui w) = (e :: t) :: rest ->
  saveEachImage w = Raise KeyError w.
Proof.
  intros Hdf Hl Hm Hu. unfold saveEachImage. rewrite bind_self, Hu.
  unfold enumerate. cbn [enumerate_from for_each snd].
  unfold write_current at 1. unfold last_entry at 1.
  repeat mstep.
  rewrite bind_not_none with (x := df) by exact Hdf. repeat mstep.
  rewrite bind_subscript with (x := label) by exact Hl. repeat mstep.
  rewrite bind_subscript with (x := e) by reflexivity. repeat mstep.
  apply bind_lift_raise. unfold loc_set. rewrite Hm. reflexivity.
Qed.

(** ** The store after a save *)

Lemma saveDataSet_full w w1 d df0 label :
  dir (gui w) = Some d ->
  backup_previous_save env (Str.path_join d (csv_name (scorer (gui w))))
    (Str.path_join d (hdf_name (scorer (gui w)))) w = Ok tt w1 ->
  dataFrame (gui w) = Some df0 ->
  nth_error (relativeimagenames (gui w)) (iter (gui w)) = Some label ->
  Str.mem label (df_index df0) = true ->
  Forall (fun h => h <> []) (updatedCoords (gui w)) ->
  nodupb (bodyparts (gui w)) = true ->
  let df := fold_left (commit_handle label (scorer (gui w)))
                      (updatedCoords (gui w)) df0 in
  exists w' T,
    saveDataSet env w = Ok tt w' /\
    reindex_bodyparts (bodyparts (gui w)) (sort_index (dropna_all df)) = inr T /\
    dataFrame (gui w') = Some T /\
    read_file (disk w') (Str.path_join d (csv_name (scorer (gui w))))
      = Some (CsvTable T) /\
    read_file (disk w') (Str.path_join d (hdf_name (scorer (gui w))))
      = Some (hdf_content "df_with_missing" T) /\
    relativeimagenames (gui w') = relativeimagenames (gui w) /\
    iter (gui w') = iter (gui w) /\
    updatedCoords (gui w') = updatedCoords (gui w).
Proof.
  intros Hd Hb Hdf Hl Hm Hne Hu df.
  set (csv := Str.path_join d (csv_name (scorer (gui w)))) in *.
  set (hdf := Str.path_join d (hdf_name (scorer (gui w)))) in *.
  assert (Hg1 : gui w1 = gui w).
  { pose proof (keeps_gui_backup (gui w) csv hdf w eq_refl) as H.
    rewrite Hb in H. exact H. }
  unfold saveDataSet. repeat mstep.
  rewrite bind_not_none with (x := d) by exact Hd.
  fold csv hdf. rewrite (bind_ok _ _ _ _ _ Hb). repeat mstep.
  erewrite bind_ok; cycle 1.
  { apply saveEachImage_ok with (df := df0) (label := label); simpl;
      rewrite ?Hg1; assumption. }
  cbn [gui disk out]. rewrite Hg1. fold df.
  match goal with
  | |- context [bind (@updateZoomPan real) _ ?w2] =>
      destruct (updateZoomPan_frame w2)
        as (g & o & Hz & _ & _ & _ & Hit & Hrel & _ & Hbp & Hdfg & Huc & _)
  end.
  simpl in Hbp, Hdfg, Hit, Hrel, Huc.
  rewrite (bind_ok _ _ _ _ _ Hz). repeat mstep.
  rewrite bind_not_none with (x := df) by exact Hdfg. repeat mstep.
  cbn [bodyparts set_dataFrame]. rewrite Hbp.
  destruct (reindex_bodyparts (bodyparts (gui w)) (sort_index (dropna_all df)))
    as [e|T] eqn:HT.
  { unfold reindex_bodyparts in HT. rewrite Hu in HT. discriminate HT. }
  rewrite bind_lift with (x := T) by reflexivity. repeat mstep.
  unfold to_csv, to_hdf. repeat mstep.
  eexists. exists T. split; [reflexivity|]. cbn [disk gui].
  split; [reflexivity|]. split; [reflexivity|].
  split; [rewrite read_write_other by apply csv_hdf_distinct;
          apply read_write_same|].
  split; [apply read_write_same|].
  simpl. auto.
Qed.

Lemma dropped_rows_spec (df T : DataFrame real) target l :
  reindex_bodyparts target (sort_index (dropna_all df)) = inr T ->
  (forall r : Row real, In r (rows df) -> fst r = l ->
                        forallb (@isnan real) (snd r) = true) ->
  Str.mem l (df_index T) = false.
Proof.
  intros HT Hall. destruct (Str.mem l (df_index T)) eqn:E; [|reflexivity].
  apply mem_In in E. rewrite (reindex_index _ _ _ HT) in E.
  unfold df_index in E. apply in_map_iff in E. destruct E as (r & El & Hr).
  apply (proj1 (sort_index_rows _ _)) in Hr. unfold dropna_all in Hr. cbn [rows] in Hr.
  apply filter_In in Hr. destruct Hr as [Hr Hk].
  rewrite (Hall r Hr El) in Hk. discriminate Hk.
Qed.

(** X18.  After a save that succeeds, the store in memory is the table that
    was written to the two files (the .h5 file holding it when it has a row,
    and nothing otherwise), not the table before the save: a frame whose
    committed rows hold no value has lost its row in the store as well. *)
Theorem saveDataSet_store_is_written_table w w1 d df0 label :
  dir (gui w) = Some d ->
  backup_previous_save env (Str.path_join d (csv_name (scorer (gui w))))
    (Str.path_join d (hdf_name (scorer (gui w)))) w = Ok tt w1 ->
  dataFrame (gui w) = Some df0 ->
  nth_error (relativeimagenames (gui w)) (iter (gui w)) = Some label ->
  Str.mem label (df_index df0) = true ->
  Forall (fun h => h <> []) (updatedCoords (gui w)) ->
  nodupb (bodyparts (gui w)) = true ->
  let df := fold_left (commit_handle label (scorer (gui w)))
                      (updatedCoords (gui w)) df0 in
  exists w' T,
    saveDataSet env w = Ok tt w' /\
    dataFrame (gui w') = Some T /\
    read_file (disk w') (Str.path_join d (csv_name (scorer (gui w))))
      = Some (CsvTable T) /\
    read_file (disk w') (Str.path_join d (hdf_name (scorer (gui w))))
      = Some (hdf_content "df_with_missing" T) /\
    (forall l,
        (forall r : Row real, In r (rows df) -> fst r = l ->
                              forallb (@isnan real) (snd r) = true) ->
        Str.mem l (df_index T) = false).
Proof.
  intros Hd Hb Hdf Hl Hm Hne Hu df.
  destruct (saveDataSet_full w w1 d df0 label Hd Hb Hdf Hl Hm Hne Hu)
    as (w' & T & Hrun & HT & Hst & Hcsv & Hhdf & _).
  exists w', T. split; [exact Hrun|]. split; [exact Hst|].
  split; [exact Hcsv|]. split; [exact Hhdf|].
  intros l Hall. apply (dropped_rows_spec _ _ _ _ HT Hall).
Qed.

(** X19.  A save on a frame that has no annotation, and then any commit: the
    save drops the row of the displayed frame from the store, its rows holding
    no value once the handles are committed, so the commit that Next, Previous
    and Save begin with raises KeyError at the first handle. *)
Theorem commit_after_save_of_blank_frame w w1 d df0 label e t rest :
  dir (gui w) = Some d ->
  backup_previous_save env (Str.path_join d (csv_name (scorer (gui w))))
    (Str.path_join d (hdf_name (scorer (gui w)))) w = Ok tt w1 ->
  dataFrame (gui w) = Some df0 ->
  nth_error (relativeimagenames (gui w)) (iter (gui w)) = Some label ->
  Str.mem label (df_index df0) = true ->
  updatedCoords (gui w) = (e :: t) :: rest ->
  Forall (fun h => h <> []) rest ->
  nodupb (bodyparts (gui w)) = true ->
  (forall r : Row real,
      In r (rows (fold_left (commit_handle label (scorer (gui w)))
                            (updatedCoords (gui w)) df0)) ->
      fst r = label -> forallb (@isnan real) (snd r) = true) ->
  exists w',
    saveDataSet env w = Ok tt w' /\
    saveEachImage w' = Raise KeyError w'.
Proof.
  intros Hd Hb Hdf Hl Hm Huc Hrest Hu Hblank.
  assert (Hne : Forall (fun h => h <> []) (updatedCoords (gui w))).
  { rewrite Huc. constructor; [discriminate | exact Hrest]. }
  destruct (saveDataSet_full w w1 d df0 label Hd Hb Hdf Hl Hm Hne Hu)
    as (w' & T & Hrun & HT & Hst & _ & _ & Hrel & Hit & Huc').
  exists w'. split; [exact Hrun|].
  pose proof (dropped_rows_spec _ _ _ _ HT Hblank) as Hgone.
  unfold saveEachImage. rewrite bind_self, Huc', Huc.
  unfold enumerate. cbn [enumerate_from for_each snd].
  unfold write_current at 1. unfold last_entry at 1.
  repeat mstep.
  rewrite bind_not_none with (x := T) by exact Hst. repeat mstep.
  rewrite bind_subscript with (x := label) by (rewrite Hrel, Hit; exact Hl).
  repeat mstep.
  rewrite bind_subscript with (x := e) by reflexivity. repeat mstep.
  apply bind_lift_raise. unfold loc_set. rewrite Hgone. reflexivity.
Qed.

(** *** A save and a reload *)

Lemma sort_by_sorted_id {A} (key : A -> string) (l : list A) :
  Sorted (fun a b => String.leb (key a) (key b) = true) l -> sort_by key l = l.
Proof.
  induction 1 as [|h t Hs IH Hh]; [reflexivity|].
  unfold sort_by in *. cbn [fold_right]. rewrite IH.
  destruct Hh as [|h' t' Hle]; [reflexivity|].
  cbn [insert_by]. rewrite Hle. reflexivity.
Qed.

Lemma sorted_map_same_key {A} (key : A -> string) (f : A -> A) (l : list A) :
  (forall a, key (f a) = key a) ->
  Sorted (fun a b => String.leb (key a) (key b) = true) l ->
  Sorted (fun a b => String.leb (key a) (key b) = true) (map f l).
Proof.
  intros Hf. induction 1 as [|h t Hs IH Hh]; cbn [map]; constructor;
    [exact IH|].
  destruct Hh as [|h' t' Hle]; cbn [map]; constructor.
  rewrite !Hf. exact Hle.
Qed.

Lemma reindex_of_sorted target (df T : DataFrame real) :
  reindex_bodyparts target (sort_index df) = inr T -> sort_index T = T.
Proof.
  unfold reindex_bodyparts. destruct (nodupb target); [|discriminate].
  intros E. inversion E. unfold sort_index at 1. cbn [columns rows]. f_equal.
  apply sort_by_sorted_id.
  apply sorted_map_same_key; [reflexivity|].
  unfold sort_index. cbn [rows]. apply sort_by_sorted.
Qed.

Lemma hdf_content_rows key (T : DataFrame real) :
  rows T <> [] -> hdf_content key T = HdfTable key T.
Proof. unfold hdf_content. destruct (rows T); [congruence | reflexivity]. Qed.

Lemma written_has_row (df T : DataFrame real) target r :
  reindex_bodyparts target (sort_index (dropna_all df)) = inr T ->
  In r (rows df) -> forallb (@isnan real) (snd r) = false ->
  rows T <> [].
Proof.
  intros HT Hr Hk E.
  assert (Hin : In (fst r) (df_index T)).
  { rewrite (reindex_index _ _ _ HT). unfold df_index. apply in_map.
    apply sort_index_rows. unfold dropna_all. cbn [rows].
    apply filter_In. split; [exact Hr|]. rewrite Hk. reflexivity. }
  unfold df_index in Hin. rewrite E in Hin. exact Hin.
Qed.

(** X20.  A save and a reload: where the save runs (the backup step raises
    nothing, the displayed frame has a row, no handle is empty, no bodypart is
    named twice) and some row of the committed store holds a value, so that
    the written table has a row, the table that a later load of the folder
    takes as its store is the very table the save left in memory. *)
Theorem save_then_reload w w1 d df0 label :
  dir (gui w) = Some d ->
  backup_previous_save env (Str.path_join d (csv_name (scorer (gui w))))
    (Str.path_join d (hdf_name (scorer (gui w)))) w = Ok tt w1 ->
  dataFrame (gui w) = Some df0 ->
  nth_error (relativeimagenames (gui w)) (iter (gui w)) = Some label ->
  Str.mem label (df_index df0) = true ->
  Forall (fun h => h <> []) (updatedCoords (gui w)) ->
  nodupb (bodyparts (gui w)) = true ->
  (exists r : Row real,
      In r (rows (fold_left (commit_handle label (scorer (gui w)))
                            (updatedCoords (gui w)) df0)) /\
      forallb (@isnan real) (snd r) = false) ->
  exists w' T,
    saveDataSet env w = Ok tt w' /\
    dataFrame (gui w') = Some T /\
    forall w0,
      dir (gui w0) = Some d ->
      scorer (gui w0) = scorer (gui w) ->
      disk w0 = disk w' ->
      exists w0',
        read_existing_dataset w0 = Ok tt w0' /\
        dataFrame (gui w0') = Some T.
Proof.
  intros Hd Hb Hdf Hl Hm Hne Hu (r & Hr & Hk).
  destruct (saveDataSet_full w w1 d df0 label Hd Hb Hdf Hl Hm Hne Hu)
    as (w' & T & Hrun & HT & Hst & _ & Hhdf & _).
  rewrite (hdf_content_rows _ _ (written_has_row _ _ _ _ HT Hr Hk)) in Hhdf.
  exists w', T. split; [exact Hrun|]. split; [exact Hst|].
  intros w0 Hd0 Hsc0 Hdisk0.
  eexists. split.
  - apply read_existing_dataset_run with (d := d) (t := T); [exact Hd0|].
    rewrite Hsc0, Hdisk0. exact Hhdf.
  - cbn [gui]. rewrite (reindex_of_sorted _ _ _ HT).
    destruct (first_empty_row _ _); reflexivity.
Qed.

(** ** Verification mode *)

Lemma updateZoomPan_rest w :
  exists g o,
    updateZoomPan w = Ok tt (mkWorld g (disk w) o) /\
    forall Q : MainFrame real -> Prop,
      (forall s b, Q s -> Q (set_pan_value b s)) ->
      (forall s b, Q s -> Q (set_zoom_value b s)) ->
      Q (gui w) -> Q g.
Proof.
  destruct w as [g d o]. unfold updateZoomPan, bind, self, when, assign, emit, ret.
  simpl. destruct (pan_value g); simpl; destruct (zoom_value g); simpl;
    eexists; eexists; (split; [reflexivity|]); intros Q Hp Hz HQ; auto.
Qed.

(** X21.  Next in verification mode, on the last frame to verify: the pending
    positions are committed to the row of the displayed frame, the counter of
    verified frames goes up by one, the Previous button is disabled, "DONE" is
    printed, and the displayed frame, the position and the files stay: no
    further frame is loaded. *)
Theorem nextImage_verify_done w df label d :
  verify (gui w) = true ->
  dir (gui w) = Some d ->
  dataFrame (gui w) = Some df ->
  nth_error (relativeimagenames (gui w)) (iter (gui w)) = Some label ->
  Str.mem label (df_index df) = true ->
  Forall (fun h => h <> []) (updatedCoords (gui w)) ->
  List.length (verify_frames (gui w)) <= verify_counter (gui w) + 1 ->
  exists w' o,
    nextImage env w = Ok tt w' /\
    dataFrame (gui w') =
      Some (fold_left (commit_handle label (scorer (gui w)))
                      (updatedCoords (gui w)) df) /\
    verify_counter (gui w') = verify_counter (gui w) + 1 /\
    iter (gui w') = iter (gui w) /\
    img (gui w') = img (gui w) /\
    disk w' = disk w /\
    out w' = o ++ [EvEnable "prev" false; EvPrint "DONE.... exit GUI or so"].
Proof.
  intros Hv Hd Hdf Hl Hm Hne Hlen.
  destruct (updateZoomPan_rest w) as (g & o & Hz & HQ).
  pose proof (HQ (fun s =>
                    verify s = verify (gui w) /\ dir s = dir (gui w) /\
                    dataFrame s = dataFrame (gui w) /\
                    relativeimagenames s = relativeimagenames (gui w) /\
                    iter s = iter (gui w) /\ scorer s = scorer (gui w) /\
                    updatedCoords s = updatedCoords (gui w) /\
                    verify_frames s = verify_frames (gui w) /\
                    verify_counter s = verify_counter (gui w) /\
                    img s = img (gui w))
                 (fun s b H => H) (fun s b H => H)) as Hg.
  destruct Hg as (Hgv & Hgd & Hgdf & Hgrel & Hgit & Hgsc & Hguc & Hgvf & Hgvc & Hgimg);
    [repeat split|].
  rewrite <- Hgv in Hv. rewrite <- Hgd in Hd. rewrite <- Hgdf in Hdf.
  rewrite <- Hgrel, <- Hgit in Hl. rewrite <- Hguc in Hne.
  rewrite <- Hgvf, <- Hgvc in Hlen.
  rewrite <- Hgsc, <- Hguc, <- Hgvc, <- Hgit, <- Hgimg.
  clear HQ Hgv Hgd Hgdf Hgrel Hgit Hgsc Hguc Hgvf Hgvc Hgimg.
  unfold nextImage. rewrite (bind_ok _ _ _ _ _ Hz).
  unfold status_working_on. repeat mstep.
  rewrite bind_not_none with (x := d) by exact Hd. repeat mstep.
  rewrite Hv.
  erewrite bind_ok; cycle 1.
  { apply saveEachImage_ok with (df := df) (label := label); simpl; assumption. }
  cbn [gui disk out]. repeat mstep.
  cbn [verify_frames verify_counter set_verify_counter set_dataFrame].
  replace (List.length (verify_frames g) <=? verify_counter g + 1)%nat with true
    by (symmetry; apply Nat.leb_le; exact Hlen).
  eexists. eexists. split; [reflexivity|]. cbn [gui disk out].
  split; [reflexivity|]. split; [reflexivity|]. split; [reflexivity|].
  split; [reflexivity|]. split; [reflexivity|].
  rewrite <- app_assoc. reflexivity.
Qed.

(** X22.  Unlike "Load frames", the load of a frame to verify has no fallback:
    where the folder of the frame holds the image and no annotation file of
    the scorer, it raises FileNotFoundError once the frames of the folder are
    listed, with the store and the position as they were. *)
Theorem load_labeled_frame4verification_needs_file w folder imname d :
  d = Str.path_join (Str.path_join (project_path (gui w)) "labeled-data")
                    folder ->
  Str.mem imname (map basename (list_images env d)) = true ->
  forallb (Str.contains "labeled") (np_sort (list_images env d)) = true ->
  read_file (disk w) (Str.path_join d (hdf_name (scorer (gui w)))) = None ->
  exists w',
    load_labeled_frame4verification env folder imname w
    = Raise FileNotFoundError w' /\
    dir (gui w') = Some d /\
    index (gui w') = np_sort (list_images env d) /\
    dataFrame (gui w') = dataFrame (gui w) /\
    iter (gui w') = iter (gui w) /\
    disk w' = disk w.
Proof.
  intros Ed Hin Hlab Hfile.
  unfold load_labeled_frame4verification. repeat mstep. rewrite <- Ed.
  unfold when. destruct (List.length (list_images env d) =? 0)%nat;
    repeat mstep; rewrite Hin; cbn [negb];
    repeat mstep; unfold status_working_on; repeat mstep;
    cbn [dir set_index set_dir];
    (rewrite bind_not_none with (x := d) by reflexivity); repeat mstep;
    unfold bind at 1; rewrite relative_names_full, Hlab;
    repeat mstep; unfold read_hdf; repeat mstep; rewrite Hfile;
    eexists; (split; [reflexivity|]); cbn [gui disk];
    repeat split.
Qed.

(** ** Loading a folder that has no annotations yet *)

Lemma col_positions_product sc bp co (bps : list string) :
  co = "x" \/ co = "y" ->
  forall n,
    List.length (col_positions (sc, bp, co) n (flat_map (from_product sc) bps))
    = count_occ string_dec bps bp.
Proof.
  intros Hco. induction bps as [|b t IH]; intros n; [reflexivity|].
  cbn [flat_map from_product app col_positions count_occ].
  unfold key_eqb, key_scorer, key_bodypart, key_coords. cbn [fst snd].
  rewrite String.eqb_refl. cbn [andb].
  destruct (string_dec b bp) as [E|E].
  - subst b. rewrite String.eqb_refl. cbn [andb].
    destruct Hco; subst co; simpl; rewrite IH; reflexivity.
  - apply String.eqb_neq in E. rewrite E. cbn [andb]. apply IH.
Qed.

Lemma has_columns_nan_frame sc (bps labels : list string) :
  nodupb bps = true ->
  has_columns (@nan_frame real (flat_map (from_product sc) bps) labels) sc bps
  = true.
Proof.
  intros Hnd. apply nodupb_NoDup in Hnd.
  unfold has_columns. apply forallb_forall. intros bp Hbp.
  cbn [columns nan_frame].
  rewrite !col_positions_product by auto.
  rewrite (proj1 (NoDup_count_occ' string_dec bps) Hnd bp Hbp). reflexivity.
Qed.

Lemma value_nan_frame cols (labels : list string) k i :
  value_or_nan (values_at (@nan_frame real cols labels) k i) = NaN.
Proof.
  unfold values_at. destruct (col_positions _ _ _) as [|j [|? ?]]; try reflexivity.
  cbn [rows nan_frame]. rewrite nth_error_map.
  destruct (nth_error labels i); [|reflexivity].
  cbn [option_map snd value_or_nan]. unfold nan_cells.
  destruct (Nat.lt_ge_cases j (List.length cols)) as [H|H].
  - apply nth_repeat_lt. exact H.
  - apply nth_overflow. rewrite repeat_length. exact H.
Qed.

Lemma np_sort_nonempty (l : list string) :
  l <> [] -> exists a t, np_sort l = a :: t.
Proof.
  intros H. destruct (np_sort l) as [|a t] eqn:E; [|eauto].
  exfalso. apply H. apply Permutation_nil.
  rewrite <- E. apply sort_by_perm.
Qed.

Lemma add_new_frames_none w df :
  dataFrame (gui w) = Some df ->
  (forall x, In x (relativeimagenames (gui w)) -> In x (df_index df)) ->
  add_new_frames w = Ok tt w.
Proof.
  intros Hdf Hall. unfold add_new_frames. rewrite bind_self.
  rewrite bind_not_none with (x := df) by exact Hdf.
  unfold set_difference. rewrite filter_none; [reflexivity|].
  intros x Hx. apply negb_false_iff, mem_In, np_sort_In, Hall, Hx.
Qed.

Lemma check_unique_bodyparts_ok w :
  nodupb (bodyparts (gui w)) = true -> check_unique_bodyparts w = Ok tt w.
Proof.
  intros H. unfold check_unique_bodyparts. rewrite bind_self.
  rewrite (nodup_fixed_point string_dec (nodupb_NoDup _ H)).
  rewrite Nat.eqb_refl. reflexivity.
Qed.

Lemma no_new_bodyparts sc (bps labels : list string) :
  filter (fun x => negb (Str.mem x (oldbodyparts2plot
                                      (@nan_frame real
                                         (flat_map (from_product sc) bps) labels))))
         bps = [].
Proof.
  apply filter_none. intros x Hx. apply negb_false_iff, mem_In.
  unfold oldbodyparts2plot. cbn [columns nan_frame].
  destruct (first_occurrences_complete x
              (map key_bodypart (flat_map (from_product sc) bps)) []) as [[]|H];
    [|exact H].
  apply in_map_iff. exists (sc, x, "x"). split; [reflexivity|].
  apply in_flat_map. exists x. split; [exact Hx | left; reflexivity].
Qed.

(** X17.  "Load frames" on a folder that has images and no readable annotation
    file, under a configuration without a repeated bodypart, the listed files
    being images on disk: [browseDir]
    returns; the frames are the images in ascending order of their path; the
    store has one row per frame and an x and y column per bodypart, every cell
    unset; the first frame is displayed with the first bodypart selected and
    one handle per bodypart without a position; nothing is added to
    [self.buttonCounter]; no file is written. *)
Theorem browseDir_fresh_folder w path bp bps im ims :
  DirDialog_ShowModal env = Some path ->
  dataFrame (gui w) = None ->
  cfg_bodyparts (read_config env) = bp :: bps ->
  nodupb (bp :: bps) = true ->
  list_images env path = im :: ims ->
  Forall (fun fn => imread (disk w) fn = true) (list_images env path) ->
  forallb (Str.contains "labeled") (np_sort (list_images env path)) = true ->
  (forall t,
      read_file (disk w)
        (Str.path_join path (hdf_name (cfg_scorer (read_config env))))
      <> Some (HdfTable "df_with_missing" t)) ->
  exists w',
    browseDir env w = Ok tt w' /\
    index (gui w') = np_sort (list_images env path) /\
    relativeimagenames (gui w')
      = map (fun n => "labeled" +++ nth 1 (Str.split "labeled" n) "")
            (index (gui w')) /\
    dataFrame (gui w')
      = Some (nan_frame
                (flat_map (from_product (cfg_scorer (read_config env)))
                          (bp :: bps))
                (relativeimagenames (gui w'))) /\
    iter (gui w') = 0 /\
    nth_error (index (gui w')) 0 = Some (img (gui w')) /\
    updatedCoords (gui w')
      = map (fun b => [mkEntry NaN NaN (snd b) (fst b)]) (enumerate (bp :: bps)) /\
    buttonCounter (gui w') = buttonCounter (gui w) /\
    rdb (gui w') = 0 /\
    disk w' = disk w.
Proof.
  intros Hdlg Hdf Hbps Hnd Himgs Hread Hlab Hfile.
  set (sc := cfg_scorer (read_config env)) in *.
  set (imlist := list_images env path) in *.
  set (rel := map (fun n => "labeled" +++ nth 1 (Str.split "labeled" n) "")
                  (np_sort imlist)).
  set (NF := @nan_frame real (flat_map (from_product sc) (bp :: bps)) rel).
  destruct (np_sort_nonempty imlist) as (a & rest & Hsorted);
    [rewrite Himgs; discriminate|].
  assert (Ha : imread (disk w) a = true).
  { apply (proj1 (Forall_forall _ _) Hread). apply np_sort_In.
    rewrite Hsorted. left. reflexivity. }
  unfold browseDir. repeat mstep. rewrite Hdlg. repeat mstep.
  cbn [dir set_dir set_scorer set_bodyparts set_markerSize set_project_path].
  rewrite bind_not_none with (x := path) by reflexivity.
  fold imlist. rewrite Himgs. cbn [List.length Nat.eqb when]. repeat mstep.
  rewrite <- Himgs.
  unfold status_working_on. repeat mstep.
  cbn [dir set_index set_dir set_scorer set_bodyparts set_markerSize
       set_project_path].
  rewrite bind_not_none with (x := path) by reflexivity. repeat mstep.
  unfold bind at 1. rewrite relative_names_full, Hlab. fold rel.
  repeat mstep.
  erewrite bind_ok; cycle 1.
  { apply read_existing_dataset_fallback with (d := path) (bp := bp) (bps := bps).
    - reflexivity.
    - exact Hfile.
    - exact Hdf.
    - exact Hbps. }
  cbn [gui disk out scorer relativeimagenames set_relativeimagenames set_index
       set_dir set_scorer set_bodyparts set_markerSize set_project_path].
  fold sc. fold NF. repeat mstep.
  cbn [index iter set_iter set_dataFrame set_relativeimagenames set_index].
  rewrite bind_subscript with (x := a) by (rewrite Hsorted; reflexivity).
  repeat mstep. unfold getColorIndices. repeat mstep.
  rewrite bind_ImagePanel_getColorIndices by exact Ha.
  erewrite bind_ok; cycle 1.
  { apply add_new_frames_none with (df := NF); [reflexivity|].
    intros x Hx. unfold NF. rewrite nan_frame_index. exact Hx. }
  erewrite bind_ok; cycle 1.
  { apply check_unique_bodyparts_ok. cbn [gui bodyparts set_img set_iter
      set_dataFrame set_relativeimagenames set_index set_project_path
      set_markerSize set_bodyparts]. rewrite Hbps. exact Hnd. }
  unfold show_labels. repeat mstep.
  cbn [dataFrame bodyparts set_img set_iter set_dataFrame
       set_relativeimagenames set_index set_project_path set_markerSize
       set_bodyparts].
  rewrite bind_not_none with (x := NF) by reflexivity.
  rewrite Hbps.
  pose proof (no_new_bodyparts sc (bp :: bps) rel) as Hnew. fold NF in Hnew.
  rewrite Hnew.
  repeat mstep. unfold drawplot. repeat mstep.
  cbn [index iter set_new_bodyparts set_img set_iter set_dataFrame
       set_relativeimagenames set_index].
  rewrite bind_subscript with (x := a) by (rewrite Hsorted; reflexivity).
  repeat mstep. rewrite bind_ImagePanel_drawplot by exact Ha.
  repeat mstep. unfold addRadioButtons. repeat mstep.
  cbn [img set_img].
  match goal with
  | |- context [bind (plot a) _ ?w1] =>
      destruct (plot_full w1 NF a) as (bc & w2 & Hp & Hs & Hu & _ & Hb & Hbc);
      [reflexivity
      | apply has_columns_readable;
        [cbn [gui scorer bodyparts set_rdb set_new_bodyparts set_img set_iter
              set_dataFrame set_relativeimagenames set_index set_project_path
              set_markerSize set_bodyparts set_scorer];
         rewrite ?Hbps; apply has_columns_nan_frame; exact Hnd
        | cbn [gui iter set_rdb set_new_bodyparts set_img set_iter];
          unfold NF, rel; cbn [rows nan_frame]; rewrite !length_map, Hsorted;
          simpl; lia ]
      |];
      pose proof (redraw_plot (fun s => img s = a /\ rdb s = 0)
                    (fun s x H => H) (fun s x H => H) (fun s x H => H)
                    a w1 (conj eq_refl eq_refl)) as Hk
  end.
  rewrite Hp in Hk. destruct Hk as [Him Hrdb]. simpl in Him, Hrdb.
  rewrite (bind_ok _ _ _ _ _ Hp). unfold connect_canvas. repeat mstep.
  destruct Hs as (_ & _ & _ & Hidx2 & Hrel2 & Hit2 & _ & _ & Hdf2 & _ & Hdisk2).
  cbn [gui disk scorer bodyparts iter buttonCounter index relativeimagenames
       dataFrame set_rdb set_new_bodyparts set_img set_iter set_dataFrame
       set_relativeimagenames set_index set_project_path set_markerSize
       set_bodyparts set_scorer set_dir]
    in Hidx2, Hrel2, Hit2, Hdf2, Hdisk2, Hu, Hb.
  eexists. split; [reflexivity|]. cbn [gui disk].
  cbn [index relativeimagenames dataFrame iter img updatedCoords buttonCounter
       rdb set_buttonCounter].
  rewrite Hidx2, Hrel2, Hdf2, Hit2, Him, Hrdb, Hdisk2.
  split; [reflexivity|]. split; [reflexivity|]. split; [reflexivity|].
  split; [reflexivity|]. split; [rewrite Hsorted; reflexivity|].
  split; [|split; [|split; reflexivity]].
  - rewrite Hu, ?Hbps. apply map_ext. intros b. unfold drawn_coords.
    unfold NF. rewrite !value_nan_frame. reflexivity.
  - rewrite Hbc, Hb. unfold annotated. rewrite filter_none.
    + apply app_nil_r.
    + intros b _. unfold NF. rewrite value_nan_frame. reflexivity.
Qed.

(** ** Loading a folder that was annotated before *)

Lemma has_columns_product sc (bps : list string) (df : DataFrame real) :
  columns df = flat_map (from_product sc) bps ->
  nodupb bps = true ->
  has_columns df sc bps = true.
Proof.
  intros Hc Hnd.
  pose proof (has_columns_nan_frame sc bps [] Hnd) as H.
  unfold has_columns in *. cbn [columns nan_frame] in H.
  rewrite Hc. exact H.
Qed.

Lemma no_new_bodyparts_product sc (bps : list string) (df : DataFrame real) :
  columns df = flat_map (from_product sc) bps ->
  filter (fun x => negb (Str.mem x (oldbodyparts2plot df))) bps = [].
Proof.
  intros Hc. pose proof (no_new_bodyparts sc bps []) as H.
  unfold oldbodyparts2plot in *. cbn [columns nan_frame] in H.
  rewrite Hc. exact H.
Qed.

(** X23.  "Load frames" on a folder whose annotation file has one row per
    image and the columns of the configured bodyparts, none repeated, the
    listed files being images on disk: [browseDir] returns; the store is the stored table sorted by frame name;
    the position is the one the first-empty-row search gives, and the image
    at that position is displayed with the first bodypart selected; the
    handles carry the stored positions of that frame, and the bodyparts
    annotated there are appended to [self.buttonCounter]; no file is
    written. *)
Theorem browseDir_annotated_folder w path bps im ims (t : DataFrame real) :
  DirDialog_ShowModal env = Some path ->
  cfg_bodyparts (read_config env) = bps ->
  nodupb bps = true ->
  list_images env path = im :: ims ->
  Forall (fun fn => imread (disk w) fn = true) (list_images env path) ->
  forallb (Str.contains "labeled") (np_sort (list_images env path)) = true ->
  read_file (disk w)
    (Str.path_join path (hdf_name (cfg_scorer (read_config env))))
    = Some (HdfTable "df_with_missing" t) ->
  df_index (sort_index t)
    = map (fun n => "labeled" +++ nth 1 (Str.split "labeled" n) "")
          (np_sort (list_images env path)) ->
  columns t = flat_map (from_product (cfg_scorer (read_config env))) bps ->
  exists w' i shown,
    browseDir env w = Ok tt w' /\
    first_empty_row (sort_index t) (enumerate (df_index (sort_index t)))
      = Some i /\
    nth_error (np_sort (list_images env path)) i = Some shown /\
    index (gui w') = np_sort (list_images env path) /\
    relativeimagenames (gui w') = df_index (sort_index t) /\
    dataFrame (gui w') = Some (sort_index t) /\
    iter (gui w') = i /\
    img (gui w') = shown /\
    rdb (gui w') = 0 /\
    updatedCoords (gui w')
      = map (drawn_coords (sort_index t) (cfg_scorer (read_config env)) i)
            (enumerate bps) /\
    buttonCounter (gui w')
      = buttonCounter (gui w)
        ++ annotated (sort_index t) (cfg_scorer (read_config env)) i
             (enumerate bps) /\
    disk w' = disk w.
Proof.
  intros Hdlg Hbps Hnd Himgs Hread Hlab Hfile Hidx Hcols.
  set (sc := cfg_scorer (read_config env)) in *.
  set (imlist := list_images env path) in *.
  set (T := sort_index t) in *.
  set (rel := map (fun n => "labeled" +++ nth 1 (Str.split "labeled" n) "")
                  (np_sort imlist)) in *.
  destruct (np_sort_nonempty imlist) as (a & rest & Hsorted);
    [rewrite Himgs; discriminate|].
  assert (Hlen : List.length (df_index T) = List.length (np_sort imlist)).
  { rewrite Hidx. unfold rel. apply length_map. }
  (* the resume position *)
  pose proof (first_empty_row_spec T (df_index T) 0) as Hspec.
  fold (enumerate (df_index T)) in Hspec.
  destruct (first_empty_row T (enumerate (df_index T))) as [i|] eqn:Efe;
    [|rewrite Hspec, Hsorted in Hlen; discriminate Hlen].
  assert (Hi : i < List.length (np_sort imlist)).
  { rewrite <- Hlen.
    destruct Hspec as [(j & y & Ei & Hj & _)|[Ei _]].
    - simpl in Ei. subst i. apply nth_error_Some. rewrite Hj. discriminate.
    - subst i. rewrite Hlen, Hsorted. simpl. lia. }
  destruct (nth_error (np_sort imlist) i) as [shown|] eqn:Eshown;
    [|apply nth_error_None in Eshown; lia].
  assert (HcT : columns T = flat_map (from_product sc) bps) by exact Hcols.
  assert (Ha : imread (disk w) shown = true).
  { apply (proj1 (Forall_forall _ _) Hread). apply np_sort_In.
    apply nth_error_In with (1 := Eshown). }
  unfold browseDir. repeat mstep. rewrite Hdlg. repeat mstep.
  cbn [dir set_dir set_scorer set_bodyparts set_markerSize set_project_path].
  rewrite bind_not_none with (x := path) by reflexivity.
  fold imlist. rewrite Himgs. cbn [List.length Nat.eqb when]. repeat mstep.
  rewrite <- Himgs.
  unfold status_working_on. repeat mstep.
  cbn [dir set_index set_dir set_scorer set_bodyparts set_markerSize
       set_project_path].
  rewrite bind_not_none with (x := path) by reflexivity. repeat mstep.
  unfold bind at 1. rewrite relative_names_full, Hlab. fold rel.
  repeat mstep.
  erewrite bind_ok; cycle 1.
  { apply read_existing_dataset_run with (d := path) (t := t).
    - reflexivity.
    - exact Hfile. }
  fold T. rewrite Efe.
  cbn [gui disk out]. repeat mstep.
  cbn [index iter set_iter set_dataFrame set_relativeimagenames set_index].
  rewrite bind_subscript with (x := shown) by exact Eshown.
  repeat mstep. unfold getColorIndices. repeat mstep.
  rewrite bind_ImagePanel_getColorIndices by exact Ha.
  erewrite bind_ok; cycle 1.
  { apply add_new_frames_none with (df := T); [reflexivity|].
    intros x Hx. rewrite Hidx. exact Hx. }
  erewrite bind_ok; cycle 1.
  { apply check_unique_bodyparts_ok. cbn [gui bodyparts set_img set_iter
      set_dataFrame set_relativeimagenames set_index set_project_path
      set_markerSize set_bodyparts]. rewrite Hbps. exact Hnd. }
  unfold show_labels. repeat mstep.
  cbn [dataFrame bodyparts set_img set_iter set_dataFrame
       set_relativeimagenames set_index set_project_path set_markerSize
       set_bodyparts].
  rewrite bind_not_none with (x := T) by reflexivity.
  rewrite Hbps, (no_new_bodyparts_product sc bps T HcT).
  repeat mstep. unfold drawplot. repeat mstep.
  cbn [index iter set_new_bodyparts set_img set_iter set_dataFrame
       set_relativeimagenames set_index].
  rewrite bind_subscript with (x := shown) by exact Eshown.
  repeat mstep. rewrite bind_ImagePanel_drawplot by exact Ha.
  repeat mstep. unfold addRadioButtons. repeat mstep.
  cbn [img set_img].
  match goal with
  | |- context [bind (plot shown) _ ?w1] =>
      destruct (plot_full w1 T shown)
        as (bc & w2 & Hp & Hs & Hu & _ & Hb & Hbc);
      [reflexivity
      | apply has_columns_readable;
        [cbn [gui scorer bodyparts set_rdb set_new_bodyparts set_img set_iter
              set_dataFrame set_relativeimagenames set_index set_project_path
              set_markerSize set_bodyparts set_scorer];
         rewrite ?Hbps; apply has_columns_product; assumption
        | cbn [gui iter set_rdb set_new_bodyparts set_img set_iter];
          replace (List.length (rows T)) with (List.length (df_index T))
            by (unfold df_index; apply length_map);
          rewrite Hlen; exact Hi ]
      |];
      pose proof (redraw_plot (fun s => img s = shown /\ rdb s = 0)
                    (fun s x H => H) (fun s x H => H) (fun s x H => H)
                    shown w1 (conj eq_refl eq_refl)) as Hk
  end.
  rewrite Hp in Hk. destruct Hk as [Him Hrdb]. simpl in Him, Hrdb.
  rewrite (bind_ok _ _ _ _ _ Hp). unfold connect_canvas. repeat mstep.
  destruct Hs as (_ & _ & _ & Hidx2 & Hrel2 & Hit2 & _ & _ & Hdf2 & _ & Hdisk2).
  cbn [gui disk scorer bodyparts iter buttonCounter index relativeimagenames
       dataFrame set_rdb set_new_bodyparts set_img set_iter set_dataFrame
       set_relativeimagenames set_index set_project_path set_markerSize
       set_bodyparts set_scorer set_dir]
    in Hidx2, Hrel2, Hit2, Hdf2, Hdisk2, Hu, Hb.
  eexists. exists i, shown. split; [reflexivity|]. cbn [gui disk].
  cbn [index relativeimagenames dataFrame iter img updatedCoords buttonCounter
       rdb set_buttonCounter].
  rewrite Hidx2, Hrel2, Hdf2, Hit2, Him, Hrdb, Hdisk2, Hidx.
  rewrite ?Hbps in Hu, Hb.
  repeat split; try reflexivity; try assumption.
  rewrite Hbc. exact Hb.
Qed.

(** ** The marker size slider *)


End Facts.

(* ------------------------------------------------------------------ *)
(** * The properties on the small project *)

Import Demo.

Lemma nextImage_last_frame_witness :
  verify (gui at_last) = false /\
  (Z.of_nat (List.length (index (gui at_last)))
   - Z.of_nat (iter (gui at_last)) = 1)%Z /\
  iter (gui (world_of (nextImage linux at_last))) = iter (gui at_last) /\
  dataFrame (gui (world_of (nextImage linux at_last)))
    = dataFrame (gui at_last).
Proof.
  split; [reflexivity|]. split; [reflexivity|].
  destruct (nextImage_last_frame Z linux at_last eq_refl eq_refl)
    as (Hi & Hd & _).
  split; [exact Hi | exact Hd].
Defined.

Lemma onClick_already_annotated_witness :
  In (rdb (gui nose_placed)) (buttonCounter (gui nose_placed)) /\
  onClick (click 30 40) nose_placed =
    Ok tt (mkWorld (gui nose_placed) (disk nose_placed)
             (out nose_placed
              ++ [EvMessageBox (already_annotated "ear") "Error!";
                  EvCanvasDisconnect "onClick";
                  EvCanvasDisconnect "onButtonRelease"])).
Proof.
  split; [left; reflexivity|].
  apply (onClick_already_annotated Z nose_placed (click 30 40) "ear");
    [reflexivity | left; reflexivity | reflexivity].
Defined.

Lemma not_in_1_0 : ~ In 0 [1].
Proof. intros [H|[]]. discriminate H. Defined.

Lemma onClick_place_moves_selection_witness :
  exists w',
    onClick (click 10 20) opened = Ok tt w' /\
    rdb (gui w') = next_selection (gui opened) /\
    (rdb (gui w') = rdb (gui opened) + 1 \/
     rdb (gui opened) + 1 = List.length (bodyparts (gui opened))) /\
    buttonCounter (gui w') = buttonCounter (gui opened) ++ [rdb (gui opened)] /\
    updatedCoords (gui w') =
      updatedCoords (gui opened)
      ++ [[mkEntry (Val 10%Z) (Val 20%Z) "nose" (rdb (gui opened))]] /\
    drs (gui w') =
      drs (gui opened)
      ++ [mkDraggablePoint
            (mkCircle (Val 10%Z, Val 20%Z) (markerSize (gui opened))) "nose"] /\
    dataFrame (gui w') = dataFrame (gui opened) /\
    bodyparts (gui w') = bodyparts (gui opened).
Proof.
  apply (onClick_place_moves_selection Z opened (click 10 20)
           (Val 10%Z) (Val 20%Z) "nose");
    [reflexivity | reflexivity | reflexivity | exact not_in_1_0 | reflexivity].
Defined.

Lemma onClick_outside_axes_witness :
  onClick (mkMouseEvent 3 None None) opened
  = Raise TypeError
      (mkWorld
         (set_num (num (gui opened)
                   ++ [[mkPatch (@None (cell Z), @None (cell Z))
                                (markerSize (gui opened))]])
                  (gui opened))
         (disk opened) (out opened)).
Proof.
  apply (onClick_outside_axes Z opened (mkMouseEvent 3 None None));
    [reflexivity | left; reflexivity | exact not_in_1_0 | vm_compute; lia].
Defined.

(** C3.  The selection after a place can be an annotated bodypart while
    another one is not annotated yet.  On the first frame of the project the
    ear is annotated; a right click places the nose and the selection moves on
    to the ear, although the tail has no annotation: the next right click
    gets the error box and places nothing, where the instructions of the
    toolbox promise that the next available label is selected. *)
Theorem place_selects_annotated :
  onClick (click 10 20) opened = Ok tt nose_placed /\
  ~ In (rdb (gui opened)) (buttonCounter (gui opened)) /\
  ~ selects_unset (gui nose_placed) /\
  onClick (click 30 40) nose_placed
  = Ok tt (mkWorld (gui nose_placed) (disk nose_placed)
             (out nose_placed
              ++ [EvMessageBox (already_annotated "ear") "Error!";
                  EvCanvasDisconnect "onClick";
                  EvCanvasDisconnect "onButtonRelease"])).
Proof.
  split; [reflexivity|]. split; [exact not_in_1_0|]. split; [|reflexivity].
  intros H. apply H.
  - exists 2. split; [vm_compute; lia|].
    intros [E|[E|[]]]; discriminate E.
  - left. reflexivity.
Qed.

Lemma saveEachImage_other_frames_witness :
  nth_error (relativeimagenames (gui nose_placed)) (iter (gui nose_placed))
    <> Some rel1 /\
  (row_at (dataFrame (gui (world_of (saveEachImage nose_placed)))) 1
     = Some (rel1, [Val 1%Z; Val 2%Z; NaN; NaN; NaN; NaN])
   <-> row_at (dataFrame (gui nose_placed)) 1
     = Some (rel1, [Val 1%Z; Val 2%Z; NaN; NaN; NaN; NaN])).
Proof.
  assert (H : nth_error (relativeimagenames (gui nose_placed))
                (iter (gui nose_placed)) <> Some rel1)
    by (intros E; discriminate E).
  split; [exact H|].
  apply (saveEachImage_other_frames Z nose_placed rel1 1
           (rel1, [Val 1%Z; Val 2%Z; NaN; NaN; NaN; NaN]) H eq_refl).
Defined.



Lemma saveDataSet_writes_witness :
  exists w' T,
    saveDataSet linux nose_placed = Ok tt w' /\
    read_file (disk w') csv = Some (CsvTable T) /\
    read_file (disk w') h5 = Some (hdf_content "df_with_missing" T) /\
    (forall l, In l (df_index T) <->
               exists r,
                 In r (rows (fold_left (commit_handle rel0 "me")
                                       (updatedCoords (gui nose_placed)) table))
                 /\ fst r = l /\ forallb (@isnan Z) (snd r) = false) /\
    Sorted (fun a b => String.leb a b = true) (df_index T) /\
    map key_bodypart (columns T)
      = flat_map
          (fun bp =>
             repeat bp
               (List.length
                  (filter (has_bodypart bp)
                     (columns (fold_left (commit_handle rel0 "me")
                                 (updatedCoords (gui nose_placed)) table)))))
          ["nose"; "ear"; "tail"] /\
    (forall r, In r (rows T) ->
       exists r0,
         In r0 (rows (fold_left (commit_handle rel0 "me")
                                (updatedCoords (gui nose_placed)) table))
         /\ fst r0 = fst r /\
         snd r = flat_map
                   (fun bp =>
                      select_cells (has_bodypart bp)
                        (columns (fold_left (commit_handle rel0 "me")
                                    (updatedCoords (gui nose_placed)) table))
                        (snd r0))
                   ["nose"; "ear"; "tail"]).
Proof.
  apply (saveDataSet_writes Z linux nose_placed
           (world_of (backup_previous_save linux csv h5 nose_placed))
           folder table rel0);
    try reflexivity.
  vm_compute. repeat constructor; discriminate.
Defined.

Lemma show_labels_adds_columns_witness :
  aligned table (relativeimagenames (gui with_paw)) /\
  exists df',
    dataFrame (gui (world_of (show_labels linux with_paw))) = Some df' /\
    columns df' = columns table ++ from_product "me" "paw" /\
    rows df' = map (fun r : Row Z => (fst r, snd r ++ [NaN; NaN])) (rows table) /\
    (forall bp, In bp ["nose"; "ear"; "tail"; "paw"] ->
                In bp (map key_bodypart (columns df'))) /\
    ((forall bp, In bp (map key_bodypart (columns table)) ->
                 In bp ["nose"; "ear"; "tail"; "paw"]) ->
     columns_match df' ["nose"; "ear"; "tail"; "paw"]).
Proof.
  assert (Ha : aligned table (relativeimagenames (gui with_paw)))
    by (left; reflexivity).
  split; [exact Ha|].
  exact (show_labels_adds_columns Z linux with_paw table eq_refl Ha eq_refl).
Defined.

(** C6, as stated, fails: under a configuration that names the nose and the
    paw, the load of the project adds the columns of the paw and keeps those
    of the ear and of the tail, which the configuration no longer has: the
    bodyparts of the columns are not those of the bodypart list. *)
Lemma load_keeps_columns_of_dropped_bodyparts :
  exists w' df',
    browseDir nose_paw started = Ok tt w' /\
    dataFrame (gui w') = Some df' /\
    bodyparts (gui w') = ["nose"; "paw"] /\
    map key_bodypart (columns df')
      = ["nose"; "nose"; "ear"; "ear"; "tail"; "tail"; "paw"; "paw"] /\
    ~ columns_match df' (bodyparts (gui w')).
Proof.
  eexists. eexists. split; [vm_compute; reflexivity|].
  split; [reflexivity|]. split; [reflexivity|]. split; [reflexivity|].
  intros H. destruct (proj1 (H "ear")) as [E|[E|[]]]; try discriminate E.
  vm_compute. tauto.
Qed.

(** Reloading the project after "paw" was added to the configuration: the
    whole of [browseDir] runs, the frames keep their values and the new
    bodypart is unset everywhere. *)
Example browseDir_with_new_bodypart :
  exists w',
    browseDir (env "linux" ["nose"; "ear"; "tail"; "paw"]) started = Ok tt w' /\
    dataFrame (gui w') =
      Some (mkDataFrame
              (columns table ++ from_product "me" "paw")
              [(rel0, [NaN; NaN; Val 5%Z; Val 6%Z; NaN; NaN; NaN; NaN]);
               (rel1, [Val 1%Z; Val 2%Z; NaN; NaN; NaN; NaN; NaN; NaN]);
               (rel2, [NaN; NaN; NaN; NaN; Val 3%Z; Val 4%Z; NaN; NaN])]).
Proof. eexists. split; vm_compute; reflexivity. Qed.

(** C1.  After a save that dropped a row, a commit followed by a read does
    not give back what was committed.  On the folder before anything was
    saved: Load frames, Next, the nose placed at (10, 20) on the second frame,
    Next, the nose placed at (30, 40) on the third, Previous, Save.  Every
    callback returns; the second frame is displayed, at position 1, and the
    save has dropped the row of the blank first frame from the table in
    memory.  The commit writes the nose of the displayed frame, (10, 20), to
    the row that carries its name; the read, at position [self.iter] of the
    table, answers (30, 40), the nose of the third frame. *)
Theorem commit_then_read_after_save :
  label_two_frames_and_save empty_folder = Ok tt after_save /\
  nth_error (relativeimagenames (gui after_save)) (iter (gui after_save))
    = Some rel1 /\
  nth_error (updatedCoords (gui after_save)) 0
    = Some [mkEntry (Val 10%Z) (Val 20%Z) "nose" 0] /\
  exists w' df' labels,
    saveEachImage after_save = Ok tt w' /\
    dataFrame (gui w') = Some df' /\
    rows df' = [(rel1, [Val 10%Z; Val 20%Z; NaN; NaN; NaN; NaN]);
                (rel2, [Val 30%Z; Val 40%Z; NaN; NaN; NaN; NaN])] /\
    getLabels (iter (gui w')) w' = Ok labels w' /\
    nth_error labels 0 = Some [mkEntry (Val 30%Z) (Val 40%Z) "nose" 0].
Proof.
  split; [vm_compute; reflexivity|]. split; [reflexivity|].
  split; [reflexivity|].
  eexists. eexists. eexists. split; [vm_compute; reflexivity|].
  split; [reflexivity|]. split; [reflexivity|].
  split; vm_compute; reflexivity.
Qed.

(** The same state, seen from Next: the read at the position after the
    displayed frame leaves the table, which has two rows for three frames. *)
Example nextImage_after_save_raises :
  exists w', nextImage linux after_save = Raise IndexError w'.
Proof. eexists. vm_compute. reflexivity. Qed.

(** C4.  A save does not always write the table.  On the folder before
    anything was saved: Load frames, the nose placed on the first frame, Next,
    and Save while the blank second frame is displayed; this save returns and
    drops the row of the displayed frame from the table in memory.  The nose
    is then placed on the displayed frame and Save is clicked again: the
    earlier files are renamed to their backup names, the status bar shows
    File saved, and the commit raises KeyError: neither file is written and
    the placed nose is not in the table. *)
Theorem saveDataSet_raises_after_save_on_blank_frame :
  save_on_blank_frame empty_folder = Ok tt saved_on_blank /\
  nth_error (relativeimagenames (gui saved_on_blank)) (iter (gui saved_on_blank))
    = Some rel1 /\
  exists w1 w',
    onClick (click 30 40) saved_on_blank = Ok tt w1 /\
    saveDataSet linux w1 = Raise KeyError w' /\
    out w' = out w1 ++ [EvStatusText "File saved"] /\
    read_file (disk w') csv = None /\
    read_file (disk w') h5 = None /\
    path_exists (disk w') (Str.replace ".csv" ".csv.backup" csv) = true /\
    dataFrame (gui w')
      = Some (mkDataFrame (columns table)
                [(rel0, [Val 10%Z; Val 20%Z; NaN; NaN; NaN; NaN])]).
Proof.
  split; [vm_compute; reflexivity|]. split; [reflexivity|].
  eexists. eexists. split; [vm_compute; reflexivity|].
  split; [vm_compute; reflexivity|].
  repeat split.
Qed.

(** C7.  On Linux a rename that fails ends the save: with an earlier .csv
    that cannot be renamed, [saveDataSet] leaves with PermissionError, no file
    is written and the pending nose is not even committed to the store. *)
Theorem saveDataSet_stops_when_rename_fails :
  exists w',
    saveDataSet linux csv_locked = Raise PermissionError w' /\
    disk w' = disk csv_locked /\
    dataFrame (gui w') = Some table /\
    out w' = [].
Proof. eexists. split; [vm_compute; reflexivity|]. repeat split. Qed.

(** On macOS the same failure is caught and the save goes on. *)
Example saveDataSet_darwin_goes_on :
  exists w' T,
    saveDataSet (env "darwin" ["nose"; "ear"; "tail"]) csv_locked = Ok tt w' /\
    read_file (disk w') csv = Some (CsvTable T) /\
    read_file (disk w') h5 = Some (HdfTable "df_with_missing" T) /\
    In (EvPrint " Unexpected os.rename behaviour, try win32 approach") (out w').
Proof.
  eexists. eexists. split; [vm_compute; reflexivity|].
  split; [reflexivity|]. split; [reflexivity|]. left. reflexivity.
Qed.

(** On Windows the earlier file is only renamed when a backup exists already:
    the first save over an existing table keeps no backup of it. *)
Example saveDataSet_win32_first_backup :
  exists w',
    saveDataSet (env "win32" ["nose"; "ear"; "tail"]) nose_placed = Ok tt w' /\
    path_exists (disk nose_placed) h5 = true /\
    path_exists (disk w') (Str.replace ".h5" ".h5.backup" h5) = false.
Proof. eexists. split; [vm_compute; reflexivity|]. split; reflexivity. Qed.

(** C8.  A configuration that names a bodypart twice does not end the load:
    after the error is printed and [self.Close(True)] is called, [browseDir]
    still draws the frame, creates a point handle for each entry of the list
    and returns. *)
Theorem browseDir_goes_on_after_duplicates :
  exists w',
    browseDir twice started_nose = Ok tt w' /\
    In (EvPrint not_unique_message) (out w') /\
    In (EvDrawPlot img1 "img1.png" 1 ["nose"; "nose"] false)
       (after_close (out w')) /\
    In (EvDraggableConnect "nose") (after_close (out w')) /\
    List.length (drs (gui w')) = 2 /\
    List.length (updatedCoords (gui w')) = 2.
Proof.
  eexists. split; [vm_compute; reflexivity|].
  split; [vm_compute; tauto|]. split; [vm_compute; tauto|].
  split; [vm_compute; tauto|]. split; reflexivity.
Qed.

(* ------------------------------------------------------------------ *)
(** * The further properties on the small project *)

Ltac settle :=
  first [ reflexivity
        | vm_compute; reflexivity
        | vm_compute; lia
        | unfold in_step; repeat split; vm_compute; reflexivity
        | repeat constructor; discriminate
        | vm_compute; tauto
        | eexists; split; [vm_compute; left; reflexivity | reflexivity]
        | let t := fresh in let H := fresh in
          intros t H; vm_compute in H; discriminate H
        | let r := fresh in let Hr := fresh in let Hl := fresh in
          intros r Hr Hl; vm_compute in Hr;
          repeat (destruct Hr as [Hr|Hr];
                  [ subst r;
                    first [reflexivity | vm_compute in Hl; discriminate Hl] |]);
          contradiction ].

Lemma commit_then_read_witness :
  exists w',
    saveEachImage nose_placed = Ok tt w' /\
    stored_value "nose" "x" w' = Ok (e_x (last (@nil (entry Z)) (mkEntry (Val 10%Z) (Val 20%Z) "nose" 0))) w' /\
    stored_value "nose" "y" w' = Ok (e_y (last (@nil (entry Z)) (mkEntry (Val 10%Z) (Val 20%Z) "nose" 0))) w'.
Proof.
  apply (commit_then_read Z
           nose_placed
           table
           rel0
           ([NaN; NaN; Val 5%Z; Val 6%Z; NaN; NaN])
           "nose"
           0
           1
           ([[(mkEntry (@NaN Z) (@NaN Z) "nose" 0)]; [(mkEntry (Val 5%Z) (Val 6%Z) "ear" 1)]; [(mkEntry (@NaN Z) (@NaN Z) "tail" 2)]])
           (mkEntry (Val 10%Z) (Val 20%Z) "nose" 0)
           (@nil (entry Z))
           (@nil (list (entry Z))));
    settle.
Defined.

Lemma plot_rebuilds_editor_witness :
  exists bc w',
    plot img0 opened = Ok bc w' /\ stable opened w' /\
    updatedCoords (gui w') =
      map (drawn_coords table (scorer (gui opened)) (iter (gui opened)))
          (enumerate (bodyparts (gui opened))) /\
    drs (gui w') =
      drawn_points table (scorer (gui opened)) (markerSize (gui opened)) (iter (gui opened))
        (enumerate (bodyparts (gui opened))) /\
    buttonCounter (gui w') =
      buttonCounter (gui opened)
      ++ annotated table (scorer (gui opened)) (iter (gui opened))
           (enumerate (bodyparts (gui opened))) /\
    bc = buttonCounter (gui w').
Proof.
  apply (plot_rebuilds_editor Z opened table img0);
    settle.
Defined.

Lemma commit_after_plot_keeps_store_witness :
  exists bc w1 w2,
    plot img0 opened = Ok bc w1 /\
    saveEachImage w1 = Ok tt w2 /\
    dataFrame (gui w2) = Some table /\
    updatedCoords (gui w2) = updatedCoords (gui w1).
Proof.
  apply (commit_after_plot_keeps_store Z opened table img0);
    settle.
Defined.




Lemma duplicate_labels_copies_previous_witness :
  exists w' df' curr prev cells,
    duplicate_labels at_second = Ok tt w' /\
    nth_error (relativeimagenames (gui at_second)) (iter (gui at_second)) = Some curr /\
    nth_error (rows table) (iter (gui at_second) - 1) = Some (prev, cells) /\
    dataFrame (gui w') = Some df' /\
    columns df' = columns table /\
    nth_error (rows df') (iter (gui at_second)) = Some (curr, cells) /\
    (forall j, j <> iter (gui at_second) ->
               nth_error (rows df') j = nth_error (rows table) j) /\
    updatedCoords (gui w') =
      map (drawn_coords table (scorer (gui at_second)) (iter (gui at_second) - 1))
          (enumerate (bodyparts (gui at_second))) /\
    buttonCounter (gui w') =
      buttonCounter (gui at_second)
      ++ annotated table (scorer (gui at_second)) (iter (gui at_second) - 1)
           (enumerate (bodyparts (gui at_second))) /\
    iter (gui w') = iter (gui at_second) /\
    disk w' = disk at_second.
Proof.
  apply (duplicate_labels_copies_previous Z at_second table);
    settle.
Defined.


Lemma read_existing_dataset_resumes_witness :
  exists w',
    read_existing_dataset resumed = Ok tt w' /\
    dataFrame (gui w') = Some (sort_index nose_table) /\
    disk w' = disk resumed /\
    (df_index (sort_index nose_table) = [] -> iter (gui w') = iter (gui resumed)) /\
    (forall i x,
        nth_error (df_index (sort_index nose_table)) i = Some x ->
        row_all_nan (sort_index nose_table) x = true ->
        (forall j y, j < i -> nth_error (df_index (sort_index nose_table)) j = Some y ->
                     row_all_nan (sort_index nose_table) y = false) ->
        iter (gui w') = i) /\
    (df_index (sort_index nose_table) <> [] ->
     (forall x, In x (df_index (sort_index nose_table)) ->
                row_all_nan (sort_index nose_table) x = false) ->
     iter (gui w') = 0).
Proof.
  apply (read_existing_dataset_resumes Z resumed folder nose_table);
    settle.
Defined.

Lemma read_existing_dataset_starts_empty_witness :
  read_existing_dataset unlabelled
  = Ok tt (mkWorld
             (set_iter 0
                (set_dataFrame
                   (Some (nan_frame
                            (flat_map (from_product (scorer (gui unlabelled))) ("nose" :: ["ear"]))
                            (relativeimagenames (gui unlabelled))))
                   (gui unlabelled)))
             (disk unlabelled) (out unlabelled)).
Proof.
  apply (read_existing_dataset_starts_empty Z
           unlabelled
           folder
           "nose"
           (["ear"]));
    settle.
Defined.

Lemma add_new_frames_adds_unset_rows_witness :
  exists w' df',
    add_new_frames one_more = Ok tt w' /\
    dataFrame (gui w') = Some df' /\
    columns df' = columns table /\
    (forall r : Row Z,
        In r (rows df') <->
        In r (rows table)
        \/ (In (fst r) (relativeimagenames (gui one_more))
            /\ ~ In (fst r) (df_index table)
            /\ snd r = nan_cells (List.length (columns table)))) /\
    (forall x, In x (relativeimagenames (gui one_more)) -> In x (df_index df')) /\
    (df' = table \/
     Sorted (fun a b => String.leb a b = true) (df_index df')) /\
    iter (gui w') = iter (gui one_more) /\
    disk w' = disk one_more.
Proof.
  apply (add_new_frames_adds_unset_rows Z
           one_more
           table
           "nose"
           (["ear"; "tail"]));
    settle.
Defined.

Lemma reset_then_read_witness :
  exists w',
    ResetEachImage nose_placed = Ok tt w' /\
    stored_value "nose" "x" w' = Ok NaN w' /\
    stored_value "nose" "y" w' = Ok NaN w'.
Proof.
  apply (reset_then_read Z
           nose_placed
           table
           rel0
           ([NaN; NaN; Val 5%Z; Val 6%Z; NaN; NaN])
           "nose"
           0
           1
           (mkEntry (Val 10%Z) (Val 20%Z) "nose" 0)
           (@nil (entry Z)));
    settle.
Defined.

Lemma saveEachImage_frame_without_row_witness :
  saveEachImage without_row = Raise KeyError without_row.
Proof.
  apply (saveEachImage_frame_without_row Z
           without_row
           table
           rel3
           (mkEntry (@NaN Z) (@NaN Z) "nose" 0)
           (@nil (entry Z))
           ([[(mkEntry (Val 5%Z) (Val 6%Z) "ear" 1)]; [(mkEntry (@NaN Z) (@NaN Z) "tail" 2)]]));
    settle.
Defined.

Lemma saveDataSet_store_is_written_table_witness :
  let df := fold_left (commit_handle rel0 (scorer (gui nose_placed)))
                      (updatedCoords (gui nose_placed)) table in
  exists w' T,
    saveDataSet linux nose_placed = Ok tt w' /\
    dataFrame (gui w') = Some T /\
    read_file (disk w') (Str.path_join folder (csv_name (scorer (gui nose_placed))))
      = Some (CsvTable T) /\
    read_file (disk w') (Str.path_join folder (hdf_name (scorer (gui nose_placed))))
      = Some (hdf_content "df_with_missing" T) /\
    (forall l,
        (forall r : Row Z, In r (rows df) -> fst r = l ->
                              forallb (@isnan Z) (snd r) = true) ->
        Str.mem l (df_index T) = false).
Proof.
  apply (saveDataSet_store_is_written_table Z linux
           nose_placed
           (world_of (backup_previous_save linux csv h5 nose_placed))
           folder
           table
           rel0);
    settle.
Defined.

Lemma nextImage_verify_done_witness :
  exists w' o,
    nextImage linux verifying = Ok tt w' /\
    dataFrame (gui w') =
      Some (fold_left (commit_handle rel0 (scorer (gui verifying)))
                      (updatedCoords (gui verifying)) table) /\
    verify_counter (gui w') = verify_counter (gui verifying) + 1 /\
    iter (gui w') = iter (gui verifying) /\
    img (gui w') = img (gui verifying) /\
    disk w' = disk verifying /\
    out w' = o ++ [EvEnable "prev" false; EvPrint "DONE.... exit GUI or so"].
Proof.
  apply (nextImage_verify_done Z linux verifying table rel0 folder);
    settle.
Defined.

Lemma load_labeled_frame4verification_needs_file_witness :
  exists w',
    load_labeled_frame4verification linux "vid" "img0.png" no_table
    = Raise FileNotFoundError w' /\
    dir (gui w') = Some folder /\
    index (gui w') = np_sort (list_images linux folder) /\
    dataFrame (gui w') = dataFrame (gui no_table) /\
    iter (gui w') = iter (gui no_table) /\
    disk w' = disk no_table.
Proof.
  apply (load_labeled_frame4verification_needs_file Z linux
           no_table
           "vid"
           "img0.png"
           folder);
    settle.
Defined.

Lemma browseDir_fresh_folder_witness :
  exists w',
    browseDir linux empty_folder = Ok tt w' /\
    index (gui w') = np_sort (list_images linux folder) /\
    relativeimagenames (gui w')
      = map (fun n => "labeled" +++ nth 1 (Str.split "labeled" n) "")
            (index (gui w')) /\
    dataFrame (gui w')
      = Some (nan_frame
                (flat_map (from_product (cfg_scorer (read_config linux)))
                          ("nose" :: ["ear"; "tail"]))
                (relativeimagenames (gui w'))) /\
    iter (gui w') = 0 /\
    nth_error (index (gui w')) 0 = Some (img (gui w')) /\
    updatedCoords (gui w')
      = map (fun b => [mkEntry NaN NaN (snd b) (fst b)]) (enumerate ("nose" :: ["ear"; "tail"])) /\
    buttonCounter (gui w') = buttonCounter (gui empty_folder) /\
    rdb (gui w') = 0 /\
    disk w' = disk empty_folder.
Proof.
  apply (browseDir_fresh_folder Z linux
           empty_folder
           folder
           "nose"
           (["ear"; "tail"])
           img2
           ([img0; img1]));
    settle.
Defined.

Lemma save_then_reload_witness :
  exists w' T,
    saveDataSet linux nose_placed = Ok tt w' /\
    dataFrame (gui w') = Some T /\
    forall w0,
      dir (gui w0) = Some folder ->
      scorer (gui w0) = scorer (gui nose_placed) ->
      disk w0 = disk w' ->
      exists w0',
        read_existing_dataset w0 = Ok tt w0' /\
        dataFrame (gui w0') = Some T.
Proof.
  apply (save_then_reload Z linux
           nose_placed
           (world_of (backup_previous_save linux csv h5 nose_placed))
           folder
           table
           rel0);
    settle.
Defined.


Lemma browseDir_annotated_folder_witness :
  exists w' i shown,
    browseDir linux started = Ok tt w' /\
    first_empty_row (sort_index table) (enumerate (df_index (sort_index table)))
      = Some i /\
    nth_error (np_sort (list_images linux folder)) i = Some shown /\
    index (gui w') = np_sort (list_images linux folder) /\
    relativeimagenames (gui w') = df_index (sort_index table) /\
    dataFrame (gui w') = Some (sort_index table) /\
    iter (gui w') = i /\
    img (gui w') = shown /\
    rdb (gui w') = 0 /\
    updatedCoords (gui w')
      = map (drawn_coords (sort_index table) (cfg_scorer (read_config linux)) i)
            (enumerate ["nose"; "ear"; "tail"]) /\
    buttonCounter (gui w')
      = buttonCounter (gui started)
        ++ annotated (sort_index table) (cfg_scorer (read_config linux)) i
             (enumerate ["nose"; "ear"; "tail"]) /\
    disk w' = disk started.
Proof.
  apply (browseDir_annotated_folder Z linux
           started
           folder
           (["nose"; "ear"; "tail"])
           img2
           ([img0; img1])
           table);
    settle.
Defined.

Lemma commit_after_save_of_blank_frame_witness :
  exists w',
    saveDataSet nose_only resumed = Ok tt w' /\
    saveEachImage w' = Raise KeyError w'.
Proof.
  apply (commit_after_save_of_blank_frame Z nose_only
           resumed
           (world_of (backup_previous_save nose_only csv h5 resumed))
           folder
           nose_table
           rel1
           (mkEntry (@NaN Z) (@NaN Z) "nose" 0)
           (@nil (entry Z))
           (@nil (list (entry Z))));
    settle.
Defined.
